(** * sb-live-lapse: the RASS profile parser, the MADIS station fetcher and
      the chart renderer of [replot_latest_sba.py] and [replot_recent60_sba.py]

    The two scripts are near copies.  Their code is embedded here function by
    function:
    - [Py]: the Python values and library functions the scripts rely on;
    - [Profile]: [parse_rass_profile] / [parse_rass] (observation time, table
      extraction and resampling onto the 100 m grid);
    - [Madis]: [query_madis], [fetch_one_station_fallback],
      [fetch_madis_stations] (latest variant) and [fetch_station]
      (recent-60 variant);
    - [Chart]: [draw_chart] and [main] (latest), [draw_svg] and [main]
      (recent-60);
    - [Sample]: concrete text, records and rows on which the code is run;
    - [Spec]: the vocabulary of the specification.
    The theorems follow, grouped by component.

    Numbers.  A Python [float] is a [pyfloat]: a finite value, kept as an exact
    rational, or one of the three non-finite values that [float()] produces
    from text ([inf], [-inf], [nan]).  Arithmetic on finite values is exact:
    rounding and overflow of binary64 are not part of this model.  The
    non-finite values follow the IEEE rules that Python exposes, because
    [math.ceil]/[math.floor] raise on them and comparisons with [nan] are
    false.  A Python [int] is a [Z].

    Text.  A [str] is a Rocq [string], one character per code point below 256.

    Exceptions.  Code that can raise returns a [result]; [try]/[except] is a
    match on it.

    The outside world.  [float()] and [strptime] are fields of the class
    [Builtins]; the answers of the MADIS service are a [service] record.  The
    theorems hold for all of them. *)

From Stdlib Require Import QArith Qround Qabs Lqa ZArith Lia String Ascii List.
From Stdlib Require Import DecimalString.
From Stdlib Require OrderedTypeEx.
From stdpp Require Import gmap strings list fin_maps sorting.

Open Scope Q_scope.

(* ===================================================================== *)
(** * Python values                                                       *)
(* ===================================================================== *)

Module Py.

(** ** Exceptions and results *)

Inductive exn : Type :=
| RuntimeError (msg : string)
| ValueError (msg : string)
| OverflowError (msg : string)
| ZeroDivisionError (msg : string)
| IndexError (msg : string)
| TypeError (msg : string)
| MemoryError (msg : string)
| IOError (msg : string).      (* raised by the transport or the XML parser *)

(** [str(exc)] *)
Definition exn_str (e : exn) : string :=
  match e with
  | RuntimeError m | ValueError m | OverflowError m | ZeroDivisionError m
  | IndexError m | TypeError m | MemoryError m | IOError m => m
  end.

Inductive result (A : Type) : Type :=
| Ok (a : A)
| Raise (e : exn).
Arguments Ok {A} a.
Arguments Raise {A} e.

Definition bind {A B} (m : result A) (k : A -> result B) : result B :=
  match m with
  | Ok a => k a
  | Raise e => Raise e
  end.

Definition raises {A} (m : result A) : Prop :=
  match m with Ok _ => False | Raise _ => True end.

Definition returns {A} (m : result A) : Prop :=
  match m with Ok _ => True | Raise _ => False end.

Fixpoint mapM {A B} (f : A -> result B) (l : list A) : result (list B) :=
  match l with
  | [] => Ok []
  | x :: xs =>
      match f x with
      | Raise e => Raise e
      | Ok y => match mapM f xs with
                | Raise e => Raise e
                | Ok ys => Ok (y :: ys)
                end
      end
  end.

(** ** Floats *)

Inductive pyfloat : Type :=
| Fin (q : Q)
| PInf
| NInf
| NaN.

Definition of_int (z : Z) : pyfloat := Fin (inject_Z z).

Definition is_finite (x : pyfloat) : bool :=
  match x with Fin _ => true | _ => false end.

(** [x < y], [x <= y], [x == y] of Python floats. *)
Definition fltb (x y : pyfloat) : bool :=
  match x, y with
  | Fin a, Fin b => negb (Qle_bool b a)
  | Fin _, PInf | NInf, Fin _ | NInf, PInf => true
  | _, _ => false
  end.

Definition fleb (x y : pyfloat) : bool :=
  match x, y with
  | Fin a, Fin b => Qle_bool a b
  | Fin _, PInf | NInf, Fin _ | NInf, PInf | PInf, PInf | NInf, NInf => true
  | _, _ => false
  end.

Definition feqb (x y : pyfloat) : bool :=
  match x, y with
  | Fin a, Fin b => Qeq_bool a b
  | PInf, PInf | NInf, NInf => true
  | _, _ => false
  end.

Definition fgtb (x y : pyfloat) : bool := fltb y x.
Definition fgeb (x y : pyfloat) : bool := fleb y x.

Definition fneg (x : pyfloat) : pyfloat :=
  match x with
  | Fin a => Fin (- a)
  | PInf => NInf
  | NInf => PInf
  | NaN => NaN
  end.

Definition fadd (x y : pyfloat) : pyfloat :=
  match x, y with
  | Fin a, Fin b => Fin (a + b)
  | NaN, _ | _, NaN => NaN
  | PInf, NInf | NInf, PInf => NaN
  | PInf, _ | _, PInf => PInf
  | NInf, _ | _, NInf => NInf
  end.

Definition fsub (x y : pyfloat) : pyfloat := fadd x (fneg y).

(** The sign of a finite value: [Gt] positive, [Lt] negative, [Eq] zero. *)
Definition qsign (a : Q) : comparison := (a ?= 0)%Q.

Definition fmul (x y : pyfloat) : pyfloat :=
  match x, y with
  | Fin a, Fin b => Fin (a * b)
  | NaN, _ | _, NaN => NaN
  | Fin a, PInf | PInf, Fin a =>
      match qsign a with Eq => NaN | Gt => PInf | Lt => NInf end
  | Fin a, NInf | NInf, Fin a =>
      match qsign a with Eq => NaN | Gt => NInf | Lt => PInf end
  | PInf, PInf | NInf, NInf => PInf
  | PInf, NInf | NInf, PInf => NInf
  end.

(** [x / y] for a divisor that is not zero.  ([Fin a / Fin 0] does not occur:
    [py_truediv] raises before.) *)
Definition fdiv (x y : pyfloat) : pyfloat :=
  match x, y with
  | Fin a, Fin b => Fin (a / b)
  | NaN, _ | _, NaN => NaN
  | Fin _, PInf | Fin _, NInf => Fin 0
  | PInf, Fin b => match qsign b with Lt => NInf | _ => PInf end
  | NInf, Fin b => match qsign b with Lt => PInf | _ => NInf end
  | _, _ => NaN
  end.

Definition is_zero (x : pyfloat) : bool :=
  match x with Fin a => Qeq_bool a 0 | _ => false end.

(** [x / y]: Python raises [ZeroDivisionError] on a zero divisor. *)
Definition py_truediv (x y : pyfloat) : result pyfloat :=
  if is_zero y then Raise (ZeroDivisionError "float division by zero")
  else Ok (fdiv x y).

Definition fabs (x : pyfloat) : pyfloat :=
  match x with
  | Fin a => Fin (Qabs a)
  | PInf | NInf => PInf
  | NaN => NaN
  end.

(** [math.floor(x)] and [math.ceil(x)]: an [int], or an exception on a
    non-finite argument. *)
Definition math_floor (x : pyfloat) : result Z :=
  match x with
  | Fin a => Ok (Qfloor a)
  | PInf | NInf => Raise (OverflowError "cannot convert float infinity to integer")
  | NaN => Raise (ValueError "cannot convert float NaN to integer")
  end.

Definition math_ceil (x : pyfloat) : result Z :=
  match x with
  | Fin a => Ok (Qceiling a)
  | PInf | NInf => Raise (OverflowError "cannot convert float infinity to integer")
  | NaN => Raise (ValueError "cannot convert float NaN to integer")
  end.

(** [min(x, *xs)] and [max(x, *xs)]: CPython keeps the first item and replaces
    it by a later one only when that one compares strictly smaller (larger). *)
Definition py_min (x : pyfloat) (xs : list pyfloat) : pyfloat :=
  fold_left (fun m y => if fltb y m then y else m) xs x.

Definition py_max (x : pyfloat) (xs : list pyfloat) : pyfloat :=
  fold_left (fun m y => if fgtb y m then y else m) xs x.

(** [min(l)] / [max(l)] of a list: [ValueError] on the empty list. *)
Definition py_min_list (l : list pyfloat) : result pyfloat :=
  match l with
  | [] => Raise (ValueError "min() arg is an empty sequence")
  | x :: xs => Ok (py_min x xs)
  end.

Definition py_max_list (l : list pyfloat) : result pyfloat :=
  match l with
  | [] => Raise (ValueError "max() arg is an empty sequence")
  | x :: xs => Ok (py_max x xs)
  end.

(** [list(range(lo, hi, step))] for a positive step: CPython computes the
    length [(hi - lo - 1) // step + 1] when [lo < hi], and [0] otherwise. *)
Definition py_range (lo hi step : Z) : list Z :=
  let n := if (lo <? hi)%Z then Z.to_nat ((hi - lo - 1) / step + 1) else 0%nat in
  map (fun i : nat => (lo + Z.of_nat i * step)%Z) (seq 0 n).

(** [v is not None] / [v is None] *)
Definition not_none {A} (v : option A) : bool :=
  match v with Some _ => true | None => false end.

Definition is_none {A} (v : option A) : bool :=
  match v with Some _ => false | None => true end.

(** [l[i]] for [i >= 0] and [l[-1]]. *)
Definition index {A} (l : list A) (i : nat) : result A :=
  match l !! i with
  | Some x => Ok x
  | None => Raise (IndexError "list index out of range")
  end.

Definition index_last {A} (l : list A) : result A :=
  match last l with
  | Some x => Ok x
  | None => Raise (IndexError "list index out of range")
  end.

(** ** Strings *)

(** Whitespace of [str.strip()] and [str.split()] among the code points below
    256: TAB..CR, FS..US, space, NEL, NBSP. *)
Definition is_space (c : ascii) : bool :=
  let n := nat_of_ascii c in
  ((9 <=? n) && (n <=? 13) || (28 <=? n) && (n <=? 32) || (n =? 133) || (n =? 160))%nat.

(** Line boundaries of [str.splitlines()] below 256: LF, VT, FF, CR, FS, GS,
    RS, NEL (and the pair CR LF, which counts once). *)
Definition is_linebreak (c : ascii) : bool :=
  let n := nat_of_ascii c in
  ((10 <=? n) && (n <=? 13) || (28 <=? n) && (n <=? 30) || (n =? 133))%nat.

Definition is_empty (s : string) : bool :=
  match s with EmptyString => true | String _ _ => false end.

Fixpoint lstrip (s : string) : string :=
  match s with
  | EmptyString => EmptyString
  | String c s' => if is_space c then lstrip s' else s
  end.

Fixpoint rstrip (s : string) : string :=
  match s with
  | EmptyString => EmptyString
  | String c s' =>
      let r := rstrip s' in
      if is_space c && is_empty r then EmptyString else String c r
  end.

(** [s.strip()] *)
Definition strip (s : string) : string := lstrip (rstrip s).

(** [s.startswith(p)] *)
Definition startswith (p s : string) : bool := String.prefix p s.

Fixpoint split_go (cur : string) (s : string) : list string :=
  match s with
  | EmptyString => if is_empty cur then [] else [cur]
  | String c s' =>
      if is_space c then
        if is_empty cur then split_go EmptyString s'
        else cur :: split_go EmptyString s'
      else split_go (cur ++ String c EmptyString) s'
  end.

(** [s.split()]: the maximal runs of non-whitespace characters. *)
Definition split (s : string) : list string := split_go EmptyString s.

Fixpoint splitlines_go (cur : string) (s : string) : list string :=
  match s with
  | EmptyString => if is_empty cur then [] else [cur]
  | String c s' =>
      if is_linebreak c then
        match s' with
        | String c2 s'' =>
            if (nat_of_ascii c =? 13)%nat && (nat_of_ascii c2 =? 10)%nat
            then cur :: splitlines_go EmptyString s''
            else cur :: splitlines_go EmptyString s'
        | EmptyString => cur :: splitlines_go EmptyString s'
        end
      else splitlines_go (cur ++ String c EmptyString) s'
  end.

(** [s.splitlines()] *)
Definition splitlines (s : string) : list string := splitlines_go EmptyString s.

(** [s.isdigit()] below 256: the decimal digits and the superscripts
    one, two, three. *)
Definition is_digit_char (c : ascii) : bool :=
  let n := nat_of_ascii c in
  ((48 <=? n) && (n <=? 57) || (n =? 178) || (n =? 179) || (n =? 185))%nat.

Definition isdigit (s : string) : bool :=
  negb (is_empty s) && forallb is_digit_char (list_ascii_of_string s).

(** [s.replace(".", "", 1)] *)
Fixpoint remove_first_dot (s : string) : string :=
  match s with
  | EmptyString => EmptyString
  | String c s' => if Ascii.eqb c "." then s' else String c (remove_first_dot s')
  end.

(** [s.zfill(2)]: zeros go after a leading sign. *)
Definition zfill2 (s : string) : string :=
  match s with
  | EmptyString => "00"
  | String c EmptyString =>
      if Ascii.eqb c "+" || Ascii.eqb c "-" then String c "0" else String "0" s
  | _ => s
  end.

(** [a > b] on [str]: lexicographic by code point. *)
Definition str_gtb (a b : string) : bool := String.ltb b a.

(** The library functions the scripts call on text.  [None] stands for the
    [ValueError] they raise; the [_msg] fields give its text. *)
Class Builtins : Type := {
  (** [float(s)] *)
  py_float : string -> option pyfloat;
  py_float_msg : string -> string;
  (** [datetime.strptime(s, "%Y-%m-%dT%H:%M")], as minutes since the epoch *)
  strptime : string -> option Z;
  strptime_msg : string -> string;
}.

Definition float_of `{Builtins} (s : string) : result pyfloat :=
  match py_float s with
  | Some v => Ok v
  | None => Raise (ValueError (py_float_msg s))
  end.

Definition strptime_of `{Builtins} (s : string) : result Z :=
  match strptime s with
  | Some v => Ok v
  | None => Raise (ValueError (strptime_msg s))
  end.

End Py.
Import Py.

Notation "'let!' p := m 'in' k" := (Py.bind m (fun p => k))
  (at level 10, p pattern, m at level 100, k at level 200).

(* ===================================================================== *)
(** * The profile parser: [parse_rass_profile] and [parse_rass]            *)
(* ===================================================================== *)

Module Profile.

(** A source point [(alt_m, temp_c)] and a resampled point [(alt, t)]. *)
Abbreviation point := (pyfloat * pyfloat)%type.
Abbreviation grid_point := (Z * pyfloat)%type.

(** The scan for the table header:
    [for idx, line in enumerate(lines): if line.strip().startswith("HT"): start_idx = idx + 1; break].
    [None] is [start_idx is None]. *)
Fixpoint find_header_from (idx : nat) (lines : list string) : option nat :=
  match lines with
  | [] => None
  | line :: rest =>
      if startswith "HT" (strip line) then Some (S idx)
      else find_header_from (S idx) rest
  end.

Definition find_header (lines : list string) : option nat :=
  find_header_from 0 lines.

(** The table loop over [lines[start_idx:]]: [break] at a blank line or at a
    line starting with [$]; [continue] on a short line, on a [ValueError] of
    either [float()], and on the sentinel temperature. *)
Fixpoint read_table `{Builtins} (lines : list string) : list point :=
  match lines with
  | [] => []
  | line :: rest =>
      if is_empty (strip line) || startswith "$" (strip line) then []
      else
        match split line with
        | p0 :: p1 :: _ =>
            match py_float p0 with
            | None => read_table rest
            | Some a =>
                let alt_m := fmul a (Fin 1000) in
                match py_float p1 with
                | None => read_table rest
                | Some temp_c =>
                    if fgeb temp_c (of_int 999999) then read_table rest
                    else (alt_m, temp_c) :: read_table rest
                end
            end
        | _ => read_table rest
        end
  end.

(** [points.sort(key=lambda x: x[0])]: a stable sort that compares keys with
    [<] only.  Each point goes in front of the first point with a strictly
    larger key, so equal keys keep their order.  (On keys that [<] orders
    totally every stable sort gives this list; with [nan] keys CPython's
    result depends on its merge strategy and is not claimed here.) *)
Fixpoint insert_by_alt (p : point) (l : list point) : list point :=
  match l with
  | [] => [p]
  | q :: l' => if fltb (fst p) (fst q) then p :: q :: l' else q :: insert_by_alt p l'
  end.

Definition sort_by_alt (l : list point) : list point :=
  fold_left (fun acc p => insert_by_alt p acc) l [].

(** [int(math.ceil(x / 100.0) * 100)] and [int(math.floor(x / 100.0) * 100)] *)
Definition ceil100 (x : pyfloat) : result Z :=
  let! c := math_ceil (fdiv x (Fin 100)) in Ok (c * 100)%Z.

Definition floor100 (x : pyfloat) : result Z :=
  let! c := math_floor (fdiv x (Fin 100)) in Ok (c * 100)%Z.

(** [while j < len(points) - 2 and points[j + 1][0] < alt: j += 1].
    The pointer moves at most [len(points)] times; [fuel] counts the
    iterations that are left.  Under the first conjunct [points[j + 1]]
    exists. *)
Fixpoint advance (fuel : nat) (points : list point) (j : nat) (alt : Z) : nat :=
  match fuel with
  | O => j
  | S fuel' =>
      if (Z.of_nat j <? Z.of_nat (length points) - 2)%Z then
        match points !! (j + 1)%nat with
        | Some (a1, _) =>
            if fltb a1 (of_int alt) then advance fuel' points (j + 1) alt else j
        | None => j
        end
      else j
  end.

(** The value appended for one grid altitude once the pointer stands at [j]. *)
Definition interp_at (points : list point) (j : nat) (alt : Z) : result pyfloat :=
  let! (a0, t0) := index points j in
  let! (a1, t1) := index points (j + 1) in
  if feqb a1 a0 then Ok t0
  else
    let! d := py_truediv (fmul (fsub t1 t0) (fsub (of_int alt) a0)) (fsub a1 a0) in
    Ok (fadd t0 d).

(** [for alt in alt_grid: ...; interpolated.append((alt, t))], with the pointer
    [j] carried from one grid altitude to the next. *)
Fixpoint interpolate (points : list point) (j : nat) (grid : list Z)
  : result (list grid_point) :=
  match grid with
  | [] => Ok []
  | alt :: rest =>
      let j' := advance (length points) points j alt in
      let! t := interp_at points j' alt in
      let! out := interpolate points j' rest in
      Ok ((alt, t) :: out)
  end.


(** [alt_grid = list(range(min_alt, max_alt + 1, 100))] of sorted points. *)
Definition alt_grid (sorted : list point) : result (list Z) :=
  let! first := index sorted 0 in
  let! min_alt := ceil100 (fst first) in
  let! last := index_last sorted in
  let! max_alt := floor100 (fst last) in
  Ok (py_range min_alt (max_alt + 1) 100).

(** From [if len(points) < 2] to the end of the function. *)
Definition resample (points : list point) : result (list grid_point) :=
  if (length points <? 2)%nat then Raise (RuntimeError "Not enough valid RASS points")
  else
    let sorted := sort_by_alt points in
    let! grid := alt_grid sorted in
    interpolate sorted 0 grid.

(** The scan of [lines[:12]] for the observation time: the first line whose
    first six fields are digit strings (one dot allowed) and whose first field
    has at most two characters. *)
Fixpoint scan_time (lines : list string) : option string :=
  match lines with
  | [] => None
  | line :: rest =>
      match split line with
      | yy :: mm :: dd :: hh :: mi :: ss :: _ =>
          if forallb (fun p => isdigit (remove_first_dot p)) [yy; mm; dd; hh; mi; ss]
          then
            if (String.length yy <=? 2)%nat then
              Some ("20" ++ yy ++ "-" ++ zfill2 mm ++ "-" ++ zfill2 dd ++ " "
                    ++ zfill2 hh ++ ":" ++ zfill2 mi ++ ":" ++ zfill2 ss)%string
            else scan_time rest
          else scan_time rest
      | _ => scan_time rest
      end
  end.

Definition observation_time (lines : list string) : option string :=
  scan_time (take 12 lines).

(** The body shared by the two parsers, which differ in the text of the first
    [RuntimeError] only ([no_header]). *)
Definition parse_profile `{Builtins} (no_header : string) (raw : string)
  : result (option string * list grid_point) :=
  let lines := splitlines raw in
  let obs_dt := observation_time lines in
  match find_header lines with
  | None => Raise (RuntimeError no_header)
  | Some start_idx =>
      let! interpolated := resample (read_table (drop start_idx lines)) in
      Ok (obs_dt, interpolated)
  end.

(** [replot_latest_sba.parse_rass_profile] *)
Definition parse_rass_profile `{Builtins} (raw_text : string)
  : result (option string * list grid_point) :=
  parse_profile "Could not find RASS data table start" raw_text.

(** [replot_recent60_sba.parse_rass] *)
Definition parse_rass `{Builtins} (raw : string)
  : result (option string * list grid_point) :=
  parse_profile "RASS table header not found" raw.

End Profile.

(* ===================================================================== *)
(** * The station fetcher                                                 *)
(* ===================================================================== *)

Module Madis.

Definition STATIONS : list string :=
  ["KC60YN"; "SE068"; "SE234"; "MTIC1"; "MPWC1"; "421SE"; "SE053"; "KSBA"].

(** A [<record>] element of a response: [rec.attrib.get(name)] for the six
    attributes the scripts read. *)
Record xml_record : Type := {
  r_var : option string;
  r_shef_id : option string;
  r_ObTime : option string;
  r_elev : option string;
  r_data_value : option string;
  r_provider : option string;
}.

(** What one query to the service gives: [fetch_text] raises, or
    [ET.fromstring] raises, or the document's [record] elements in order. *)
Inductive response : Type :=
| FetchFails (e : exn)
| XmlFails (e : exn)
| Records (recs : list xml_record).

(** The service during one run.  The time value of a query is a function of
    the lag in hours, so the lag stands for it. *)
Record service : Type := {
  ca_snapshot : nat -> response;                 (* [query_ca_snapshot] *)
  station_snapshot : string -> nat -> response;  (* [query_station_snapshot] *)
  station_latest : string -> response;           (* the query of [fetch_station] *)
}.

(** Truth value of an attribute: [None] and the empty string are false. *)
Definition present (o : option string) : bool :=
  match o with
  | Some s => negb (is_empty s)
  | None => false
  end.

Definition is_VT (rec : xml_record) : bool :=
  match r_var rec with
  | Some v => String.eqb v "V-T"
  | None => false
  end.

Definition text_of (o : option string) : string := default EmptyString o.

(** ** Latest variant *)

(** The row dictionary with keys [id], [elev_m], [temp_c], [ob_time],
    [provider]. *)
Record row : Type := {
  id : string;
  elev_m : option pyfloat;
  temp_c : option pyfloat;
  ob_time : option string;
  provider : string;
}.

Definition kelvin_offset : pyfloat := Fin 273.15.

(** The loop of [query_madis] over [root.findall("record")]. *)
Fixpoint query_loop `{Builtins} (recs : list xml_record) (out : gmap string row)
  : result (gmap string row) :=
  match recs with
  | [] => Ok out
  | rec :: rest =>
      if negb (is_VT rec) then query_loop rest out
      else if negb (present (r_shef_id rec)) || negb (present (r_ObTime rec))
              || negb (present (r_elev rec)) || negb (present (r_data_value rec))
      then query_loop rest out
      else
        let station_id := text_of (r_shef_id rec) in
        let! e := float_of (text_of (r_elev rec)) in
        let! v := float_of (text_of (r_data_value rec)) in
        let new_row := {| id := station_id;
                          elev_m := Some e;
                          temp_c := Some (fsub v kelvin_offset);
                          ob_time := Some (text_of (r_ObTime rec));
                          provider := text_of (r_provider rec) |} in
        match out !! station_id with
        | None => query_loop rest (<[station_id := new_row]> out)
        | Some prev =>
            match ob_time prev with
            | Some prev_time =>
                if str_gtb (text_of (r_ObTime rec)) prev_time
                then query_loop rest (<[station_id := new_row]> out)
                else query_loop rest out
            | None => Raise (TypeError "'>' not supported between instances of 'str' and 'NoneType'")
            end
        end
  end.

(** [query_madis]: the exceptions of the transport and of the XML parser
    propagate. *)
Definition query_madis `{Builtins} (resp : response) : result (gmap string row) :=
  match resp with
  | FetchFails e => Raise e
  | XmlFails e => Raise e
  | Records recs => query_loop recs ∅
  end.

Definition query_ca_snapshot `{Builtins} (svc : service) (lag_h : nat)
  : result (gmap string row) :=
  query_madis (ca_snapshot svc lag_h).

Definition query_station_snapshot `{Builtins} (svc : service) (station_id : string)
  (lag_h : nat) : result (gmap string row) :=
  query_madis (station_snapshot svc station_id lag_h).

Definition lag_checks : list nat :=
  [0; 1; 2; 3; 6; 9; 12; 18; 24; 36; 48; 72; 96; 120; 144; 168]%nat.

Definition missing_row (station_id provider_text : string) : row :=
  {| id := station_id; elev_m := None; temp_c := None; ob_time := None;
     provider := provider_text |}.

(** The loop of [fetch_one_station_fallback] with [last_error] as state; every
    exception of a query is caught.  [if last_error] is false for [None] and
    for the empty text. *)
Fixpoint fallback_loop `{Builtins} (svc : service) (station_id : string)
  (lags : list nat) (last_error : option string) : row :=
  match lags with
  | [] =>
      missing_row station_id
        (match last_error with
         | Some e => if is_empty e then "no_temp" else ("fetch_error: " ++ e)%string
         | None => "no_temp"
         end)
  | lag_h :: rest =>
      match query_station_snapshot svc station_id lag_h with
      | Ok rows =>
          match rows !! station_id with
          | Some r => r
          | None => fallback_loop svc station_id rest last_error
          end
      | Raise exc => fallback_loop svc station_id rest (Some (exn_str exc))
      end
  end.

Definition fetch_one_station_fallback `{Builtins} (svc : service) (station_id : string)
  : row :=
  fallback_loop svc station_id lag_checks None.

(** The inner loop [for station_id in list(pending)] of the batch phase. *)
Fixpoint take_from_snapshot (snapshot : gmap string row) (todo : list string)
  (pending : list string) (results : gmap string row)
  : list string * gmap string row :=
  match todo with
  | [] => (pending, results)
  | station_id :: rest =>
      match snapshot !! station_id with
      | Some r =>
          take_from_snapshot snapshot rest
            (List.filter (fun s => negb (String.eqb s station_id)) pending)
            (<[station_id := r]> results)
      | None => take_from_snapshot snapshot rest pending results
      end
  end.

(** The batch phase [for lag_h in range(0, 73)].  The pending set is kept as a
    list without repetitions; the order in which it is walked has no effect on
    [results], which is keyed by station. *)
Fixpoint batch_loop `{Builtins} (svc : service) (lags : list nat)
  (pending : list string) (results : gmap string row)
  : list string * gmap string row :=
  match lags with
  | [] => (pending, results)
  | lag_h :: rest =>
      match pending with
      | [] => (pending, results)
      | _ =>
          match query_ca_snapshot svc lag_h with
          | Raise _ => batch_loop svc rest pending results
          | Ok snapshot =>
              let '(pending', results') :=
                take_from_snapshot snapshot pending pending results in
              batch_loop svc rest pending' results'
          end
      end
  end.

(** [fetch_madis_stations].  The fallback workers run in a pool; each gives one
    row, stored under its own [id], so the order of completion does not
    matter. *)
Definition fetch_madis_stations `{Builtins} (svc : service) : list row :=
  let '(pending, results) := batch_loop svc (seq 0 73) STATIONS ∅ in
  let results :=
    fold_left (fun res stn =>
                 let r := fetch_one_station_fallback svc stn in
                 <[id r := r]> res)
              pending results in
  (fun stn => default (missing_row stn "no_temp") (results !! stn)) <$> STATIONS.

(** ** Recent-60 variant *)

(** The row dictionary of [fetch_station], with [age_min] and [recent]. *)
Record row60 : Type := {
  id60 : string;
  elev_m60 : option pyfloat;
  temp_c60 : option pyfloat;
  ob_time60 : option string;
  age_min60 : option pyfloat;
  provider60 : string;
  recent60 : bool;
}.

Definition missing_row60 (station_id provider_text : string) : row60 :=
  {| id60 := station_id; elev_m60 := None; temp_c60 := None; ob_time60 := None;
     age_min60 := None; provider60 := provider_text; recent60 := false |}.

(** An entry of [records]: [(ob_time, float(elev), float(val), provider)]. *)
Abbreviation obs := (string * pyfloat * pyfloat * string)%type.

(** The loop that fills [records]; a [float()] that fails raises out of it. *)
Fixpoint collect_records `{Builtins} (recs : list xml_record) : result (list obs) :=
  match recs with
  | [] => Ok []
  | rec :: rest =>
      if negb (is_VT rec) then collect_records rest
      else if negb (present (r_ObTime rec)) || negb (present (r_elev rec))
              || negb (present (r_data_value rec))
      then collect_records rest
      else
        let! e := float_of (text_of (r_elev rec)) in
        let! v := float_of (text_of (r_data_value rec)) in
        let! more := collect_records rest in
        Ok ((text_of (r_ObTime rec), e, v, text_of (r_provider rec)) :: more)
  end.

(** [records.sort(key=lambda r: datetime.strptime(r[0], ...))]: the keys are
    computed first, in list order; then a stable sort on them. *)
Fixpoint insert_by_key (k : Z) (r : obs) (l : list (Z * obs)) : list (Z * obs) :=
  match l with
  | [] => [(k, r)]
  | (k', r') :: l' =>
      if (k <? k')%Z then (k, r) :: (k', r') :: l'
      else (k', r') :: insert_by_key k r l'
  end.

Definition sort_by_time `{Builtins} (records : list obs) : result (list obs) :=
  let! keyed := mapM (fun r : obs =>
                        let! k := strptime_of (fst (fst (fst r))) in Ok (k, r))
                     records in
  Ok (snd <$> fold_left (fun acc kr => insert_by_key (fst kr) (snd kr) acc) keyed []).

(** [fetch_station]; [now_utc] is in minutes since the epoch. *)
Definition fetch_station `{Builtins} (station_id : string) (now_utc : Q)
  (resp : response) : result row60 :=
  match resp with
  | FetchFails exc => Ok (missing_row60 station_id ("fetch_error: " ++ exn_str exc))
  | XmlFails exc => Ok (missing_row60 station_id ("xml_error: " ++ exn_str exc))
  | Records recs =>
      let! records := collect_records recs in
      match records with
      | [] => Ok (missing_row60 station_id "no_temp")
      | _ =>
          let! sorted := sort_by_time records in
          let! newest := index_last sorted in
          let '(ob_time, elev_m, temp_k, provider) := newest in
          let! obs_dt := strptime_of ob_time in
          let age_min := Fin (now_utc - inject_Z obs_dt) in
          let recent := fleb age_min (Fin 60) in
          Ok {| id60 := station_id;
                elev_m60 := Some elev_m;
                temp_c60 := Some (fsub temp_k kelvin_offset);
                ob_time60 := Some ob_time;
                age_min60 := Some age_min;
                provider60 := provider;
                recent60 := recent |}
      end
  end.

(** The station part of [main]: one worker per station, and [fut.result()]
    raises again what a worker raised.  (When several workers raise, the pool
    decides which exception comes first; here it is the first in station
    order.)  The rows are then sorted by position in [STATIONS]. *)
Definition station_rows `{Builtins} (svc : service) (now_utc : Q) : result (list row60) :=
  mapM (fun stn => fetch_station stn now_utc (station_latest svc stn)) STATIONS.

End Madis.

(* ===================================================================== *)
(** * The chart renderer                                                  *)
(* ===================================================================== *)

Module Chart.
Import Profile Madis.

Definition width : Z := 940.
Definition height : Z := 560.
Definition margin_left : Z := 90.
Definition margin_right : Z := 190.
Definition margin_top : Z := 50.
Definition margin_bottom : Z := 80.
Definition plot_w : Z := width - margin_left - margin_right.
Definition plot_h : Z := height - margin_top - margin_bottom.

(** The text inside an element: a string, an integer, or a float that the
    script prints with a fixed number of decimals. *)
Inductive body : Type :=
| BStr (s : string)
| BInt (z : Z)
| BNum (x : pyfloat).

(** One entry of [lines].  Coordinates are kept as numbers, before the
    two-decimal formatting. *)
Inductive svg : Type :=
| SvgOpen (w h : Z)
| StyleOpen
| Css (rule : string)
| StyleClose
| Background (w h : Z)
| Text (cls : string) (x y : pyfloat) (anchor : option string) (content : body)
| TextRotated (cls : string) (x y : pyfloat) (content : body)
| Line (cls : string) (x1 y1 x2 y2 : pyfloat)
| Path (cls : string) (d : list (bool * pyfloat * pyfloat))
| Circle (cls : string) (cx cy r : pyfloat)
| Rect (cls : string) (x y w h : pyfloat)
| SvgClose.

(** [number(v)]: arithmetic on [None] raises [TypeError]. *)
Definition number (v : option pyfloat) : result pyfloat :=
  match v with
  | Some x => Ok x
  | None => Raise (TypeError "unsupported operand type(s): 'NoneType' and 'float'")
  end.

(** [dalr_temp] *)
Definition dalr_temp (anchor_alt : Z) (anchor_temp : pyfloat) (alt_m : Z) : pyfloat :=
  fsub anchor_temp
       (fdiv (fmul (Fin 9.8) (fsub (of_int alt_m) (of_int anchor_alt))) (Fin 1000)).

(** [x_to_svg] / [x_to_px] *)
Definition x_to_svg (x_min x_max : pyfloat) (temp_c : pyfloat) : result pyfloat :=
  let! q := py_truediv (fsub temp_c x_min) (fsub x_max x_min) in
  Ok (fadd (of_int margin_left) (fmul q (of_int plot_w))).

(** [y_to_svg] / [y_to_px] *)
Definition y_to_svg (y_min y_max : Z) (alt_m : pyfloat) : result pyfloat :=
  let! q := py_truediv (fsub (of_int y_max) alt_m) (of_int (y_max - y_min)) in
  Ok (fadd (of_int margin_top) (fmul q (of_int plot_h))).

(** The points of a path: [M] for the first one, [L] for the others. *)
Fixpoint path_from (is_first : bool) (xf yf : pyfloat -> result pyfloat)
  (pts : list (pyfloat * pyfloat)) : result (list (bool * pyfloat * pyfloat)) :=
  match pts with
  | [] => Ok []
  | (x_val, alt) :: rest =>
      let! x := xf x_val in
      let! y := yf alt in
      let! more := path_from false xf yf rest in
      Ok ((is_first, x, y) :: more)
  end.

(** [x_step] *)
Definition x_step_of (x_range : pyfloat) : Z :=
  if fleb x_range (of_int 5) then 1
  else if fleb x_range (of_int 10) then 2
  else 5.

(** [while cursor <= bound: ticks.append(cursor); cursor += step], with the
    number of iterations that are left. *)
Fixpoint ticks_loop (fuel : nat) (cursor step : Z) (bound : pyfloat) : list Z :=
  match fuel with
  | O => []
  | S fuel' =>
      if fleb (of_int cursor) bound
      then cursor :: ticks_loop fuel' (cursor + step) step bound
      else []
  end.

(** The tick loop for a step of at least 1.  Up to a finite bound [b] it runs
    at most [floor(b) - cursor + 1] times.  With the bound [inf] it appends
    without end, which the interpreter ends with [MemoryError]. *)
Definition ticks (cursor step : Z) (bound : pyfloat) : result (list Z) :=
  match bound with
  | Fin b => Ok (ticks_loop (Z.to_nat (Qfloor b - cursor + 1)) cursor step bound)
  | PInf => Raise (MemoryError "")
  | NInf | NaN => Ok []
  end.

(** [", ".join(l)] *)
Fixpoint join_comma (l : list string) : string :=
  match l with
  | [] => EmptyString
  | [x] => x
  | x :: rest => (x ++ ", " ++ join_comma rest)%string
  end.

(** The label loop [for _ in range(attempts)]: move down by 12 until the
    label is 12 away from every label placed before. *)
Fixpoint nudge (attempts : nat) (label_y : pyfloat) (used : list pyfloat) : pyfloat :=
  match attempts with
  | O => label_y
  | S n =>
      if forallb (fun prev => fgeb (fabs (fsub label_y prev)) (of_int 12)) used
      then label_y
      else nudge n (fadd label_y (of_int 12)) used
  end.

(** The loop that draws the stations: the square marker, then the label.
    A station is given by its id, temperature and elevation. *)
Fixpoint station_marks (attempts : nat) (xf yf : pyfloat -> result pyfloat)
  (stations : list (string * option pyfloat * option pyfloat))
  (used : list pyfloat) : result (list svg) :=
  match stations with
  | [] => Ok []
  | (sid, temp, elev) :: rest =>
      let! t := number temp in
      let! x_px := xf t in
      let! e := number elev in
      let! y_px := yf e in
      let label_y := nudge attempts y_px used in
      let label_y :=
        py_max (of_int (margin_top + 10))
               [py_min (of_int (height - margin_bottom - 4)) [label_y]] in
      let text_width := (6 * Z.of_nat (String.length sid))%Z in
      let label :=
        if fgtb (fadd (fadd x_px (of_int text_width)) (of_int 8))
                (of_int (width - margin_right))
        then Text "station-label" (fsub x_px (of_int 6)) (fadd label_y (of_int 4))
                  (Some "end") (BStr sid)
        else Text "station-label" (fadd x_px (of_int 6)) (fadd label_y (of_int 4))
                  (Some "start") (BStr sid) in
      let! more := station_marks attempts xf yf rest (used ++ [label_y]) in
      Ok (Rect "station" (fsub x_px (of_int 3)) (fsub y_px (of_int 3))
               (of_int 6) (of_int 6)
          :: label :: more)
  end.

(** The parts of [lines] that the two scripts share. *)

Definition title_of (obs_dt : option string) : string :=
  ("SBA 449 MHz RASS Weber Wuertz Temp" ++
   match obs_dt with
   | Some t => if is_empty t then "" else " (" ++ t ++ " UTC)"
   | None => ""
   end)%string.

Definition head_lines (caption_class title subtitle : string) : list svg :=
  [ SvgOpen width height;
    StyleOpen;
    Css "  .axis { stroke: #202020; stroke-width: 1; }";
    Css "  .grid { stroke: #dddddd; stroke-width: 1; }";
    Css "  .title { font-family: Helvetica, Arial, sans-serif; font-size: 16px; font-weight: 600; fill: #111111; }";
    Css "  .subtitle { font-family: Helvetica, Arial, sans-serif; font-size: 12px; fill: #555555; }";
    Css "  .label { font-family: Helvetica, Arial, sans-serif; font-size: 12px; fill: #222222; }";
    Css "  .rass { fill: none; stroke: #0077b6; stroke-width: 2; }";
    Css "  .dalr { fill: none; stroke: #d1495b; stroke-width: 2; stroke-dasharray: 6 4; }";
    Css "  .rass-point { fill: #0077b6; }";
    Css "  .station { fill: #f4a261; stroke: #8b4c12; stroke-width: 1; }";
    Css "  .station-label { font-family: Helvetica, Arial, sans-serif; font-size: 11px; fill: #444444; }";
    Css ("  ." ++ caption_class ++ " { font-family: Helvetica, Arial, sans-serif; font-size: 11px; fill: #666666; }");
    StyleClose;
    Background width height;
    Text "title" (of_int margin_left) (of_int (margin_top - 22)) None (BStr title);
    Text "subtitle" (of_int margin_left) (of_int (margin_top - 6)) None (BStr subtitle) ].

Definition y_tick_lines (yf : pyfloat -> result pyfloat) (y_ticks : list Z)
  : result (list svg) :=
  let! ls := mapM (fun y : Z =>
      let! y_px := yf (of_int y) in
      Ok [ Line "grid" (of_int margin_left) y_px (of_int (width - margin_right)) y_px;
           Text "label" (of_int (margin_left - 8)) (fadd y_px (of_int 4))
                (Some "end") (BInt y) ]) y_ticks in
  Ok (concat ls).

Definition x_tick_lines (xf : pyfloat -> result pyfloat) (x_ticks : list Z)
  : result (list svg) :=
  let! ls := mapM (fun x : Z =>
      let! x_px := xf (of_int x) in
      Ok [ Line "grid" x_px (of_int margin_top) x_px (of_int (height - margin_bottom));
           Text "label" x_px (of_int (height - margin_bottom + 18))
                (Some "middle") (BNum (of_int x)) ]) x_ticks in
  Ok (concat ls).

Definition axis_lines : list svg :=
  [ Line "axis" (of_int margin_left) (of_int margin_top)
         (of_int margin_left) (of_int (height - margin_bottom));
    Line "axis" (of_int margin_left) (of_int (height - margin_bottom))
         (of_int (width - margin_right)) (of_int (height - margin_bottom));
    Text "label" (fadd (of_int margin_left) (fdiv (of_int plot_w) (Fin 2)))
         (of_int (height - 30)) (Some "middle") (BStr "Temperature (C)");
    TextRotated "label" (of_int 26)
         (fadd (of_int margin_top) (fdiv (of_int plot_h) (Fin 2)))
         (BStr "Altitude (m)") ].

Definition point_circles (xf yf : pyfloat -> result pyfloat)
  (rass_points : list (Z * pyfloat)) : result (list svg) :=
  mapM (fun p : Z * pyfloat =>
          let! cx := xf (snd p) in
          let! cy := yf (of_int (fst p)) in
          Ok (Circle "rass-point" cx cy (of_int 2))) rass_points.

Definition legend_x : Z := width - margin_right + 10.
Definition legend_y : Z := margin_top + 10.

Definition legend_lines (station_text : string) : list svg :=
  [ Line "rass" (of_int legend_x) (of_int legend_y)
         (of_int (legend_x + 24)) (of_int legend_y);
    Text "label" (of_int (legend_x + 30)) (of_int (legend_y + 4)) None
         (BStr "Observed (RASS)");
    Line "dalr" (of_int legend_x) (of_int (legend_y + 20))
         (of_int (legend_x + 24)) (of_int (legend_y + 20));
    Text "label" (of_int (legend_x + 30)) (of_int (legend_y + 24)) None
         (BStr "DALR (9.8 C/km)");
    Rect "station" (of_int (legend_x + 9)) (of_int (legend_y + 34))
         (of_int 6) (of_int 6);
    Text "label" (of_int (legend_x + 30)) (of_int (legend_y + 40)) None
         (BStr station_text) ].

Definition caption_lines (cls prefix : string) (ids : list string) : list svg :=
  match ids with
  | [] => []
  | _ => [ Text cls (of_int legend_x) (of_int (legend_y + 62)) None
                (BStr (prefix ++ join_comma ids)) ]
  end.

(** The values on the horizontal axis: profile temperatures, then the
    adiabatic temperatures at the profile's altitudes, then the stations'. *)
Definition x_values (anchor_alt : Z) (anchor_temp : pyfloat)
  (rass_points : list (Z * pyfloat)) (station_temps : list pyfloat) : list pyfloat :=
  (snd <$> rass_points)
  ++ ((fun p : Z * pyfloat => dalr_temp anchor_alt anchor_temp (fst p)) <$> rass_points)
  ++ station_temps.

(** Everything from the two paths to the end of [lines], given the axis
    ranges. *)
Definition plot_lines (attempts : nat) (caption_class caption_prefix legend_text : string)
  (title subtitle : string)
  (x_min x_max : pyfloat) (y_min y_max : Z)
  (anchor_alt : Z) (anchor_temp : pyfloat)
  (rass_points : list (Z * pyfloat))
  (stations : list (string * option pyfloat * option pyfloat))
  (caption_ids : list string) : result (list svg) :=
  let xf := x_to_svg x_min x_max in
  let yf := y_to_svg y_min y_max in
  let! obs_path :=
    path_from true xf yf ((fun p : Z * pyfloat => (snd p, of_int (fst p))) <$> rass_points) in
  let! dalr_path :=
    path_from true xf yf
      ((fun p : Z * pyfloat =>
          (dalr_temp anchor_alt anchor_temp (fst p), of_int (fst p))) <$> rass_points) in
  let x_range := fsub x_max x_min in
  let x_step := x_step_of x_range in
  let! c := math_ceil (fdiv x_min (of_int x_step)) in
  let! x_ticks := ticks (c * x_step) x_step x_max in
  let y_step := 200%Z in
  let! cy := math_ceil (fdiv (of_int y_min) (of_int y_step)) in
  let! y_ticks := ticks (cy * y_step) y_step (of_int y_max) in
  let! y_lines := y_tick_lines yf y_ticks in
  let! x_lines := x_tick_lines xf x_ticks in
  let! circles := point_circles xf yf rass_points in
  let! marks := station_marks attempts xf yf stations [] in
  Ok (head_lines caption_class title subtitle
      ++ y_lines ++ x_lines ++ axis_lines
      ++ [Path "rass" obs_path; Path "dalr" dalr_path]
      ++ circles ++ marks
      ++ legend_lines legend_text
      ++ caption_lines caption_class caption_prefix caption_ids
      ++ [SvgClose]).

(** ** Latest variant: [draw_chart] *)

Definition station_valid (station_points : list row) : list row :=
  List.filter (fun s => not_none (temp_c s) && not_none (elev_m s))
              station_points.

(** [y_min], [y_max] of [draw_chart]. *)
Definition y_range (rass_points : list (Z * pyfloat)) (station_alts : list pyfloat)
  : result (Z * Z) :=
  let! first := index rass_points 0 in
  let! last_ := index_last rass_points in
  let y_min0 :=
    match station_alts with
    | [] => py_min (of_int (fst first)) [Fin 0]
    | _ => py_min (of_int (fst first)) (Fin 0 :: station_alts)
    end in
  let y_max0 :=
    match station_alts with
    | [] => of_int (fst last_)
    | _ => py_max (of_int (fst last_)) station_alts
    end in
  let! y_min := floor100 y_min0 in
  let! y_max := ceil100 y_max0 in
  let y_max := if (y_max =? y_min)%Z then (y_max + 100)%Z else y_max in
  Ok (y_min, y_max).

(** [x_min], [x_max] of [draw_chart]: both branches of its [if] pad by 0.5. *)
Definition x_range (x_vals : list pyfloat) : result (pyfloat * pyfloat) :=
  let! x_min := py_min_list x_vals in
  let! x_max := py_max_list x_vals in
  if fltb (fsub x_max x_min) (Fin 1)
  then Ok (fsub x_min (Fin 0.5), fadd x_max (Fin 0.5))
  else Ok (fsub x_min (Fin 0.5), fadd x_max (Fin 0.5)).

Definition draw_chart (rass_points : list (Z * pyfloat)) (station_points : list row)
  (obs_dt : option string) (rass_file : string) : result (list svg) :=
  let! anchor := index rass_points 0 in
  let '(anchor_alt, anchor_temp) := anchor in
  let valid := station_valid station_points in
  let station_alts := omap elev_m valid in
  let! ys := y_range rass_points station_alts in
  let '(y_min, y_max) := ys in
  let x_vals := x_values anchor_alt anchor_temp rass_points (omap temp_c valid) in
  let! xs := x_range x_vals in
  let '(x_min, x_max) := xs in
  let missing :=
    id <$> List.filter (fun s => is_none (temp_c s) || is_none (elev_m s))
                       station_points in
  plot_lines 30 "missing" "No MADIS temp: " "MADIS station"
    (title_of obs_dt)
    ("RASS file: " ++ rass_file ++ " | MADIS: latest available per station")
    x_min x_max y_min y_max anchor_alt anchor_temp rass_points
    ((fun s => (id s, temp_c s, elev_m s)) <$> valid)
    missing.

(** The part of [main] between the download of the profile and the chart. *)
Definition main `{Builtins} (raw_rass : string) (svc : service) (latest_file : string)
  : result (list svg) :=
  let! parsed := parse_rass_profile raw_rass in
  let '(obs_dt, rass_points) := parsed in
  let stations := fetch_madis_stations svc in
  draw_chart rass_points stations obs_dt latest_file.

(** ** Recent-60 variant: [draw_svg] *)

(** [y_min], [y_max] of [draw_svg]. *)
Definition y_range60 (rass_points : list (Z * pyfloat)) (station_alts : list pyfloat)
  : result (Z * Z) :=
  let! first := index rass_points 0 in
  let! y_min :=
    match station_alts with
    | [] => Ok 0%Z
    | _ => floor100 (py_min (Fin 0) (of_int (fst first) :: station_alts))
    end in
  let! last_ := index_last rass_points in
  let! y_max :=
    match station_alts with
    | [] => Ok (fst last_)
    | _ => ceil100 (py_max (of_int (fst last_)) station_alts)
    end in
  let y_max := if (y_max <=? y_min)%Z then (y_min + 100)%Z else y_max in
  Ok (y_min, y_max).

(** [x_min], [x_max] of [draw_svg]: padded by 0.5, and once more when the
    padded span is under 1.0. *)
Definition x_range60 (x_vals : list pyfloat) : result (pyfloat * pyfloat) :=
  let! lo := py_min_list x_vals in
  let x_min := fsub lo (Fin 0.5) in
  let! hi := py_max_list x_vals in
  let x_max := fadd hi (Fin 0.5) in
  if fltb (fsub x_max x_min) (Fin 1)
  then Ok (fsub x_min (Fin 0.5), fadd x_max (Fin 0.5))
  else Ok (x_min, x_max).

Definition draw_svg (rass_points : list (Z * pyfloat))
  (stations_recent stations_all : list row60)
  (rass_time : option string) (rass_file : string) : result (list svg) :=
  let! anchor := index rass_points 0 in
  let '(anchor_alt, anchor_temp) := anchor in
  let station_alts := omap elev_m60 stations_recent in
  let! ys := y_range60 rass_points station_alts in
  let '(y_min, y_max) := ys in
  let x_vals :=
    x_values anchor_alt anchor_temp rass_points (omap temp_c60 stations_recent) in
  let! xs := x_range60 x_vals in
  let '(x_min, x_max) := xs in
  let excluded := id60 <$> List.filter (fun r => negb (recent60 r)) stations_all in
  plot_lines 25 "note" "Excluded: " "MADIS (<=60 min)"
    (title_of rass_time)
    ("RASS file: " ++ rass_file ++ " | MADIS stations: latest obs within last 60 min")
    x_min x_max y_min y_max anchor_alt anchor_temp rass_points
    ((fun r => (id60 r, temp_c60 r, elev_m60 r)) <$> stations_recent)
    excluded.

(** The part of [main] between the download of the profile and the chart. *)
Definition main60 `{Builtins} (raw : string) (svc : service) (now_utc : Q)
  (fname : string) : result (list svg) :=
  let! parsed := parse_rass raw in
  let '(rass_time, rass_points) := parsed in
  let! rows := station_rows svc now_utc in
  let station_recent := List.filter recent60 rows in
  draw_svg rass_points station_recent rows rass_time fname.

End Chart.

(* ===================================================================== *)
(** * The newest profile file: [latest_rass_file]                         *)
(* ===================================================================== *)

Module Listing.

Definition RASS_BASE : string :=
  "https://downloads.psl.noaa.gov/psd2/data/realtime/Radar449/WwTemp/sba/".

(** The double quote, which the three patterns hold. *)
Definition quote : ascii := "034"%char.

(** ** The patterns of [re.findall] *)

(** One position of a pattern: a literal character, or [\d] (below 256 the
    decimal digits are [0] to [9]). *)
Inductive atom : Type :=
| Lit (c : ascii)
| Digit.

Definition is_decimal (c : ascii) : bool :=
  let n := nat_of_ascii c in ((48 <=? n) && (n <=? 57))%nat.

Definition atom_ok (a : atom) (c : ascii) : bool :=
  match a with
  | Lit d => Ascii.eqb c d
  | Digit => is_decimal c
  end.

Definition lits (s : string) : list atom := Lit <$> list_ascii_of_string s.

(** The atoms matched at the start of a text: the characters they consume and
    the text that follows. *)
Fixpoint match_atoms (p : list atom) (s : string) : option (string * string) :=
  match p with
  | [] => Some (EmptyString, s)
  | a :: p' =>
      match s with
      | EmptyString => None
      | String c s' =>
          if atom_ok a c then
            match match_atoms p' s' with
            | Some (m, rest) => Some (String c m, rest)
            | None => None
            end
          else None
      end
  end.

(** A pattern with one group: [before(group)after]. *)
Record pattern : Type := {
  before : list atom;
  group : list atom;
  after : list atom;
}.

(** The group of a match that starts at the first character of the text. *)
Definition match_at (p : pattern) (s : string) : option string :=
  match match_atoms (before p) s with
  | Some (_, s1) =>
      match match_atoms (group p) s1 with
      | Some (g, s2) =>
          match match_atoms (after p) s2 with
          | Some _ => Some g
          | None => None
          end
      | None => None
      end
  | None => None
  end.

(** Every atom consumes one character. *)
Definition width (p : pattern) : nat :=
  (length (before p) + length (group p) + length (after p))%nat.

(** [re.findall(p, s)]: the groups of the matches found from left to right,
    none overlapping an earlier one.  [skip] counts the characters that the
    last match still covers. *)
Fixpoint findall_go (p : pattern) (skip : nat) (s : string) : list string :=
  match s with
  | EmptyString => []
  | String _ s' =>
      match skip with
      | S k => findall_go p k s'
      | O =>
          match match_at p s with
          | Some g => g :: findall_go p (width p - 1) s'
          | None => findall_go p 0 s'
          end
      end
  end.

Definition findall (p : pattern) (s : string) : list string := findall_go p 0 s.

Definition href : list atom := lits "href=" ++ [Lit quote].

(** [href="(20\d{2})/"] *)
Definition year_pattern : pattern :=
  {| before := href;
     group := lits "20" ++ [Digit; Digit];
     after := [Lit "/"%char; Lit quote] |}.

(** [href="(\d{3})/"] *)
Definition doy_pattern : pattern :=
  {| before := href;
     group := [Digit; Digit; Digit];
     after := [Lit "/"%char; Lit quote] |}.

(** [href="(sba\d{5}\.\d{2}t)"] *)
Definition file_pattern : pattern :=
  {| before := href;
     group := lits "sba" ++ [Digit; Digit; Digit; Digit; Digit]
              ++ [Lit "."%char; Digit; Digit; Lit "t"%char];
     after := [Lit quote] |}.

(** ** Integers and text *)

Fixpoint int_digits (acc : Z) (s : string) : option Z :=
  match s with
  | EmptyString => Some acc
  | String c s' =>
      if is_decimal c
      then int_digits (10 * acc + Z.of_nat (nat_of_ascii c - 48)) s'
      else None
  end.

(** [int(s)] on a text of decimal digits, which is all that the groups of the
    patterns capture.  (Python also reads a sign, surrounding blanks and
    underscores; such texts do not reach this call and are rejected here.) *)
Definition py_int (s : string) : result Z :=
  match s with
  | EmptyString => Raise (ValueError "invalid literal for int() with base 10: ''")
  | _ =>
      match int_digits 0 s with
      | Some z => Ok z
      | None =>
          Raise (ValueError ("invalid literal for int() with base 10: '" ++ s ++ "'"))
      end
  end.

(** [str(z)] and the [f"{z}"] of an [int] *)
Definition py_str (z : Z) : string := NilZero.string_of_int (Z.to_int z).

Definition zeros (n : nat) : string := string_of_list_ascii (repeat "0"%char n).

(** [f"{z:03d}"]: zeros fill up to three characters, after the sign. *)
Definition fmt_03d (z : Z) : string :=
  let digits := py_str (Z.abs z) in
  let sign := if (z <? 0)%Z then "-"%string else EmptyString in
  (sign ++ zeros (3 - String.length sign - String.length digits) ++ digits)%string.

(** [max(x, *xs)] of integers *)
Definition py_max_int (x : Z) (xs : list Z) : Z :=
  fold_left (fun m y => if (m <? y)%Z then y else m) xs x.

(** [sorted(files)]: a stable sort by [<] on [str]. *)
Fixpoint insert_str (s : string) (l : list string) : list string :=
  match l with
  | [] => [s]
  | x :: l' => if String.ltb s x then s :: x :: l' else x :: insert_str s l'
  end.

Definition sorted (l : list string) : list string :=
  fold_left (fun acc s => insert_str s acc) l [].

(** ** [latest_rass_file] *)

(** [fetch_text] is the text behind a URL, or the exception of the transport;
    nothing in [latest_rass_file] catches it.  The two scripts differ in the
    texts of the three [RuntimeError]s only. *)
Definition latest_rass_file (no_years no_days no_files : string)
  (fetch_text : string -> result string) : result (string * string * string) :=
  let! root_html := fetch_text RASS_BASE in
  let! years := mapM py_int (findall year_pattern root_html) in
  match years with
  | [] => Raise (RuntimeError no_years)
  | y :: ys =>
      let year := py_max_int y ys in
      let year_url := (RASS_BASE ++ py_str year ++ "/")%string in
      let! year_html := fetch_text year_url in
      let! doys := mapM py_int (findall doy_pattern year_html) in
      match doys with
      | [] => Raise (RuntimeError no_days)
      | d :: ds =>
          let doy := py_max_int d ds in
          let day_url := (year_url ++ fmt_03d doy ++ "/")%string in
          let! day_html := fetch_text day_url in
          let files := findall file_pattern day_html in
          match files with
          | [] => Raise (RuntimeError no_files)
          | _ =>
              let! latest_file := index_last (sorted files) in
              Ok (py_str year, fmt_03d doy, latest_file)
          end
      end
  end.

(** [replot_latest_sba.latest_rass_file] *)
Definition latest_rass_file_latest (fetch_text : string -> result string)
  : result (string * string * string) :=
  latest_rass_file "No year directories found for RASS"
                   "No day directories found for RASS year"
                   "No SBA profile files found in latest day directory"
                   fetch_text.

(** [replot_recent60_sba.latest_rass_file] *)
Definition latest_rass_file_recent60 (fetch_text : string -> result string)
  : result (string * string * string) :=
  latest_rass_file "No RASS year directories found"
                   "No RASS day directories found"
                   "No RASS files found in latest day"
                   fetch_text.

(** [rass_url] of [main] *)
Definition rass_url (year doy latest_file : string) : string :=
  (RASS_BASE ++ year ++ "/" ++ doy ++ "/" ++ latest_file)%string.

End Listing.

(* ===================================================================== *)
(** * The station table and the whole run: [main]                         *)
(* ===================================================================== *)

Module Report.
Import Profile Madis Chart Listing.

(** A field of a line of the CSV file.  A number is kept with the count of
    decimals it is printed with, before the formatting, as in the chart. *)
Inductive cell : Type :=
| CText (s : string)
| CBlank
| CFixed (decimals : nat) (x : pyfloat).

(** A value under a float format: [None] raises [TypeError]. *)
Definition fixed (decimals : nat) (v : option pyfloat) : result cell :=
  match v with
  | Some x => Ok (CFixed decimals x)
  | None => Raise (TypeError "unsupported format string passed to NoneType.__format__")
  end.

(** [str(v)] of a text that may be [None] *)
Definition str_of (v : option string) : string := default "None"%string v.

(** [str(b).lower()] *)
Definition lower_bool (b : bool) : string := if b then "true"%string else "false"%string.

(** ** Latest variant *)

Definition csv_header : list cell :=
  [CText "station"; CText "elev_m"; CText "temp_c"; CText "ob_time"; CText "provider"].

(** The line of one station: the branch is taken on [elev_m] alone. *)
Definition csv_row (r : row) : result (list cell) :=
  match elev_m r with
  | None => Ok [CText (id r); CBlank; CBlank; CBlank; CText (provider r)]
  | Some e =>
      let! t := fixed 2 (temp_c r) in
      Ok [CText (id r); CFixed 2 e; t; CText (str_of (ob_time r)); CText (provider r)]
  end.

Definition csv_rows (stations : list row) : result (list (list cell)) :=
  let! rows := mapM csv_row stations in
  Ok (csv_header :: rows).

(** [main], from the directory listing to the station table; what it writes:
    the chart and the lines of the CSV file. *)
Definition run `{Builtins} (fetch_text : string -> result string) (svc : service)
  : result (list svg * list (list cell)) :=
  let! found := latest_rass_file_latest fetch_text in
  let '(year, doy, latest_file) := found in
  let! raw_rass := fetch_text (rass_url year doy latest_file) in
  let! parsed := parse_rass_profile raw_rass in
  let '(obs_dt, rass_points) := parsed in
  let stations := fetch_madis_stations svc in
  let! chart := draw_chart rass_points stations obs_dt latest_file in
  let! table := csv_rows stations in
  Ok (chart, table).

(** ** Recent-60 variant *)

Definition csv_header60 : list cell :=
  [CText "station"; CText "elev_m"; CText "temp_c"; CText "ob_time"; CText "age_min";
   CText "provider"; CText "recent"].

Definition csv_row60 (r : row60) : result (list cell) :=
  match elev_m60 r with
  | None =>
      Ok [CText (id60 r); CBlank; CBlank; CBlank; CBlank; CText (provider60 r);
          CText (lower_bool (recent60 r))]
  | Some e =>
      let! t := fixed 2 (temp_c60 r) in
      let! age := fixed 1 (age_min60 r) in
      Ok [CText (id60 r); CFixed 2 e; t; CText (str_of (ob_time60 r)); age;
          CText (provider60 r); CText (lower_bool (recent60 r))]
  end.

Definition csv_rows60 (station_rows : list row60) : result (list (list cell)) :=
  let! rows := mapM csv_row60 station_rows in
  Ok (csv_header60 :: rows).

Definition run60 `{Builtins} (fetch_text : string -> result string) (svc : service)
  (now_utc : Q) : result (list svg * list (list cell)) :=
  let! found := latest_rass_file_recent60 fetch_text in
  let '(year, doy, fname) := found in
  let! raw := fetch_text (rass_url year doy fname) in
  let! parsed := parse_rass raw in
  let '(rass_time, rass_points) := parsed in
  let! rows := station_rows svc now_utc in
  let station_recent := List.filter recent60 rows in
  let! chart := draw_svg rass_points station_recent rows rass_time fname in
  let! table := csv_rows60 rows in
  Ok (chart, table).

End Report.

(* ===================================================================== *)
(** * A sample of [float()] and [strptime], for running the code          *)
(* ===================================================================== *)

Module Sample.

Definition digit_of (c : ascii) : option Z :=
  let n := nat_of_ascii c in
  if ((48 <=? n) && (n <=? 57))%nat then Some (Z.of_nat (n - 48)) else None.

(** Reads a run of decimal digits: its value, its length, and what follows. *)
Fixpoint digits_go (acc : Z) (len : nat) (s : string) : Z * nat * string :=
  match s with
  | EmptyString => (acc, len, s)
  | String c s' =>
      match digit_of c with
      | Some d => digits_go (10 * acc + d) (S len) s'
      | None => (acc, len, s)
      end
  end.

Definition unsigned_literal (s : string) : option pyfloat :=
  if String.eqb s "inf" || String.eqb s "nan" then
    Some (if String.eqb s "inf" then PInf else NaN)
  else
    let '(ip, ilen, rest) := digits_go 0 0 s in
    match rest with
    | EmptyString => if (0 <? ilen)%nat then Some (Fin (inject_Z ip)) else None
    | String "." rest' =>
        let '(fp, flen, rest'') := digits_go 0 0 rest' in
        if is_empty rest'' && (0 <? ilen + flen)%nat
        then Some (Fin (inject_Z ip + inject_Z fp / inject_Z (10 ^ Z.of_nat flen)))
        else None
    | _ => None
    end.

(** [float(s)] on plain decimal literals ([12], [0.300], [-4.5]) and on
    [inf], [-inf], [nan]; everything else is rejected here, although Python
    also reads exponents, underscores and other spellings.  It is used only to
    run the parsers on concrete text. *)
Definition float_literal (s : string) : option pyfloat :=
  match s with
  | String "-" s' => option_map fneg (unsigned_literal s')
  | String "+" s' => unsigned_literal s'
  | _ => unsigned_literal s
  end.

Definition two_digits (s : string) : option Z :=
  match s with
  | String a (String b EmptyString) =>
      match digit_of a, digit_of b with
      | Some x, Some y => Some (10 * x + y)%Z
      | _, _ => None
      end
  | _ => None
  end.

(** [strptime] on same-day times [2024-05-01THH:MM] only: minutes since
    midnight of that day.  It is used only to run the fetcher on concrete
    records. *)
Definition strptime_sample (s : string) : option Z :=
  if String.eqb (substring 0 11 s) "2024-05-01T" && (String.length s =? 16)%nat
     && String.eqb (substring 13 1 s) ":" then
    match two_digits (substring 11 2 s), two_digits (substring 14 2 s) with
    | Some h, Some m => if ((h <? 24) && (m <? 60))%Z then Some (h * 60 + m)%Z else None
    | _, _ => None
    end
  else None.

Definition builtins : Builtins := {|
  py_float := float_literal;
  py_float_msg := fun s => ("could not convert string to float: '" ++ s ++ "'")%string;
  strptime := strptime_sample;
  strptime_msg := fun s =>
    ("time data '" ++ s ++ "' does not match format '%Y-%m-%dT%H:%M'")%string;
|}.

(** Sample files. *)
Definition nl : string := String "010"%char EmptyString.

Definition lines_of (ls : list string) : string :=
  fold_right (fun l acc => (l ++ nl ++ acc)%string) EmptyString ls.

(** Three rows at 100 m, 300 m and 600 m. *)
Definition profile_text : string :=
  lines_of ["HT TEMP"; "0.100 15.2"; "0.300 12.8"; "0.600 9.1"].




(** A resampled profile and station rows. *)
Definition profile : list (Z * pyfloat) :=
  [(100%Z, Fin 15.2); (200%Z, Fin 14); (300%Z, Fin 12.8)].

Definition stations : list Madis.row :=
  [ {| Madis.id := "KSBA"; Madis.elev_m := Some (Fin 3); Madis.temp_c := Some (Fin 16.5);
       Madis.ob_time := Some "2024-05-01T10:00"%string; Madis.provider := "NWS" |};
    Madis.missing_row "SE068" "no_temp" ].

Definition rows60 : list Madis.row60 :=
  [ {| Madis.id60 := "KSBA"; Madis.elev_m60 := Some (Fin 3);
       Madis.temp_c60 := Some (Fin 16.5);
       Madis.ob_time60 := Some "2024-05-01T10:00"%string;
       Madis.age_min60 := Some (Fin 20); Madis.provider60 := "NWS";
       Madis.recent60 := true |};
    {| Madis.id60 := "SE053"; Madis.elev_m60 := Some (Fin 40);
       Madis.temp_c60 := Some (Fin 15);
       Madis.ob_time60 := Some "2024-05-01T08:00"%string;
       Madis.age_min60 := Some (Fin 140); Madis.provider60 := "APRSWXNET";
       Madis.recent60 := false |};
    Madis.missing_row60 "SE068" "no_temp" ].

(** Records of a response. *)
Definition record_of (shef_id : option string) (ob_time elev value : string)
  : Madis.xml_record :=
  {| Madis.r_var := Some "V-T"%string; Madis.r_shef_id := shef_id;
     Madis.r_ObTime := Some ob_time; Madis.r_elev := Some elev;
     Madis.r_data_value := Some value; Madis.r_provider := Some "NWS"%string |}.

(** A service that answers every query with the same response. *)
Definition always (resp : Madis.response) : Madis.service :=
  {| Madis.ca_snapshot := fun _ => resp;
     Madis.station_snapshot := fun _ _ => resp;
     Madis.station_latest := fun _ => resp |}.

(** A service that knows station KSBA only, by one record. *)
Definition ksba_only (rec : Madis.xml_record) : Madis.service :=
  {| Madis.ca_snapshot := fun _ => Madis.Records [];
     Madis.station_snapshot := fun _ _ => Madis.Records [];
     Madis.station_latest := fun stn =>
       if String.eqb stn "KSBA" then Madis.Records [rec] else Madis.Records [] |}.

Definition ksba_1000 : Madis.xml_record :=
  record_of (Some "KSBA"%string) "2024-05-01T10:00" "3.0" "289.65".

Definition ksba_1130 : Madis.xml_record :=
  record_of (Some "KSBA"%string) "2024-05-01T11:30" "3.0" "290.15".

(** KSBA observed at 10:00, everything else unknown. *)
Definition stale_service : Madis.service := ksba_only ksba_1000.

(** KSBA with an elevation attribute that is not a number. *)
Definition bad_elev_service : Madis.service :=
  ksba_only (record_of (Some "KSBA"%string) "2024-05-01T10:00" "n/a" "289.65").

(** Noon of the sample day, in minutes. *)
Definition noon : Q := 720.

(** Directory listings, and a transport that serves them and the sample
    profile. *)
Definition link (target : string) : string :=
  ("<a href=" ++ String Listing.quote (target ++ String Listing.quote ">x</a> "))%string.

Definition root_page : string := (link "2023/" ++ link "2024/" ++ link "docs/")%string.

Definition year_page : string := (link "121/" ++ link "122/" ++ link "007/")%string.

Definition day_page : string :=
  (link "sba24122.01t" ++ link "sba24122.00t" ++ link "sba24122.01t.png")%string.

Definition web (url : string) : result string :=
  if String.eqb url Listing.RASS_BASE then Ok root_page
  else if String.eqb url (Listing.RASS_BASE ++ "2024/") then Ok year_page
  else if String.eqb url (Listing.RASS_BASE ++ "2024/122/") then Ok day_page
  else if String.eqb url (Listing.RASS_BASE ++ "2024/122/sba24122.01t") then Ok profile_text
  else Raise (IOError "HTTP Error 404: Not Found").

(** The rows of [profile_text] in another order. *)
Definition shuffled_text : string :=
  lines_of ["HT TEMP"; "0.600 9.1"; "0.100 15.2"; "0.300 12.8"].

(** A service with failures: the newest statewide snapshot cannot be fetched,
    the next one is empty, the snapshots two and three hours back hold KSBA;
    the station snapshots are empty, except the one three hours back, which
    does not parse. *)
Definition mixed_service : Madis.service :=
  {| Madis.ca_snapshot := fun lag =>
       if (lag =? 0)%nat then Madis.FetchFails (IOError "timed out")
       else if (lag =? 2)%nat then Madis.Records [ksba_1130]
       else if (lag =? 3)%nat then Madis.Records [ksba_1000]
       else Madis.Records [];
     Madis.station_snapshot := fun _ lag =>
       if (lag =? 3)%nat then Madis.XmlFails (IOError "bad xml") else Madis.Records [];
     Madis.station_latest := fun _ => Madis.Records [] |}.

End Sample.

(* ===================================================================== *)
(** * Specification-side vocabulary                                       *)
(* ===================================================================== *)

Module Spec.
Import Profile.

(** Points whose altitude and temperature are finite numbers. *)
Definition embed (qs : list (Q * Q)) : list point :=
  (fun p : Q * Q => (Fin (fst p), Fin (snd p))) <$> qs.

Definition finite_alts (pts : list point) : Prop :=
  Forall (fun p : point => is_finite (fst p) = true) pts.

(** The altitude of a point as a number ([0] stands in for a non-finite one). *)
Definition alt_of (p : point) : Q :=
  match fst p with Fin a => a | _ => 0 end.





(** The header marker: a line whose trimmed content begins with [HT]. *)
Definition is_header (line : string) : bool := startswith "HT" (strip line).

(** The table ends at the first blank line or line beginning with [$]. *)
Definition ends_table (line : string) : bool :=
  is_empty (strip line) || startswith "$" (strip line).

Fixpoint after_header (lines : list string) : option (list string) :=
  match lines with
  | [] => None
  | line :: rest => if is_header line then Some rest else after_header rest
  end.

Fixpoint until_end (lines : list string) : list string :=
  match lines with
  | [] => []
  | line :: rest => if ends_table line then [] else line :: until_end rest
  end.

(** What one data line contributes: nothing when it has fewer than two
    fields, when one of the first two fields is not a number, or when the
    temperature is the sentinel; otherwise the point, altitude in meters. *)
Definition line_point `{Builtins} (line : string) : option point :=
  match split line with
  | p0 :: p1 :: _ =>
      match py_float p0, py_float p1 with
      | Some a, Some t =>
          if fgeb t (of_int 999999) then None else Some (fmul a (Fin 1000), t)
      | _, _ => None
      end
  | _ => None
  end.

(** The valid points of a table: what its data lines contribute, in order. *)
Definition valid_points `{Builtins} (table : list string) : list point :=
  omap line_point (until_end table).

(** The header marker is never found. *)
Definition header_missing (lines : list string) : Prop :=
  forall line, line ∈ lines -> is_header line = false.

(** The valid points that remain after filtering (none without a header). *)
Definition table_points `{Builtins} (lines : list string) : list point :=
  match after_header lines with
  | Some table => valid_points table
  | None => []
  end.



Definition finite_points (pts : list point) : Prop :=
  Forall (fun p : point => is_finite (fst p) = true /\ is_finite (snd p) = true) pts.

Definition alt_le (p q : point) : Prop := alt_of p <= alt_of q.


(** ** The renderer *)

(** The value of a finite float ([0] stands in for a non-finite one). *)
Definition qval (x : pyfloat) : Q :=
  match x with Fin a => a | _ => 0 end.

Definition all_finite (l : list pyfloat) : Prop :=
  Forall (fun x => is_finite x = true) l.

(** [m] is the minimum (maximum) of the values in [l]. *)
Definition is_min_of (l : list pyfloat) (m : Q) : Prop :=
  (exists x, x ∈ l /\ qval x == m) /\ forall x, x ∈ l -> m <= qval x.

Definition is_max_of (l : list pyfloat) (m : Q) : Prop :=
  (exists x, x ∈ l /\ qval x == m) /\ forall x, x ∈ l -> qval x <= m.


(** A profile as the parser returns it has at least one point, and its first
    altitude is not above its last. *)
Definition is_profile (rass_points : list (Z * pyfloat)) : Prop :=
  exists first last_,
    head rass_points = Some first /\ last rass_points = Some last_ /\
    (fst first <= fst last_)%Z.

Definition finite_temps (rass_points : list (Z * pyfloat)) : Prop :=
  Forall (fun p : Z * pyfloat => is_finite (snd p) = true) rass_points.

(** A value that is absent or finite. *)
Definition finite_opt (v : option pyfloat) : Prop :=
  match v with Some x => is_finite x = true | None => True end.

(** Counting elements of a chart. *)
Definition is_path (cls : string) (e : Chart.svg) : bool :=
  match e with
  | Chart.Path c _ => String.eqb c cls
  | _ => false
  end.

Definition is_station_square (e : Chart.svg) : bool :=
  match e with
  | Chart.Rect c _ _ _ _ => String.eqb c "station"
  | _ => false
  end.

Definition count (f : Chart.svg -> bool) (els : list Chart.svg) : nat :=
  length (List.filter f els).

(** An element that is neither a path nor a station square. *)
Definition plain (e : Chart.svg) : Prop :=
  (forall cls, is_path cls e = false) /\ is_station_square e = false.

(** ** The fetcher *)

(** A record that has its variable selector [V-T] and the four fields. *)
Definition usable (rec : Madis.xml_record) : bool :=
  Madis.is_VT rec && Madis.present (Madis.r_shef_id rec)
  && Madis.present (Madis.r_ObTime rec) && Madis.present (Madis.r_elev rec)
  && Madis.present (Madis.r_data_value rec).

(** The same without the station id. *)
Definition usable_without_id (rec : Madis.xml_record) : bool :=
  Madis.is_VT rec && Madis.present (Madis.r_ObTime rec)
  && Madis.present (Madis.r_elev rec) && Madis.present (Madis.r_data_value rec).

Definition station_of (rec : Madis.xml_record) : string :=
  Madis.text_of (Madis.r_shef_id rec).

Definition time_of (rec : Madis.xml_record) : string :=
  Madis.text_of (Madis.r_ObTime rec).

(** The row that [query_madis] builds from a record whose elevation and value
    read as [e] and [v]. *)
Definition row_of (rec : Madis.xml_record) (e v : pyfloat) : Madis.row :=
  {| Madis.id := station_of rec;
     Madis.elev_m := Some e;
     Madis.temp_c := Some (fsub v Madis.kelvin_offset);
     Madis.ob_time := Some (time_of rec);
     Madis.provider := Madis.text_of (Madis.r_provider rec) |}.

(** The two numbers of a record, when both read. *)
Definition numbers_of `{Builtins} (rec : Madis.xml_record) : option (pyfloat * pyfloat) :=
  match py_float (Madis.text_of (Madis.r_elev rec)),
        py_float (Madis.text_of (Madis.r_data_value rec)) with
  | Some e, Some v => Some (e, v)
  | _, _ => None
  end.

(** [a <= b] in the order of [str]. *)
Definition str_le (a b : string) : Prop := str_gtb a b = false.

(** Every row of a result dictionary carries an observation time. *)
Definition timed (out : gmap string Madis.row) : Prop :=
  forall k r, out !! k = Some r -> exists t, Madis.ob_time r = Some t.

(** The row that [fetch_station] builds from a record. *)
Definition row60_of (station_id : string) (now_utc : Q) (rec : Madis.xml_record)
  (e v : pyfloat) (k : Z) : Madis.row60 :=
  {| Madis.id60 := station_id;
     Madis.elev_m60 := Some e;
     Madis.temp_c60 := Some (fsub v Madis.kelvin_offset);
     Madis.ob_time60 := Some (time_of rec);
     Madis.age_min60 := Some (Fin (now_utc - inject_Z k));
     Madis.provider60 := Madis.text_of (Madis.r_provider rec);
     Madis.recent60 := fleb (Fin (now_utc - inject_Z k)) (Fin 60) |}.

(** What a record adds to [records] in [fetch_station]. *)
Definition obs_of `{Builtins} (rec : Madis.xml_record) : option Madis.obs :=
  if usable_without_id rec then
    match numbers_of rec with
    | Some (e, v) => Some (time_of rec, e, v, Madis.text_of (Madis.r_provider rec))
    | None => None
    end
  else None.

Definition key_le (a b : Z * Madis.obs) : Prop := (fst a <= fst b)%Z.

(** The numbers and the time of every record that [fetch_station] uses read. *)
Definition reads_well `{Builtins} (recs : list Madis.xml_record) : Prop :=
  forall rec, rec ∈ recs -> usable_without_id rec = true ->
    numbers_of rec <> None /\ strptime (time_of rec) <> None.

(** Every row of a result dictionary is stored under its own id. *)
Definition keyed_by_id (results : gmap string Madis.row) : Prop :=
  forall k r, results !! k = Some r -> Madis.id r = k.

(** A station whose elevation and temperature are both present. *)
Definition valid_station (s : Madis.row) : bool :=
  not_none (Madis.elev_m s) && not_none (Madis.temp_c s).

Definition valid_station60 (r : Madis.row60) : bool :=
  not_none (Madis.elev_m60 r) && not_none (Madis.temp_c60 r).

(** ** More about the parser *)

(** Rows of the table with the same altitude are the same row. *)
Definition same_alt_same_row (pts : list point) : Prop :=
  forall p q, p ∈ pts -> q ∈ pts -> alt_of p == alt_of q -> p = q.


(** The grid that a parser returns, without the observation time. *)
Definition grid_of (m : result (option string * list grid_point))
  : result (list grid_point) :=
  let! r := m in Ok (snd r).

(** A field of the time line: digits, with at most one dot taken out. *)
Definition numeric_field (p : string) : bool := isdigit (remove_first_dot p).

(** The observation time put together from the six fields. *)
Definition stamp (yy mm dd hh mi ss : string) : string :=
  ("20" ++ yy ++ "-" ++ zfill2 mm ++ "-" ++ zfill2 dd ++ " "
   ++ zfill2 hh ++ ":" ++ zfill2 mi ++ ":" ++ zfill2 ss)%string.

(** ** More about the fetchers *)

(** The row is built from a usable record of [recs] that names its station. *)
Definition from_record `{Builtins} (recs : list Madis.xml_record) (r : Madis.row) : Prop :=
  exists rec e v,
    rec ∈ recs /\ usable rec = true /\ station_of rec = Madis.id r /\
    numbers_of rec = Some (e, v) /\ r = row_of rec e v.

(** A response that [fetch_madis_stations] may read for a station: a
    statewide snapshot of the last 72 hours, or a snapshot of the station at
    one of the lags of the fallback. *)
Definition asked (svc : Madis.service) (sid : string) (resp : Madis.response) : Prop :=
  (exists lag, (lag < 73)%nat /\ resp = Madis.ca_snapshot svc lag) \/
  (exists lag, lag ∈ Madis.lag_checks /\ resp = Madis.station_snapshot svc sid lag).

(** The provider text of a row without values. *)
Definition diagnostic (text : string) : Prop :=
  text = "no_temp"%string \/ exists e, text = ("fetch_error: " ++ e)%string.

(** The statewide snapshot of a lag has no row for the station (or the query
    fails). *)
Definition ca_miss `{Builtins} (svc : Madis.service) (sid : string) (lag : nat) : Prop :=
  match Madis.query_ca_snapshot svc lag with
  | Ok snapshot => snapshot !! sid = None
  | Raise _ => True
  end.

(** The same for the snapshot of the station. *)
Definition station_miss `{Builtins} (svc : Madis.service) (sid : string) (lag : nat) : Prop :=
  match Madis.query_station_snapshot svc sid lag with
  | Ok rows => rows !! sid = None
  | Raise _ => True
  end.

(** A row with none of its values. *)
Definition blank (r : Madis.row) : Prop :=
  Madis.elev_m r = None /\ Madis.temp_c r = None /\ Madis.ob_time r = None.

(** A row with all of its values. *)
Definition complete (r : Madis.row) : Prop :=
  exists e t tm,
    Madis.elev_m r = Some e /\ Madis.temp_c r = Some t /\ Madis.ob_time r = Some tm.

(** A row is accounted for: it is built from a record of a response that was
    read for its station, or it has no values and a diagnostic. *)
Definition sourced `{Builtins} (svc : Madis.service) (r : Madis.row) : Prop :=
  (exists recs, asked svc (Madis.id r) (Madis.Records recs) /\ from_record recs r) \/
  (exists text, r = Madis.missing_row (Madis.id r) text /\ diagnostic text).

(** ** Rows of the recent-60 variant *)

(** A row with none of its values; such a row is never recent. *)
Definition blank60 (r : Madis.row60) : Prop :=
  Madis.elev_m60 r = None /\ Madis.temp_c60 r = None /\ Madis.ob_time60 r = None /\
  Madis.age_min60 r = None /\ Madis.recent60 r = false.

(** A row with all of its values; it is recent exactly when its age is at
    most 60 minutes. *)
Definition complete60 (r : Madis.row60) : Prop :=
  exists e t tm age,
    Madis.elev_m60 r = Some e /\ Madis.temp_c60 r = Some t /\
    Madis.ob_time60 r = Some tm /\ Madis.age_min60 r = Some (Fin age) /\
    (Madis.recent60 r = true <-> age <= 60).

(** ** More about the renderer *)

(** The label of a station marker. *)
Definition is_station_label (e : Chart.svg) : bool :=
  match e with
  | Chart.Text c _ _ _ _ => String.eqb c "station-label"
  | _ => false
  end.

(** The dot of a profile point. *)
Definition is_circle (e : Chart.svg) : bool :=
  match e with
  | Chart.Circle _ _ _ _ => true
  | _ => false
  end.

(** A pixel inside the plot rectangle, borders included: the rectangle spans
    [margin_left .. width - margin_right] by [margin_top .. height - margin_bottom]. *)
Definition inside_plot (x y : pyfloat) : Prop :=
  exists px py,
    x = Fin px /\ y = Fin py /\
    inject_Z Chart.margin_left <= px /\
    px <= inject_Z (Chart.width - Chart.margin_right) /\
    inject_Z Chart.margin_top <= py /\
    py <= inject_Z (Chart.height - Chart.margin_bottom).

(** A profile whose altitudes lie between its first and its last one, as the
    ascending grid of the parser does. *)
Definition within_ends (rass_points : list (Z * pyfloat)) : Prop :=
  exists first last_,
    head rass_points = Some first /\ last rass_points = Some last_ /\
    Forall (fun p : Z * pyfloat => (fst first <= fst p <= fst last_)%Z) rass_points.

(** The square of the legend. *)
Definition legend_square : Chart.svg :=
  Chart.Rect "station" (of_int (Chart.legend_x + 9)) (of_int (Chart.legend_y + 34))
             (of_int 6) (of_int 6).

(** ** The directory listings *)

(** The page holds a link whose target is the given text. *)
Definition links_to (html target : string) : Prop :=
  exists pre post,
    html = (pre ++ "href=" ++ String Listing.quote
                                     (target ++ String Listing.quote post))%string.

(** The text matches a run of atoms, character by character. *)
Definition shaped (p : list Listing.atom) (s : string) : Prop :=
  Forall2 (fun a c => Listing.atom_ok a c = true) p (list_ascii_of_string s).

(** The text is made of [n] decimal digits. *)
Definition digits_text (n : nat) (s : string) : Prop :=
  String.length s = n /\
  Forall (fun c => Listing.is_decimal c = true) (list_ascii_of_string s).

End Spec.

(* ===================================================================== *)
(** * Theorems                                                            *)
(* ===================================================================== *)

Import Profile Spec.

(** ** Results *)

Lemma bind_Ok {A B} (m : result A) (k : A -> result B) (b : B) :
  Py.bind m k = Ok b <-> exists a, m = Ok a /\ k a = Ok b.
Proof.
  destruct m as [a|e]; simpl; split.
  - intros H. exists a. auto.
  - intros (a' & Ha & Hk). congruence.
  - discriminate.
  - intros (a' & Ha & _). discriminate.
Qed.

Lemma Ok_inj {A} (a b : A) : Ok a = Ok b -> a = b.
Proof. congruence. Qed.

(** ** Floats on finite values *)

Lemma fltb_Fin (a b : Q) : fltb (Fin a) (Fin b) = true <-> a < b.
Proof.
  simpl. rewrite negb_true_iff. split.
  - intros H. apply Qnot_le_lt. intros Hle.
    apply Qle_bool_iff in Hle. congruence.
  - intros H. destruct (Qle_bool b a) eqn:E; [|reflexivity].
    apply Qle_bool_iff in E. exfalso. apply (Qlt_not_le _ _ H E).
Qed.

Lemma fltb_Fin_false (a b : Q) : fltb (Fin a) (Fin b) = false <-> b <= a.
Proof.
  simpl. rewrite negb_false_iff. apply Qle_bool_iff.
Qed.

Lemma feqb_Fin (a b : Q) : feqb (Fin a) (Fin b) = true <-> a == b.
Proof. simpl. apply Qeq_bool_iff. Qed.

Lemma feqb_Fin_false (a b : Q) : feqb (Fin a) (Fin b) = false <-> ~ a == b.
Proof.
  simpl. split.
  - intros H E. apply Qeq_bool_iff in E. congruence.
  - intros H. destruct (Qeq_bool a b) eqn:E; [|reflexivity].
    apply Qeq_bool_iff in E. contradiction.
Qed.

Lemma is_finite_Fin (x : pyfloat) : is_finite x = true -> exists a, x = Fin a.
Proof. destruct x; simpl; try discriminate. eauto. Qed.

(** ** [range] *)








(** ** The sort *)

Lemma insert_by_alt_perm (p : point) (l : list point) :
  insert_by_alt p l ≡ₚ p :: l.
Proof.
  induction l as [|q l IH]; simpl; [reflexivity|].
  destruct (fltb (fst p) (fst q)); [reflexivity|].
  rewrite IH. apply Permutation_swap.
Qed.

Lemma sort_fold_perm (l acc : list point) :
  fold_left (fun acc p => insert_by_alt p acc) l acc ≡ₚ l ++ acc.
Proof.
  revert acc. induction l as [|p l IH]; intros acc; simpl; [reflexivity|].
  rewrite IH, insert_by_alt_perm. symmetry. apply Permutation_middle.
Qed.

Lemma sort_by_alt_perm (l : list point) : sort_by_alt l ≡ₚ l.
Proof. unfold sort_by_alt. rewrite sort_fold_perm, app_nil_r. reflexivity. Qed.


Lemma finite_alts_perm (l l' : list point) :
  l ≡ₚ l' -> finite_alts l -> finite_alts l'.
Proof.
  unfold finite_alts. intros Hp H. rewrite Forall_forall in *.
  intros x Hx. apply H. rewrite Hp. exact Hx.
Qed.

Lemma fltb_alt_lt (p q : point) :
  is_finite (fst p) = true -> is_finite (fst q) = true ->
  fltb (fst p) (fst q) = true -> alt_of p < alt_of q.
Proof.
  intros Hp Hq. unfold alt_of.
  destruct (is_finite_Fin _ Hp) as [a ->], (is_finite_Fin _ Hq) as [b ->].
  apply fltb_Fin.
Qed.

Lemma fltb_alt_ge (p q : point) :
  is_finite (fst p) = true -> is_finite (fst q) = true ->
  fltb (fst p) (fst q) = false -> alt_of q <= alt_of p.
Proof.
  intros Hp Hq. unfold alt_of.
  destruct (is_finite_Fin _ Hp) as [a ->], (is_finite_Fin _ Hq) as [b ->].
  apply fltb_Fin_false.
Qed.

Lemma insert_by_alt_sorted (p : point) (l : list point) :
  is_finite (fst p) = true -> finite_alts l ->
  StronglySorted alt_le l -> StronglySorted alt_le (insert_by_alt p l).
Proof.
  intros Hp Hfin Hs. induction l as [|q l IH]; simpl.
  - constructor; constructor.
  - apply Forall_cons in Hfin. destruct Hfin as [Hq Hfin].
    apply StronglySorted_inv in Hs. destruct Hs as [Hs Hall].
    destruct (fltb (fst p) (fst q)) eqn:E.
    + pose proof (fltb_alt_lt p q Hp Hq E) as Hlt.
      constructor; [constructor; assumption|].
      constructor; [apply Qlt_le_weak, Hlt|].
      eapply Forall_impl; [exact Hall|].
      intros x Hx. unfold alt_le in *. simpl in Hx.
      apply Qlt_le_weak. eapply Qlt_le_trans; eassumption.
    + pose proof (fltb_alt_ge p q Hp Hq E) as Hge.
      constructor; [apply IH; assumption|].
      rewrite Forall_forall. intros x Hx.
      rewrite insert_by_alt_perm in Hx. apply elem_of_cons in Hx.
      destruct Hx as [->|Hx]; [exact Hge|].
      rewrite Forall_forall in Hall. apply Hall, Hx.
Qed.

Lemma sort_fold_sorted (l acc : list point) :
  finite_alts l -> finite_alts acc -> StronglySorted alt_le acc ->
  StronglySorted alt_le (fold_left (fun acc p => insert_by_alt p acc) l acc).
Proof.
  revert acc. induction l as [|p l IH]; intros acc Hl Hacc Hs; simpl; [exact Hs|].
  apply Forall_cons in Hl. destruct Hl as [Hp Hl].
  apply IH; [exact Hl| |apply insert_by_alt_sorted; assumption].
  eapply finite_alts_perm; [symmetry; apply insert_by_alt_perm|].
  constructor; assumption.
Qed.

Lemma sort_by_alt_sorted (l : list point) :
  finite_alts l -> StronglySorted alt_le (sort_by_alt l).
Proof.
  intros H. apply sort_fold_sorted; [exact H|constructor|constructor].
Qed.




(** ** The advancing pointer *)



(** ** One interpolated value *)


(** ** The resampling loop *)





(** ** Rounding to the 100 m grid *)

Lemma ceil100_Fin (a : Q) : ceil100 (Fin a) = Ok (Qceiling (a / 100) * 100)%Z.
Proof. reflexivity. Qed.

Lemma floor100_Fin (a : Q) : floor100 (Fin a) = Ok (Qfloor (a / 100) * 100)%Z.
Proof. reflexivity. Qed.

Lemma ceil100_ge (a : Q) : a <= inject_Z (Qceiling (a / 100) * 100).
Proof.
  pose proof (Qle_ceiling (a / 100)) as H.
  rewrite inject_Z_mult. change (inject_Z 100) with 100.
  set (c := inject_Z (Qceiling (a / 100))) in *.
  assert (a == a / 100 * 100) as -> by (field).
  apply Qmult_le_compat_r; [exact H|]. lra.
Qed.

Lemma floor100_le (a : Q) : inject_Z (Qfloor (a / 100) * 100) <= a.
Proof.
  pose proof (Qfloor_le (a / 100)) as H.
  rewrite inject_Z_mult. change (inject_Z 100) with 100.
  set (c := inject_Z (Qfloor (a / 100))) in *.
  assert (a == a / 100 * 100) as Ha by (field).
  rewrite Ha.
  apply Qmult_le_compat_r; [exact H|]. lra.
Qed.

(** ** Resampling returns, and what it returns *)


(** ** The table of a file *)

Lemma find_header_from_spec (lines : list string) (idx : nat) :
  match find_header_from idx lines with
  | None => after_header lines = None /\ header_missing lines
  | Some i => exists n, i = (idx + n)%nat /\
                        after_header lines = Some (drop n lines) /\
                        ~ header_missing lines
  end.
Proof.
  revert idx. induction lines as [|line rest IH]; intros idx; simpl.
  - split; [reflexivity|]. intros l Hl. inversion Hl.
  - unfold is_header. destruct (startswith "HT" (strip line)) eqn:E.
    + exists 1%nat. split; [lia|]. split; [reflexivity|].
      intros Hm. specialize (Hm line). unfold is_header in Hm.
      rewrite E in Hm. discriminate Hm. left.
    + specialize (IH (S idx)). destruct (find_header_from (S idx) rest).
      * destruct IH as (m & -> & Ha & Hn). exists (S m). split; [lia|].
        split; [exact Ha|]. intros Hm. apply Hn. intros l Hl. apply Hm. right. exact Hl.
      * destruct IH as [Ha Hm]. split; [exact Ha|].
        intros l Hl. apply elem_of_cons in Hl. destruct Hl as [->|Hl]; [exact E|auto].
Qed.

Lemma read_table_spec `{Builtins} (lines : list string) :
  read_table lines = valid_points lines.
Proof.
  unfold valid_points. induction lines as [|line rest IH]; [reflexivity|].
  cbn [read_table until_end]. unfold ends_table.
  destruct (is_empty (strip line) || startswith "$" (strip line)); [reflexivity|].
  rewrite IH.
  change (omap line_point (line :: until_end rest))
    with (match line_point line with
          | Some y => y :: omap line_point (until_end rest)
          | None => omap line_point (until_end rest)
          end).
  set (X := omap line_point (until_end rest)).
  unfold line_point.
  destruct (split line) as [|p0 [|p1 more]]; try reflexivity.
  destruct (py_float p0) as [a|]; [|reflexivity].
  destruct (py_float p1) as [t|]; [|reflexivity].
  destruct (fgeb t (of_int 999999)); reflexivity.
Qed.

Lemma parse_profile_spec `{Builtins} (msg raw : string) :
  let lines := splitlines raw in
  (header_missing lines /\ parse_profile msg raw = Raise (RuntimeError msg)) \/
  (~ header_missing lines /\
   parse_profile msg raw =
     let! out := resample (table_points lines) in Ok (observation_time lines, out)).
Proof.
  intros lines. unfold parse_profile, find_header, table_points. fold lines.
  pose proof (find_header_from_spec lines 0) as Hs.
  destruct (find_header_from 0 lines) as [i|].
  - destruct Hs as (m & -> & Ha & Hn). right. split; [exact Hn|].
    rewrite Ha. simpl. rewrite read_table_spec. reflexivity.
  - destruct Hs as [_ Hm]. left. auto.
Qed.


(** ** Claims about the parser *)








(** *** Running the parsers on the sample files *)

Ltac run_list l := let x := fresh in set (x := l); vm_compute in x; subst x.

Lemma sample_header (ls : list string) (raw : string) :
  splitlines raw = "HT TEMP"%string :: ls -> ~ header_missing (splitlines raw).
Proof.
  intros E Hm. specialize (Hm "HT TEMP"%string). rewrite E in Hm.
  discriminate Hm. left.
Defined.


Ltac sample_finite :=
  match goal with
  | |- finite_alts ?l => unfold finite_alts; run_list l; repeat constructor
  | |- finite_points ?l => unfold finite_points; run_list l; repeat constructor
  end.










(** ** The axis ranges *)

Import Madis Chart.

Lemma all_finite_cons (x : pyfloat) (l : list pyfloat) :
  all_finite (x :: l) <-> is_finite x = true /\ all_finite l.
Proof.
  unfold all_finite. split.
  - intros H. inversion H; subst. auto.
  - intros [H1 H2]. constructor; assumption.
Qed.

Lemma py_min_finite (xs : list pyfloat) :
  forall x, all_finite (x :: xs) ->
  exists q, py_min x xs = Fin q /\ Fin q ∈ x :: xs /\
            forall y, y ∈ x :: xs -> q <= qval y.
Proof.
  induction xs as [|y ys IH]; intros x Hfin.
  - apply all_finite_cons in Hfin. destruct Hfin as [Hx _].
    destruct (is_finite_Fin _ Hx) as [a ->]. exists a. simpl.
    split; [reflexivity|]. split; [left|].
    intros y Hy. apply list_elem_of_singleton in Hy. subst. simpl. apply Qle_refl.
  - apply all_finite_cons in Hfin. destruct Hfin as [Hx Hfin].
    apply all_finite_cons in Hfin. destruct Hfin as [Hy Hfin].
    destruct (is_finite_Fin _ Hx) as [a ->], (is_finite_Fin _ Hy) as [b ->].
    unfold py_min. simpl fold_left.
    change (fold_left _ ys ?z) with (py_min z ys).
    destruct (negb (Qle_bool a b)) eqn:E.
    + apply negb_true_iff in E.
      assert (Hba : b < a).
      { apply Qnot_le_lt. intros Hle. apply Qle_bool_iff in Hle. congruence. }
      destruct (IH (Fin b)) as (q & Hq & Hin & Hle).
      { apply all_finite_cons. auto. }
      exists q. split; [exact Hq|]. split; [right; exact Hin|].
      intros z Hz. apply elem_of_cons in Hz. destruct Hz as [->|Hz]; [|apply Hle, Hz].
      simpl. specialize (Hle (Fin b)). simpl in Hle.
      eapply Qle_trans; [apply Hle; left|]. apply Qlt_le_weak, Hba.
    + apply negb_false_iff, Qle_bool_iff in E.
      destruct (IH (Fin a)) as (q & Hq & Hin & Hle).
      { apply all_finite_cons. auto. }
      exists q. split; [exact Hq|]. split.
      * apply elem_of_cons in Hin. destruct Hin as [->|Hin]; [left|right; right; exact Hin].
      * intros z Hz. apply elem_of_cons in Hz. destruct Hz as [->|Hz]; [apply Hle; left|].
        apply elem_of_cons in Hz. destruct Hz as [->|Hz]; [|apply Hle; right; exact Hz].
        simpl. specialize (Hle (Fin a)). simpl in Hle.
        eapply Qle_trans; [apply Hle; left|]. exact E.
Qed.

Lemma py_max_finite (xs : list pyfloat) :
  forall x, all_finite (x :: xs) ->
  exists q, py_max x xs = Fin q /\ Fin q ∈ x :: xs /\
            forall y, y ∈ x :: xs -> qval y <= q.
Proof.
  induction xs as [|y ys IH]; intros x Hfin.
  - apply all_finite_cons in Hfin. destruct Hfin as [Hx _].
    destruct (is_finite_Fin _ Hx) as [a ->]. exists a. simpl.
    split; [reflexivity|]. split; [left|].
    intros y Hy. apply list_elem_of_singleton in Hy. subst. simpl. apply Qle_refl.
  - apply all_finite_cons in Hfin. destruct Hfin as [Hx Hfin].
    apply all_finite_cons in Hfin. destruct Hfin as [Hy Hfin].
    destruct (is_finite_Fin _ Hx) as [a ->], (is_finite_Fin _ Hy) as [b ->].
    unfold py_max. simpl fold_left.
    change (fold_left _ ys ?z) with (py_max z ys).
    destruct (negb (Qle_bool b a)) eqn:E.
    + apply negb_true_iff in E.
      assert (Hab : a < b).
      { apply Qnot_le_lt. intros Hle. apply Qle_bool_iff in Hle. congruence. }
      destruct (IH (Fin b)) as (q & Hq & Hin & Hle).
      { apply all_finite_cons. auto. }
      exists q. split; [exact Hq|]. split; [right; exact Hin|].
      intros z Hz. apply elem_of_cons in Hz. destruct Hz as [->|Hz]; [|apply Hle, Hz].
      simpl. specialize (Hle (Fin b)). simpl in Hle.
      eapply Qle_trans; [apply Qlt_le_weak, Hab|]. apply Hle. left.
    + apply negb_false_iff, Qle_bool_iff in E.
      destruct (IH (Fin a)) as (q & Hq & Hin & Hle).
      { apply all_finite_cons. auto. }
      exists q. split; [exact Hq|]. split.
      * apply elem_of_cons in Hin. destruct Hin as [->|Hin]; [left|right; right; exact Hin].
      * intros z Hz. apply elem_of_cons in Hz. destruct Hz as [->|Hz]; [apply Hle; left|].
        apply elem_of_cons in Hz. destruct Hz as [->|Hz]; [|apply Hle; right; exact Hz].
        simpl. specialize (Hle (Fin a)). simpl in Hle.
        eapply Qle_trans; [exact E|]. apply Hle. left.
Qed.

(** The two horizontal ranges on finite values. *)
Lemma x_ranges_finite (vals : list pyfloat) (m M : Q) :
  all_finite vals -> is_min_of vals m -> is_max_of vals M ->
  exists lo hi,
    x_range vals = Ok (Fin lo, Fin hi) /\ x_range60 vals = Ok (Fin lo, Fin hi) /\
    lo == m - 0.5 /\ hi == M + 0.5 /\ m <= M.
Proof.
  intros Hfin [(xm & Hxm & Hm) Hmin] [(xM & HxM & HM) Hmax].
  destruct vals as [|v vs]; [inversion Hxm|].
  destruct (py_min_finite vs v Hfin) as (a & Ha & Hain & Hale).
  destruct (py_max_finite vs v Hfin) as (b & Hb & Hbin & Hble).
  assert (Eam : a == m).
  { apply Qle_antisym.
    - rewrite <- Hm. apply Hale, Hxm.
    - apply (Hmin (Fin a)), Hain. }
  assert (EbM : b == M).
  { apply Qle_antisym.
    - apply (Hmax (Fin b)), Hbin.
    - rewrite <- HM. apply Hble, HxM. }
  assert (Hab : a <= b).
  { specialize (Hale (Fin b) Hbin). exact Hale. }
  exists (a + Qopp 0.5), (b + 0.5).
  unfold x_range, x_range60, py_min_list, py_max_list.
  cbn [Py.bind]. rewrite Ha, Hb. cbn [Py.bind fsub fadd fneg fltb].
  split.
  { destruct (negb (Qle_bool 1 (b + - a))); reflexivity. }
  split.
  { match goal with
    | |- context [Qle_bool ?u ?v] =>
        assert (E : Qle_bool u v = true) by (apply Qle_bool_iff; lra);
        rewrite E
    end.
    reflexivity. }
  split; [lra|]. split; [lra|]. lra.
Qed.

Lemma all_finite_app (l1 l2 : list pyfloat) :
  all_finite (l1 ++ l2) <-> all_finite l1 /\ all_finite l2.
Proof. unfold all_finite. apply Forall_app. Qed.

Lemma all_finite_omap {A} (f : A -> option pyfloat) (l : list A) :
  Forall (fun s => finite_opt (f s)) l -> all_finite (omap f l).
Proof.
  induction 1 as [|s l Hs Hl IH]; simpl; [constructor|].
  unfold finite_opt in Hs. destruct (f s); [constructor; assumption|exact IH].
Qed.

Lemma Forall_filter_keep {A} (P : A -> Prop) (f : A -> bool) (l : list A) :
  Forall P l -> Forall P (List.filter f l).
Proof.
  induction 1 as [|x l Hx Hl IH]; simpl; [constructor|].
  destruct (f x); [constructor; assumption|exact IH].
Qed.

Lemma dalr_temp_finite (anchor_alt : Z) (anchor_temp : pyfloat) (alt : Z) :
  is_finite anchor_temp = true -> is_finite (dalr_temp anchor_alt anchor_temp alt) = true.
Proof. intros H. destruct (is_finite_Fin _ H) as [a ->]. reflexivity. Qed.

Lemma x_values_finite (anchor_alt : Z) (anchor_temp : pyfloat)
  (rass_points : list (Z * pyfloat)) (station_temps : list pyfloat) :
  is_finite anchor_temp = true -> finite_temps rass_points ->
  all_finite station_temps ->
  all_finite (x_values anchor_alt anchor_temp rass_points station_temps).
Proof.
  intros Ha Hr Hs. unfold x_values.
  apply all_finite_app. split; [|apply all_finite_app; split; [|exact Hs]].
  - unfold all_finite. apply Forall_fmap. exact Hr.
  - unfold all_finite. apply Forall_fmap.
    eapply Forall_impl; [exact Hr|]. intros p _. simpl.
    apply dalr_temp_finite, Ha.
Qed.

Lemma x_values_union (anchor_alt : Z) (anchor_temp : pyfloat)
  (rass_points : list (Z * pyfloat)) (station_temps : list pyfloat) (v : pyfloat) :
  v ∈ x_values anchor_alt anchor_temp rass_points station_temps <->
  (exists a, (a, v) ∈ rass_points) \/
  (exists a t, (a, t) ∈ rass_points /\ v = dalr_temp anchor_alt anchor_temp a) \/
  v ∈ station_temps.
Proof.
  unfold x_values. rewrite !elem_of_app, !list_elem_of_fmap. split.
  - intros [([a t] & -> & Hp)|[([a t] & -> & Hp)|Hs]].
    + left. exists a. exact Hp.
    + right. left. exists a, t. auto.
    + right. right. exact Hs.
  - intros [(a & Hp)|[(a & t & Hp & ->)|Hs]].
    + left. exists (a, v). auto.
    + right. left. exists (a, t). auto.
    + right. right. exact Hs.
Qed.


(** ** The vertical range and the pixel maps *)

Lemma y_range_ok (rass_points : list (Z * pyfloat)) (station_alts : list pyfloat) :
  is_profile rass_points -> all_finite station_alts ->
  exists y_min y_max,
    y_range rass_points station_alts = Ok (y_min, y_max) /\
    (y_min + 100 <= y_max)%Z.
Proof.
  intros (first & last_ & Hh & Hl & Hfl) Hfin.
  unfold y_range, index, index_last. rewrite <- head_lookup, Hh, Hl. cbn [Py.bind].
  assert (E0 : match station_alts with
               | [] => py_min (of_int (fst first)) [Fin 0]
               | _ :: _ => py_min (of_int (fst first)) (Fin 0 :: station_alts)
               end = py_min (of_int (fst first)) (Fin 0 :: station_alts))
    by (destruct station_alts; reflexivity).
  assert (E1 : match station_alts with
               | [] => of_int (fst last_)
               | _ :: _ => py_max (of_int (fst last_)) station_alts
               end = py_max (of_int (fst last_)) station_alts)
    by (destruct station_alts; reflexivity).
  rewrite E0, E1. clear E0 E1.
  destruct (py_min_finite (Fin 0 :: station_alts) (of_int (fst first)))
    as (q0 & Hq0 & _ & Hle0).
  { apply all_finite_cons. split; [reflexivity|].
    apply all_finite_cons. split; [reflexivity|exact Hfin]. }
  destruct (py_max_finite station_alts (of_int (fst last_)))
    as (q1 & Hq1 & _ & Hle1).
  { apply all_finite_cons. split; [reflexivity|exact Hfin]. }
  rewrite Hq0, Hq1, floor100_Fin, ceil100_Fin. cbn [Py.bind].
  eexists. eexists. split; [reflexivity|].
  assert (H0 : q0 <= inject_Z (fst first)) by (apply (Hle0 (of_int (fst first))); left).
  assert (H1 : inject_Z (fst last_) <= q1) by (apply (Hle1 (of_int (fst last_))); left).
  pose proof (floor100_le q0) as F. pose proof (ceil100_ge q1) as C.
  assert (Hzz : inject_Z (Qfloor (q0 / 100) * 100) <= inject_Z (Qceiling (q1 / 100) * 100)).
  { eapply Qle_trans; [exact F|]. eapply Qle_trans; [exact H0|].
    eapply Qle_trans; [|exact C]. eapply Qle_trans; [|exact H1].
    rewrite <- Zle_Qle. exact Hfl. }
  rewrite <- Zle_Qle in Hzz.
  destruct (Z.eqb_spec (Qceiling (q1 / 100) * 100) (Qfloor (q0 / 100) * 100)); lia.
Qed.

Lemma y_range60_ok (rass_points : list (Z * pyfloat)) (station_alts : list pyfloat) :
  is_profile rass_points -> all_finite station_alts ->
  exists y_min y_max,
    y_range60 rass_points station_alts = Ok (y_min, y_max) /\ (y_min < y_max)%Z.
Proof.
  intros (first & last_ & Hh & Hl & Hfl) Hfin.
  unfold y_range60, index, index_last. rewrite <- head_lookup, Hh, Hl. cbn [Py.bind].
  destruct station_alts as [|s alts].
  - cbn [Py.bind]. eexists. eexists. split; [reflexivity|].
    destruct (Z.leb_spec (fst last_) 0); lia.
  - destruct (py_min_finite (of_int (fst first) :: s :: alts) (Fin 0))
      as (q0 & Hq0 & _ & _).
    { apply all_finite_cons. split; [reflexivity|].
      apply all_finite_cons. split; [reflexivity|exact Hfin]. }
    destruct (py_max_finite (s :: alts) (of_int (fst last_)))
      as (q1 & Hq1 & _ & _).
    { apply all_finite_cons. split; [reflexivity|exact Hfin]. }
    rewrite Hq0, Hq1, floor100_Fin, ceil100_Fin. cbn [Py.bind].
    eexists. eexists. split; [reflexivity|].
    destruct (Z.leb_spec (Qceiling (q1 / 100) * 100) (Qfloor (q0 / 100) * 100)); lia.
Qed.

Lemma x_to_svg_ok (lo hi : Q) (t : pyfloat) :
  ~ hi - lo == 0 ->
  x_to_svg (Fin lo) (Fin hi) t =
    Ok (fadd (of_int margin_left)
             (fmul (fdiv (fsub t (Fin lo)) (Fin (hi - lo))) (of_int plot_w))).
Proof.
  intros Hne. unfold x_to_svg, py_truediv. cbn [fsub fneg fadd is_zero].
  destruct (Qeq_bool (hi + - lo) 0) eqn:E; [|reflexivity].
  apply Qeq_bool_iff in E. contradiction.
Qed.

Lemma y_to_svg_ok (y_min y_max : Z) (a : pyfloat) :
  y_min <> y_max ->
  y_to_svg y_min y_max a =
    Ok (fadd (of_int margin_top)
             (fmul (fdiv (fsub (of_int y_max) a) (of_int (y_max - y_min)))
                   (of_int plot_h))).
Proof.
  intros Hne. unfold y_to_svg, py_truediv.
  assert (E : is_zero (of_int (y_max - y_min)) = false).
  { unfold of_int, is_zero.
    destruct (Qeq_bool (inject_Z (y_max - y_min)) 0) eqn:E; [|reflexivity].
    apply Qeq_bool_iff in E. change 0 with (inject_Z 0) in E.
    apply (proj1 (inject_Z_injective _ _)) in E. exfalso. lia. }
  rewrite E. reflexivity.
Qed.

Lemma profile_anchor (rass_points : list (Z * pyfloat)) :
  is_profile rass_points -> finite_temps rass_points ->
  exists a t, index rass_points 0 = Ok (a, Fin t).
Proof.
  intros (first & _ & Hh & _) Hfin. unfold index. rewrite <- head_lookup, Hh.
  destruct first as [a x]. unfold finite_temps in Hfin.
  rewrite Forall_lookup in Hfin. rewrite head_lookup in Hh.
  specialize (Hfin _ _ Hh). simpl in Hfin.
  destruct (is_finite_Fin _ Hfin) as [t ->]. eauto.
Qed.

Lemma x_values_nonempty (a : Z) (t : pyfloat) (rass_points : list (Z * pyfloat))
  (station_temps : list pyfloat) :
  rass_points <> [] -> x_values a t rass_points station_temps <> [].
Proof. destruct rass_points; [congruence|]. discriminate. Qed.

Lemma finite_has_min (l : list pyfloat) :
  l <> [] -> all_finite l -> exists m, is_min_of l m.
Proof.
  intros Hne Hfin. destruct l as [|x xs]; [congruence|].
  destruct (py_min_finite xs x Hfin) as (q & _ & Hin & Hle).
  exists q. split; [|exact Hle]. exists (Fin q). split; [exact Hin|reflexivity].
Qed.

Lemma finite_has_max (l : list pyfloat) :
  l <> [] -> all_finite l -> exists m, is_max_of l m.
Proof.
  intros Hne Hfin. destruct l as [|x xs]; [congruence|].
  destruct (py_max_finite xs x Hfin) as (q & _ & Hin & Hle).
  exists q. split; [|exact Hle]. exists (Fin q). split; [exact Hin|reflexivity].
Qed.

(** Both horizontal ranges of finite values span at least 1. *)
Lemma x_ranges_wide (vals : list pyfloat) :
  vals <> [] -> all_finite vals ->
  exists lo hi,
    x_range vals = Ok (Fin lo, Fin hi) /\ x_range60 vals = Ok (Fin lo, Fin hi) /\
    1 <= hi - lo.
Proof.
  intros Hne Hfin.
  destruct (finite_has_min vals Hne Hfin) as [m Hm].
  destruct (finite_has_max vals Hne Hfin) as [M HM].
  destruct (x_ranges_finite vals m M Hfin Hm HM) as (lo & hi & H1 & H2 & Hlo & Hhi & HmM).
  exists lo, hi. split; [exact H1|]. split; [exact H2|]. lra.
Qed.


(** ** The elements of a chart *)

Lemma count_app (f : svg -> bool) (l1 l2 : list svg) :
  count f (l1 ++ l2) = (count f l1 + count f l2)%nat.
Proof. unfold count. rewrite List.filter_app, length_app. reflexivity. Qed.

Lemma count_plain_path (cls : string) (l : list svg) :
  Forall plain l -> count (is_path cls) l = 0%nat.
Proof.
  unfold count. induction 1 as [|e l [He _] _ IH]; simpl; [reflexivity|].
  rewrite He. exact IH.
Qed.

Lemma count_plain_square (l : list svg) :
  Forall plain l -> count is_station_square l = 0%nat.
Proof.
  unfold count. induction 1 as [|e l [_ He] _ IH]; simpl; [reflexivity|].
  rewrite He. exact IH.
Qed.

Lemma mapM_Forall {A B} (f : A -> result B) (P : B -> Prop) (l : list A) :
  (forall x y, f x = Ok y -> P y) ->
  forall ys, mapM f l = Ok ys -> Forall P ys.
Proof.
  intros Hf. induction l as [|x l IH]; intros ys H; simpl in H.
  - injection H as <-. constructor.
  - destruct (f x) as [y|] eqn:E; [|discriminate].
    destruct (mapM f l) as [ys'|]; [|discriminate].
    injection H as <-. constructor; [eapply Hf, E|apply IH; reflexivity].
Qed.

Lemma mapM_total {A B} (f : A -> result B) (l : list A) :
  (forall x, exists y, f x = Ok y) -> exists ys, mapM f l = Ok ys.
Proof.
  intros Hf. induction l as [|x l [ys IH]]; simpl; [eauto|].
  destruct (Hf x) as [y ->]. rewrite IH. eauto.
Qed.

Lemma mapM_total_on {A B} (f : A -> result B) (l : list A) :
  (forall x, x ∈ l -> exists y, f x = Ok y) -> exists ys, mapM f l = Ok ys.
Proof.
  induction l as [|x l IH]; intros Hf; simpl; [eauto|].
  destruct (Hf x) as [y ->]; [left|].
  destruct IH as [ys ->]; [intros z Hz; apply Hf; right; exact Hz|]. eauto.
Qed.

Lemma Forall_concat_plain (ls : list (list svg)) :
  Forall (Forall plain) ls -> Forall plain (concat ls).
Proof.
  induction 1 as [|l ls Hl _ IH]; simpl; [constructor|].
  apply Forall_app. split; assumption.
Qed.

Lemma y_tick_lines_plain (yf : pyfloat -> result pyfloat) (tk : list Z) (ls : list svg) :
  y_tick_lines yf tk = Ok ls -> Forall plain ls.
Proof.
  unfold y_tick_lines. intros H. apply bind_Ok in H. destruct H as (lls & Hm & H).
  injection H as <-. apply Forall_concat_plain.
  eapply mapM_Forall; [|exact Hm]. intros y l Hl. simpl in Hl.
  apply bind_Ok in Hl. destruct Hl as (px & _ & Hl). injection Hl as <-.
  repeat constructor.
Qed.

Lemma x_tick_lines_plain (xf : pyfloat -> result pyfloat) (tk : list Z) (ls : list svg) :
  x_tick_lines xf tk = Ok ls -> Forall plain ls.
Proof.
  unfold x_tick_lines. intros H. apply bind_Ok in H. destruct H as (lls & Hm & H).
  injection H as <-. apply Forall_concat_plain.
  eapply mapM_Forall; [|exact Hm]. intros y l Hl. simpl in Hl.
  apply bind_Ok in Hl. destruct Hl as (px & _ & Hl). injection Hl as <-.
  repeat constructor.
Qed.

Lemma point_circles_plain (xf yf : pyfloat -> result pyfloat)
  (rp : list (Z * pyfloat)) (ls : list svg) :
  point_circles xf yf rp = Ok ls -> Forall plain ls.
Proof.
  unfold point_circles. apply mapM_Forall. intros p e He.
  apply bind_Ok in He. destruct He as (cx & _ & He).
  apply bind_Ok in He. destruct He as (cy & _ & He). injection He as <-.
  repeat constructor.
Qed.

Lemma head_lines_plain (c t st : string) : Forall plain (head_lines c t st).
Proof. unfold head_lines. repeat constructor. Qed.

Lemma axis_lines_plain : Forall plain axis_lines.
Proof. unfold axis_lines. repeat constructor. Qed.

Lemma caption_lines_plain (c pre : string) (ids : list string) :
  Forall plain (caption_lines c pre ids).
Proof. unfold caption_lines. destruct ids; repeat constructor. Qed.

Lemma legend_lines_count (txt : string) :
  count is_station_square (legend_lines txt) = 1%nat /\
  forall cls, count (is_path cls) (legend_lines txt) = 0%nat.
Proof. split; [reflexivity|]. intros cls. reflexivity. Qed.

(** The station loop: one square per station, at the station's pixel. *)
Lemma station_marks_count (attempts : nat) (xf yf : pyfloat -> result pyfloat)
  (stations : list (string * option pyfloat * option pyfloat)) :
  forall used marks,
    station_marks attempts xf yf stations used = Ok marks ->
    count is_station_square marks = length stations /\
    (forall cls, count (is_path cls) marks = 0%nat) /\
    (forall sid temp elev, (sid, temp, elev) ∈ stations ->
       exists t e x_px y_px,
         temp = Some t /\ elev = Some e /\ xf t = Ok x_px /\ yf e = Ok y_px /\
         Rect "station" (fsub x_px (of_int 3)) (fsub y_px (of_int 3))
              (of_int 6) (of_int 6) ∈ marks).
Proof.
  induction stations as [|[[sid temp] elev] rest IH]; intros used marks H.
  - simpl in H. injection H as <-. split; [reflexivity|]. split; [reflexivity|].
    intros ? ? ? Hin. inversion Hin.
  - cbn [station_marks] in H.
    apply bind_Ok in H. destruct H as (t & Ht & H).
    apply bind_Ok in H. destruct H as (x_px & Hx & H).
    apply bind_Ok in H. destruct H as (e & He & H).
    apply bind_Ok in H. destruct H as (y_px & Hy & H).
    apply bind_Ok in H. destruct H as (more & Hm & H).
    injection H as <-.
    destruct temp as [t'|]; [|discriminate]. injection Ht as ->.
    destruct elev as [e'|]; [|discriminate]. injection He as ->.
    destruct (IH _ _ Hm) as (C1 & C2 & C3).
    split; [|split].
    + unfold count in *.
      match goal with |- context [if ?c then _ else _] => destruct c end;
        simpl; rewrite C1; reflexivity.
    + intros cls. specialize (C2 cls). unfold count in *.
      match goal with |- context [if ?c then _ else _] => destruct c end;
        simpl; exact C2.
    + intros sid' temp' elev' Hin. apply elem_of_cons in Hin.
      destruct Hin as [Heq|Hin].
      * injection Heq as -> -> ->. exists t, e, x_px, y_px.
        do 4 (split; [reflexivity || assumption|]). left.
      * destruct (C3 _ _ _ Hin) as (t1 & e1 & x1 & y1 & P1 & P2 & P3 & P4 & P5).
        exists t1, e1, x1, y1. do 4 (split; [assumption|]). right. right. exact P5.
Qed.

Lemma station_marks_total (attempts : nat) (xf yf : pyfloat -> result pyfloat)
  (stations : list (string * option pyfloat * option pyfloat)) :
  (forall v, exists r, xf v = Ok r) -> (forall v, exists r, yf v = Ok r) ->
  Forall (fun s => not_none (snd (fst s)) = true /\ not_none (snd s) = true) stations ->
  forall used, exists marks, station_marks attempts xf yf stations used = Ok marks.
Proof.
  intros Hx Hy. induction 1 as [|[[sid temp] elev] rest [Ht He] _ IH]; intros used.
  - simpl. eauto.
  - simpl in Ht, He. destruct temp as [t|]; [|discriminate].
    destruct elev as [e|]; [|discriminate].
    cbn [station_marks number Py.bind].
    destruct (Hx t) as [x_px ->]. cbn [Py.bind].
    destruct (Hy e) as [y_px ->]. cbn [Py.bind].
    match goal with
    | |- context [station_marks attempts xf yf rest ?u] =>
        destruct (IH u) as [more ->]
    end.
    cbn [Py.bind]. eauto.
Qed.

Lemma path_from_total (xf yf : pyfloat -> result pyfloat) (pts : list (pyfloat * pyfloat)) :
  (forall v, exists r, xf v = Ok r) -> (forall v, exists r, yf v = Ok r) ->
  forall b, exists d, path_from b xf yf pts = Ok d /\ length d = length pts.
Proof.
  intros Hx Hy. induction pts as [|[x a] pts IH]; intros b; simpl.
  - exists []. auto.
  - destruct (Hx x) as [px ->]. destruct (Hy a) as [py ->]. simpl.
    destruct (IH false) as (d & -> & Hd). simpl. eexists. split; [reflexivity|].
    simpl. rewrite Hd. reflexivity.
Qed.

Lemma plot_lines_counts (attempts : nat) (cc cp lt title sub : string)
  (x_min x_max : pyfloat) (y_min y_max anchor_alt : Z) (anchor_temp : pyfloat)
  (rp : list (Z * pyfloat)) (stations : list (string * option pyfloat * option pyfloat))
  (ids : list string) (els : list svg) :
  plot_lines attempts cc cp lt title sub x_min x_max y_min y_max
             anchor_alt anchor_temp rp stations ids = Ok els ->
  count (is_path "rass") els = 1%nat /\
  count (is_path "dalr") els = 1%nat /\
  count is_station_square els = (length stations + 1)%nat /\
  (forall sid temp elev, (sid, temp, elev) ∈ stations ->
     exists t e x_px y_px,
       temp = Some t /\ elev = Some e /\
       x_to_svg x_min x_max t = Ok x_px /\ y_to_svg y_min y_max e = Ok y_px /\
       Rect "station" (fsub x_px (of_int 3)) (fsub y_px (of_int 3))
            (of_int 6) (of_int 6) ∈ els).
Proof.
  unfold plot_lines. intros H.
  apply bind_Ok in H. destruct H as (obs_path & _ & H).
  apply bind_Ok in H. destruct H as (dalr_path & _ & H).
  apply bind_Ok in H. destruct H as (c & _ & H).
  apply bind_Ok in H. destruct H as (x_ticks & _ & H).
  apply bind_Ok in H. destruct H as (cy & _ & H).
  apply bind_Ok in H. destruct H as (y_ticks & _ & H).
  apply bind_Ok in H. destruct H as (y_lines & Hyl & H).
  apply bind_Ok in H. destruct H as (x_lines & Hxl & H).
  apply bind_Ok in H. destruct H as (circles & Hc & H).
  apply bind_Ok in H. destruct H as (marks & Hm & H).
  apply Ok_inj in H. subst els.
  apply y_tick_lines_plain in Hyl. apply x_tick_lines_plain in Hxl.
  apply point_circles_plain in Hc.
  destruct (station_marks_count _ _ _ _ _ _ Hm) as (M1 & M2 & M3).
  pose proof (head_lines_plain cc title sub) as Hh.
  pose proof axis_lines_plain as Ha.
  pose proof (caption_lines_plain cc cp ids) as Hcap.
  destruct (legend_lines_count lt) as [L1 L2].
  assert (P : forall cls (Hp : count (is_path cls) [Path "rass" obs_path; Path "dalr" dalr_path] = 1%nat),
             count (is_path cls)
               (head_lines cc title sub ++ y_lines ++ x_lines ++ axis_lines ++
                [Path "rass" obs_path; Path "dalr" dalr_path] ++ circles ++ marks ++
                legend_lines lt ++ caption_lines cc cp ids ++ [SvgClose]) = 1%nat).
  { intros cls Hp. rewrite !count_app, Hp, M2, L2.
    rewrite !count_plain_path by assumption. reflexivity. }
  split; [apply P; reflexivity|]. split; [apply P; reflexivity|]. split.
  - rewrite !count_app, M1, L1.
    rewrite (count_plain_square _ Hh), (count_plain_square _ Hyl),
      (count_plain_square _ Hxl), (count_plain_square _ Ha),
      (count_plain_square _ Hc), (count_plain_square _ Hcap).
    assert (E1 : count is_station_square [Path "rass" obs_path; Path "dalr" dalr_path]
                 = 0%nat) by reflexivity.
    assert (E2 : count is_station_square [SvgClose] = 0%nat) by reflexivity.
    rewrite E1, E2. lia.
  - intros sid temp elev Hin.
    destruct (M3 _ _ _ Hin) as (t & e & x_px & y_px & P1 & P2 & P3 & P4 & P5).
    exists t, e, x_px, y_px. do 4 (split; [assumption|]).
    rewrite !elem_of_app. do 6 right. left. exact P5.
Qed.

Lemma ticks_finite (cursor step : Z) (b : Q) :
  exists tk, ticks cursor step (Fin b) = Ok tk.
Proof. simpl. eauto. Qed.

Lemma plot_lines_total (attempts : nat) (cc cp lt title sub : string)
  (lo hi : Q) (y_min y_max anchor_alt : Z) (anchor_temp : pyfloat)
  (rp : list (Z * pyfloat)) (stations : list (string * option pyfloat * option pyfloat))
  (ids : list string) :
  ~ hi - lo == 0 -> y_min <> y_max ->
  Forall (fun s => not_none (snd (fst s)) = true /\ not_none (snd s) = true) stations ->
  exists els,
    plot_lines attempts cc cp lt title sub (Fin lo) (Fin hi) y_min y_max
               anchor_alt anchor_temp rp stations ids = Ok els.
Proof.
  intros Hx Hy Hst.
  assert (Tx : forall v, exists r, x_to_svg (Fin lo) (Fin hi) v = Ok r)
    by (intros v; rewrite x_to_svg_ok by exact Hx; eauto).
  assert (Ty : forall v, exists r, y_to_svg y_min y_max v = Ok r)
    by (intros v; rewrite y_to_svg_ok by exact Hy; eauto).
  unfold plot_lines.
  match goal with
  | |- context [path_from true ?xf ?yf ?pts] =>
      destruct (path_from_total xf yf pts Tx Ty true) as (d1 & -> & _)
  end.
  cbn [Py.bind].
  match goal with
  | |- context [path_from true ?xf ?yf ?pts] =>
      destruct (path_from_total xf yf pts Tx Ty true) as (d2 & -> & _)
  end.
  cbn [Py.bind].
  unfold of_int. cbn [fdiv math_ceil Py.bind ticks].
  unfold y_tick_lines.
  match goal with
  | |- context [mapM ?f ?l] =>
      destruct (mapM_total f l) as (yl & ->);
      [intros y; cbv beta; destruct (Ty (of_int y)) as [r Hr]; rewrite Hr; simpl; eauto|]
  end.
  cbn [Py.bind]. unfold x_tick_lines.
  match goal with
  | |- context [mapM ?f ?l] =>
      destruct (mapM_total f l) as (xl & ->);
      [intros x; cbv beta; destruct (Tx (of_int x)) as [r Hr]; rewrite Hr; simpl; eauto|]
  end.
  cbn [Py.bind]. unfold point_circles.
  match goal with
  | |- context [mapM ?f ?l] =>
      destruct (mapM_total f l) as (cl & ->);
      [intros p; cbv beta; destruct (Tx (snd p)) as [r Hr]; rewrite Hr; simpl;
       destruct (Ty (of_int (fst p))) as [r' Hr']; rewrite Hr'; simpl; eauto|]
  end.
  cbn [Py.bind].
  destruct (station_marks_total attempts _ _ stations Tx Ty Hst []) as (marks & ->).
  cbn [Py.bind]. eauto.
Qed.

(** ** Whole charts *)

Lemma station_valid_spec (sts : list row) :
  station_valid sts = List.filter valid_station sts.
Proof.
  unfold station_valid. apply List.filter_ext. intros s. unfold valid_station.
  apply andb_comm.
Qed.

Lemma draw_chart_ok (rp : list (Z * pyfloat)) (sts : list row)
  (obs_dt : option string) (rass_file : string) :
  is_profile rp -> finite_temps rp ->
  Forall (fun s => finite_opt (elev_m s) /\ finite_opt (temp_c s)) sts ->
  exists els a t y_min y_max x_min x_max,
    draw_chart rp sts obs_dt rass_file = Ok els /\
    index rp 0 = Ok (a, t) /\
    y_range rp (omap elev_m (station_valid sts)) = Ok (y_min, y_max) /\
    x_range (x_values a t rp (omap temp_c (station_valid sts))) = Ok (x_min, x_max) /\
    plot_lines 30 "missing" "No MADIS temp: " "MADIS station" (title_of obs_dt)
      ("RASS file: " ++ rass_file ++ " | MADIS: latest available per station")
      x_min x_max y_min y_max a t rp
      ((fun s => (id s, temp_c s, elev_m s)) <$> station_valid sts)
      (id <$> List.filter (fun s => is_none (temp_c s) || is_none (elev_m s)) sts)
    = Ok els.
Proof.
  intros Hprof Hft Hs.
  destruct (profile_anchor rp Hprof Hft) as (a & t & Ha).
  assert (Hne : rp <> []).
  { destruct Hprof as (f & _ & Hh & _). intros ->. discriminate. }
  assert (Hv : Forall (fun s => finite_opt (elev_m s) /\ finite_opt (temp_c s))
                      (station_valid sts))
    by (apply Forall_filter_keep, Hs).
  destruct (y_range_ok rp (omap elev_m (station_valid sts)) Hprof)
    as (y_min & y_max & Hy & Hlt).
  { apply all_finite_omap. eapply Forall_impl; [exact Hv|]. simpl. tauto. }
  destruct (x_ranges_wide (x_values a (Fin t) rp (omap temp_c (station_valid sts))))
    as (lo & hi & Hx & _ & Hw).
  { apply x_values_nonempty, Hne. }
  { apply x_values_finite; [reflexivity|exact Hft|].
    apply all_finite_omap. eapply Forall_impl; [exact Hv|]. simpl. tauto. }
  destruct (plot_lines_total 30 "missing" "No MADIS temp: " "MADIS station"
              (title_of obs_dt)
              ("RASS file: " ++ rass_file ++ " | MADIS: latest available per station")
              lo hi y_min y_max a (Fin t) rp
              ((fun s => (id s, temp_c s, elev_m s)) <$> station_valid sts)
              (id <$> List.filter (fun s => is_none (temp_c s) || is_none (elev_m s)) sts))
    as (els & Hels).
  { intros E. lra. }
  { lia. }
  { apply Forall_fmap. unfold station_valid. apply Forall_forall. intros s Hin.
    apply list_elem_of_In, filter_In in Hin. destruct Hin as [_ Hb].
    apply andb_true_iff in Hb. simpl. exact Hb. }
  exists els, a, (Fin t), y_min, y_max, (Fin lo), (Fin hi).
  split; [|auto]. unfold draw_chart. rewrite Ha. cbn [Py.bind].
  rewrite Hy. cbn [Py.bind]. rewrite Hx. cbn [Py.bind]. exact Hels.
Qed.

Lemma draw_svg_ok (rp : list (Z * pyfloat)) (recent all : list row60)
  (rass_time : option string) (rass_file : string) :
  is_profile rp -> finite_temps rp ->
  Forall (fun r => finite_opt (elev_m60 r) /\ finite_opt (temp_c60 r)) recent ->
  Forall (fun r => valid_station60 r = true) recent ->
  exists els a t y_min y_max x_min x_max,
    draw_svg rp recent all rass_time rass_file = Ok els /\
    index rp 0 = Ok (a, t) /\
    y_range60 rp (omap elev_m60 recent) = Ok (y_min, y_max) /\
    x_range60 (x_values a t rp (omap temp_c60 recent)) = Ok (x_min, x_max) /\
    plot_lines 25 "note" "Excluded: " "MADIS (<=60 min)" (title_of rass_time)
      ("RASS file: " ++ rass_file ++ " | MADIS stations: latest obs within last 60 min")
      x_min x_max y_min y_max a t rp
      ((fun r => (id60 r, temp_c60 r, elev_m60 r)) <$> recent)
      (id60 <$> List.filter (fun r => negb (recent60 r)) all)
    = Ok els.
Proof.
  intros Hprof Hft Hs Hval.
  destruct (profile_anchor rp Hprof Hft) as (a & t & Ha).
  assert (Hne : rp <> []).
  { destruct Hprof as (f & _ & Hh & _). intros ->. discriminate. }
  destruct (y_range60_ok rp (omap elev_m60 recent) Hprof)
    as (y_min & y_max & Hy & Hlt).
  { apply all_finite_omap. eapply Forall_impl; [exact Hs|]. simpl. tauto. }
  destruct (x_ranges_wide (x_values a (Fin t) rp (omap temp_c60 recent)))
    as (lo & hi & _ & Hx & Hw).
  { apply x_values_nonempty, Hne. }
  { apply x_values_finite; [reflexivity|exact Hft|].
    apply all_finite_omap. eapply Forall_impl; [exact Hs|]. simpl. tauto. }
  destruct (plot_lines_total 25 "note" "Excluded: " "MADIS (<=60 min)"
              (title_of rass_time)
              ("RASS file: " ++ rass_file ++ " | MADIS stations: latest obs within last 60 min")
              lo hi y_min y_max a (Fin t) rp
              ((fun r => (id60 r, temp_c60 r, elev_m60 r)) <$> recent)
              (id60 <$> List.filter (fun r => negb (recent60 r)) all))
    as (els & Hels).
  { intros E. lra. }
  { lia. }
  { apply Forall_fmap. eapply Forall_impl; [exact Hval|]. intros r Hr. simpl.
    unfold valid_station60 in Hr. apply andb_true_iff in Hr. tauto. }
  exists els, a, (Fin t), y_min, y_max, (Fin lo), (Fin hi).
  split; [|auto]. unfold draw_svg. rewrite Ha. cbn [Py.bind].
  rewrite Hy. cbn [Py.bind]. rewrite Hx. cbn [Py.bind]. exact Hels.
Qed.

(** C6, as the code has it.  Both charts contain exactly one path for the
    observed profile and exactly one for the adiabatic reference.  The latest
    variant draws one square marker, at its mapped position, for every valid
    station (elevation and temperature both present).  The recent-60 variant
    draws one for every station it is given as recent: a valid station whose
    observation is older than 60 minutes gets none.  The legend adds one more
    square of the same class in both. *)
Theorem C6_chart_elements (rp : list (Z * pyfloat)) (sts : list row)
  (rows : list row60) (obs_dt : option string) (rass_file : string) :
  is_profile rp -> finite_temps rp ->
  Forall (fun s => finite_opt (elev_m s) /\ finite_opt (temp_c s)) sts ->
  Forall (fun r => finite_opt (elev_m60 r) /\ finite_opt (temp_c60 r)) rows ->
  Forall (fun r => recent60 r = true -> valid_station60 r = true) rows ->
  (exists els a t y_min y_max x_min x_max,
     draw_chart rp sts obs_dt rass_file = Ok els /\
     index rp 0 = Ok (a, t) /\
     y_range rp (omap elev_m (station_valid sts)) = Ok (y_min, y_max) /\
     x_range (x_values a t rp (omap temp_c (station_valid sts))) = Ok (x_min, x_max) /\
     count (is_path "rass") els = 1%nat /\
     count (is_path "dalr") els = 1%nat /\
     count is_station_square els = (length (List.filter valid_station sts) + 1)%nat /\
     forall s, s ∈ sts -> valid_station s = true ->
       exists tc el x_px y_px,
         temp_c s = Some tc /\ elev_m s = Some el /\
         x_to_svg x_min x_max tc = Ok x_px /\ y_to_svg y_min y_max el = Ok y_px /\
         Rect "station" (fsub x_px (of_int 3)) (fsub y_px (of_int 3))
              (of_int 6) (of_int 6) ∈ els) /\
  (exists els a t y_min y_max x_min x_max,
     draw_svg rp (List.filter recent60 rows) rows obs_dt rass_file = Ok els /\
     index rp 0 = Ok (a, t) /\
     y_range60 rp (omap elev_m60 (List.filter recent60 rows)) = Ok (y_min, y_max) /\
     x_range60 (x_values a t rp (omap temp_c60 (List.filter recent60 rows)))
       = Ok (x_min, x_max) /\
     count (is_path "rass") els = 1%nat /\
     count (is_path "dalr") els = 1%nat /\
     count is_station_square els = (length (List.filter recent60 rows) + 1)%nat /\
     forall r, r ∈ rows -> recent60 r = true ->
       exists tc el x_px y_px,
         temp_c60 r = Some tc /\ elev_m60 r = Some el /\
         x_to_svg x_min x_max tc = Ok x_px /\ y_to_svg y_min y_max el = Ok y_px /\
         Rect "station" (fsub x_px (of_int 3)) (fsub y_px (of_int 3))
              (of_int 6) (of_int 6) ∈ els).
Proof.
  intros Hprof Hft Hs Hr Hrv. split.
  - destruct (draw_chart_ok rp sts obs_dt rass_file Hprof Hft Hs)
      as (els & a & t & y_min & y_max & x_min & x_max & Hd & Ha & Hy & Hx & Hp).
    exists els, a, t, y_min, y_max, x_min, x_max.
    do 4 (split; [assumption|]).
    destruct (plot_lines_counts _ _ _ _ _ _ _ _ _ _ _ _ _ _ _ _ Hp) as (C1 & C2 & C3 & C4).
    split; [exact C1|]. split; [exact C2|]. split.
    + rewrite C3, length_fmap, station_valid_spec. reflexivity.
    + intros s Hin Hval.
      apply (C4 (id s) (temp_c s) (elev_m s)).
      apply list_elem_of_fmap. exists s. split; [reflexivity|].
      rewrite station_valid_spec. apply list_elem_of_In, filter_In.
      rewrite <- list_elem_of_In. auto.
  - assert (Hrec : Forall (fun r => valid_station60 r = true) (List.filter recent60 rows)).
    { apply Forall_forall. intros r Hin. apply list_elem_of_In, filter_In in Hin.
      destruct Hin as [Hin Hb]. rewrite Forall_forall in Hrv.
      apply Hrv; [apply list_elem_of_In, Hin|exact Hb]. }
    destruct (draw_svg_ok rp (List.filter recent60 rows) rows obs_dt rass_file Hprof Hft)
      as (els & a & t & y_min & y_max & x_min & x_max & Hd & Ha & Hy & Hx & Hp);
      [apply Forall_filter_keep, Hr|exact Hrec|].
    exists els, a, t, y_min, y_max, x_min, x_max.
    do 4 (split; [assumption|]).
    destruct (plot_lines_counts _ _ _ _ _ _ _ _ _ _ _ _ _ _ _ _ Hp) as (C1 & C2 & C3 & C4).
    split; [exact C1|]. split; [exact C2|]. split.
    + rewrite C3, length_fmap. reflexivity.
    + intros r Hin Hb.
      apply (C4 (id60 r) (temp_c60 r) (elev_m60 r)).
      apply list_elem_of_fmap. exists r. split; [reflexivity|].
      apply list_elem_of_In, filter_In. rewrite <- list_elem_of_In. auto.
Qed.

(** *** Running the renderers on the sample stations *)



Lemma sample_is_profile : is_profile Sample.profile.
Proof.
  exists (100%Z, Fin 15.2), (300%Z, Fin 12.8).
  split; [reflexivity|]. split; [reflexivity|]. simpl. lia.
Defined.


Lemma C6_chart_elements_witness :
  (exists els,
     draw_chart Sample.profile Sample.stations None "sba24122.01t" = Ok els /\
     count (is_path "rass") els = 1%nat /\ count (is_path "dalr") els = 1%nat /\
     count is_station_square els = 2%nat) /\
  (exists els,
     draw_svg Sample.profile (List.filter recent60 Sample.rows60) Sample.rows60
              None "sba24122.01t" = Ok els /\
     count (is_path "rass") els = 1%nat /\ count (is_path "dalr") els = 1%nat /\
     count is_station_square els = 2%nat).
Proof.
  destruct (C6_chart_elements Sample.profile Sample.stations Sample.rows60
              None "sba24122.01t")
    as ((e1 & ? & ? & ? & ? & ? & ? & D1 & _ & _ & _ & P1 & P2 & P3 & _) &
        (e2 & ? & ? & ? & ? & ? & ? & D2 & _ & _ & _ & Q1 & Q2 & Q3 & _)).
  - exact sample_is_profile.
  - repeat constructor.
  - repeat constructor.
  - repeat constructor.
  - repeat constructor; discriminate.
  - split; [exists e1|exists e2]; auto.
Defined.

(** The claim of C6 fails in the recent-60 variant for a valid station whose
    observation is stale: KSBA, observed two hours before the run, has its
    elevation and temperature, but the chart holds no square for it; the only
    square is the legend's. *)
Lemma C6_stale_station_not_drawn :
  exists rows r els,
    @station_rows Sample.builtins Sample.stale_service Sample.noon = Ok rows /\
    r ∈ rows /\ id60 r = "KSBA"%string /\ valid_station60 r = true /\
    recent60 r = false /\
    length (List.filter valid_station60 rows) = 1%nat /\
    @main60 Sample.builtins Sample.profile_text Sample.stale_service Sample.noon
            "sba24122.01t" = Ok els /\
    List.filter is_station_square els =
      [Rect "station" (of_int (legend_x + 9)) (of_int (legend_y + 34))
            (of_int 6) (of_int 6)].
Proof.
  eexists. eexists. eexists.
  split; [vm_compute; reflexivity|].
  split; [do 7 right; left|].
  split; [reflexivity|]. split; [reflexivity|]. split; [reflexivity|].
  split; [reflexivity|].
  split; [vm_compute; reflexivity|].
  vm_compute. reflexivity.
Qed.

(** ** The order of [str] *)

Lemma str_gtb_lt (a b : string) :
  str_gtb a b = true <-> OrderedTypeEx.String_as_OT.lt b a.
Proof.
  unfold str_gtb, String.ltb. rewrite <- OrderedTypeEx.String_as_OT.cmp_lt.
  unfold OrderedTypeEx.String_as_OT.cmp.
  destruct (String.compare b a); split; congruence.
Qed.

Lemma str_cases (a b : string) :
  a = b \/ OrderedTypeEx.String_as_OT.lt a b \/ OrderedTypeEx.String_as_OT.lt b a.
Proof.
  destruct (String.compare a b) eqn:E.
  - left. apply OrderedTypeEx.String_as_OT.cmp_eq. exact E.
  - right. left. apply OrderedTypeEx.String_as_OT.cmp_lt. exact E.
  - right. right. apply OrderedTypeEx.String_as_OT.cmp_lt.
    unfold OrderedTypeEx.String_as_OT.cmp. rewrite String.compare_antisym, E. reflexivity.
Qed.

Lemma str_lt_irrefl (a : string) : ~ OrderedTypeEx.String_as_OT.lt a a.
Proof.
  intros H. apply (OrderedTypeEx.String_as_OT.lt_not_eq _ _ H). reflexivity.
Qed.

Lemma str_le_iff (a b : string) :
  str_le a b <-> ~ OrderedTypeEx.String_as_OT.lt b a.
Proof.
  unfold str_le. rewrite <- str_gtb_lt. destruct (str_gtb a b); split; congruence.
Qed.

Lemma str_le_refl (a : string) : str_le a a.
Proof. apply str_le_iff, str_lt_irrefl. Qed.

Lemma str_le_trans (a b c : string) : str_le a b -> str_le b c -> str_le a c.
Proof.
  rewrite !str_le_iff. intros Hab Hbc Hca.
  destruct (str_cases a b) as [->|[H|H]]; [contradiction| |contradiction].
  apply Hbc. eapply OrderedTypeEx.String_as_OT.lt_trans; eassumption.
Qed.

Lemma str_lt_le (a b : string) : str_gtb b a = true -> str_le a b.
Proof.
  rewrite str_gtb_lt, str_le_iff. intros H1 H2.
  apply (str_lt_irrefl a). eapply OrderedTypeEx.String_as_OT.lt_trans; eassumption.
Qed.

Lemma str_le_antisym (a b : string) : str_le a b -> str_le b a -> a = b.
Proof.
  rewrite !str_le_iff. intros H1 H2.
  destruct (str_cases a b) as [E|[H|H]]; [exact E|contradiction|contradiction].
Qed.

(** ** The record loop of [query_madis] *)

Section QueryLoop.
Context `{Builtins}.

Lemma query_loop_skip (rec : xml_record) (rest : list xml_record) (out : gmap string row) :
  usable rec = false -> query_loop (rec :: rest) out = query_loop rest out.
Proof.
  unfold usable. intros Hu. cbn [query_loop].
  destruct (is_VT rec); [|reflexivity]. cbn [negb].
  destruct (present (r_shef_id rec)), (present (r_ObTime rec)),
    (present (r_elev rec)), (present (r_data_value rec));
    try reflexivity; discriminate.
Qed.

Lemma query_loop_use (rec : xml_record) (rest : list xml_record) (out : gmap string row) :
  usable rec = true ->
  match numbers_of rec with
  | None => raises (query_loop (rec :: rest) out)
  | Some (e, v) =>
      query_loop (rec :: rest) out =
        match out !! station_of rec with
        | None => query_loop rest (<[station_of rec := row_of rec e v]> out)
        | Some prev =>
            match ob_time prev with
            | Some prev_time =>
                if str_gtb (time_of rec) prev_time
                then query_loop rest (<[station_of rec := row_of rec e v]> out)
                else query_loop rest out
            | None => Raise (TypeError "'>' not supported between instances of 'str' and 'NoneType'")
            end
        end
  end.
Proof.
  unfold usable. intros Hu.
  apply andb_true_iff in Hu. destruct Hu as [Hu H4].
  apply andb_true_iff in Hu. destruct Hu as [Hu H3].
  apply andb_true_iff in Hu. destruct Hu as [Hu H2].
  apply andb_true_iff in Hu. destruct Hu as [H0 H1].
  unfold numbers_of. cbn [query_loop]. rewrite H0, H1, H2, H3, H4. cbn [negb orb].
  unfold float_of.
  destruct (py_float (text_of (r_elev rec))) as [e|]; [|exact I]. cbn [Py.bind].
  destruct (py_float (text_of (r_data_value rec))) as [v|]; [|exact I]. cbn [Py.bind].
  reflexivity.
Qed.

Lemma timed_insert (out : gmap string row) (rec : xml_record) (e v : pyfloat) :
  timed out -> timed (<[station_of rec := row_of rec e v]> out).
Proof.
  intros Ht k r Hk. destruct (decide (station_of rec = k)) as [E|Hne].
  - subst k. rewrite lookup_insert_eq in Hk. injection Hk as <-. simpl. eauto.
  - rewrite lookup_insert_ne in Hk by exact Hne. eapply Ht, Hk.
Qed.

(** What the loop leaves under each station id: nothing when no usable record
    names the station, else a row whose time no other candidate exceeds. *)
Lemma query_loop_spec (recs : list xml_record) :
  forall out0 out,
    timed out0 -> query_loop recs out0 = Ok out ->
    (forall rec, rec ∈ recs -> usable rec = true -> numbers_of rec <> None) /\
    timed out /\
    forall sid,
      match out !! sid with
      | None =>
          out0 !! sid = None /\
          forall rec, rec ∈ recs -> usable rec = true -> station_of rec <> sid
      | Some r =>
          exists t, ob_time r = Some t /\
            (out0 !! sid = Some r \/
             exists rec e v, rec ∈ recs /\ usable rec = true /\ station_of rec = sid /\
                             numbers_of rec = Some (e, v) /\ r = row_of rec e v) /\
            (forall r0 t0, out0 !! sid = Some r0 -> ob_time r0 = Some t0 -> str_le t0 t) /\
            (forall rec, rec ∈ recs -> usable rec = true -> station_of rec = sid ->
                         str_le (time_of rec) t)
      end.
Proof.
  induction recs as [|rec rest IH]; intros out0 out Ht Hq.
  - simpl in Hq. injection Hq as <-.
    split; [intros rec Hin; inversion Hin|]. split; [exact Ht|].
    intros sid. destruct (out0 !! sid) as [r|] eqn:E.
    + destruct (Ht _ _ E) as [t Hrt]. exists t. split; [exact Hrt|].
      split; [left; reflexivity|]. split.
      * intros r0 t0 Hr0 Ht0. injection Hr0 as <-. rewrite Hrt in Ht0.
        injection Ht0 as <-. apply str_le_refl.
      * intros rec Hin. inversion Hin.
    + split; [reflexivity|]. intros rec Hin. inversion Hin.
  - destruct (usable rec) eqn:Hu.
    2:{ rewrite query_loop_skip in Hq by exact Hu.
        destruct (IH _ _ Ht Hq) as (A & B & C).
        split; [|split; [exact B|]].
        - intros rec' Hin Hu'. apply elem_of_cons in Hin.
          destruct Hin as [->|Hin]; [congruence|apply A; assumption].
        - intros sid. specialize (C sid). destruct (out !! sid) as [r|].
          + destruct C as (t & C1 & C2 & C3 & C4). exists t. split; [exact C1|].
            split; [|split; [exact C3|]].
            * destruct C2 as [C2|(rec' & e & v & P1 & P2)]; [left; exact C2|].
              right. exists rec', e, v. split; [right; exact P1|exact P2].
            * intros rec' Hin Hu'. apply elem_of_cons in Hin.
              destruct Hin as [->|Hin]; [congruence|apply C4; assumption].
          + destruct C as [C1 C2]. split; [exact C1|].
            intros rec' Hin Hu'. apply elem_of_cons in Hin.
            destruct Hin as [->|Hin]; [congruence|apply C2; assumption]. }
    pose proof (query_loop_use rec rest out0 Hu) as Hstep.
    destruct (numbers_of rec) as [[e v]|] eqn:En.
    2:{ rewrite Hq in Hstep. destruct Hstep. }
    rewrite Hstep in Hq. clear Hstep.
    (* the three ways the loop goes on *)
    assert (Hcases :
      (query_loop rest (<[station_of rec := row_of rec e v]> out0) = Ok out /\
       (out0 !! station_of rec = None \/
        exists prev pt, out0 !! station_of rec = Some prev /\ ob_time prev = Some pt /\
                        str_gtb (time_of rec) pt = true)) \/
      (query_loop rest out0 = Ok out /\
       exists prev pt, out0 !! station_of rec = Some prev /\ ob_time prev = Some pt /\
                       str_le (time_of rec) pt)).
    { destruct (out0 !! station_of rec) as [prev|] eqn:Ep; [|left; auto].
      destruct (ob_time prev) as [pt|] eqn:Ept; [|discriminate].
      destruct (str_gtb (time_of rec) pt) eqn:Eg.
      - left. split; [exact Hq|]. right. exists prev, pt. auto.
      - right. split; [exact Hq|]. exists prev, pt. auto. }
    clear Hq. destruct Hcases as [[Hq Hprev]|[Hq (prev & pt & Ep & Ept & Hle)]].
    + destruct (IH _ _ (timed_insert _ rec e v Ht) Hq) as (A & B & C).
      split; [|split; [exact B|]].
      * intros rec' Hin Hu'. apply elem_of_cons in Hin.
        destruct Hin as [->|Hin]; [congruence|apply A; assumption].
      * intros sid. specialize (C sid).
        destruct (decide (station_of rec = sid)) as [Es|Hne].
        -- subst sid. rewrite lookup_insert_eq in C.
           destruct (out !! station_of rec) as [r|]; [|destruct C; discriminate].
           destruct C as (t & C1 & C2 & C3 & C4). exists t. split; [exact C1|].
           assert (Hrt : str_le (time_of rec) t) by (apply (C3 _ _ eq_refl); reflexivity).
           split; [|split].
           ++ right. destruct C2 as [C2|(rec' & e' & v' & P1 & P2)].
              ** injection C2 as <-. exists rec, e, v.
                 split; [left|]. auto.
              ** exists rec', e', v'. split; [right; exact P1|exact P2].
           ++ intros r0 t0 Hr0 Ht0.
              destruct Hprev as [Hnone|(prev & pt & Ep & Ept & Hgt)]; [congruence|].
              rewrite Ep in Hr0. injection Hr0 as <-. rewrite Ept in Ht0.
              injection Ht0 as <-.
              eapply str_le_trans; [apply str_lt_le, Hgt|exact Hrt].
           ++ intros rec' Hin Hu' Hs'. apply elem_of_cons in Hin.
              destruct Hin as [->|Hin]; [exact Hrt|apply C4; assumption].
        -- rewrite lookup_insert_ne in C by exact Hne.
           destruct (out !! sid) as [r|].
           ++ destruct C as (t & C1 & C2 & C3 & C4). exists t. split; [exact C1|].
              split; [|split; [exact C3|]].
              ** destruct C2 as [C2|(rec' & e' & v' & P1 & P2)]; [left; exact C2|].
                 right. exists rec', e', v'. split; [right; exact P1|exact P2].
              ** intros rec' Hin Hu' Hs'. apply elem_of_cons in Hin.
                 destruct Hin as [->|Hin]; [congruence|apply C4; assumption].
           ++ destruct C as [C1 C2]. split; [exact C1|].
              intros rec' Hin Hu'. apply elem_of_cons in Hin.
              destruct Hin as [->|Hin]; [exact Hne|apply C2; assumption].
    + destruct (IH _ _ Ht Hq) as (A & B & C).
      split; [|split; [exact B|]].
      * intros rec' Hin Hu'. apply elem_of_cons in Hin.
        destruct Hin as [->|Hin]; [congruence|apply A; assumption].
      * intros sid. specialize (C sid).
        destruct (out !! sid) as [r|].
        -- destruct C as (t & C1 & C2 & C3 & C4). exists t. split; [exact C1|].
           split; [|split; [exact C3|]].
           ++ destruct C2 as [C2|(rec' & e' & v' & P1 & P2)]; [left; exact C2|].
              right. exists rec', e', v'. split; [right; exact P1|exact P2].
           ++ intros rec' Hin Hu' Hs'. apply elem_of_cons in Hin.
              destruct Hin as [->|Hin]; [|apply C4; assumption].
              rewrite Hs' in Ep.
              eapply str_le_trans; [exact Hle|]. eapply C3; eassumption.
        -- destruct C as [C1 C2]. split; [exact C1|].
           intros rec' Hin Hu'. apply elem_of_cons in Hin.
           destruct Hin as [->|Hin]; [|apply C2; assumption].
           intros Es. rewrite Es in Ep. congruence.
Qed.

(** The loop returns when the numbers of every usable record read. *)
Lemma query_loop_total (recs : list xml_record) :
  forall out0,
    timed out0 ->
    (forall rec, rec ∈ recs -> usable rec = true -> numbers_of rec <> None) ->
    exists out, query_loop recs out0 = Ok out.
Proof.
  induction recs as [|rec rest IH]; intros out0 Ht Hn; [simpl; eauto|].
  assert (Hrest : forall r, r ∈ rest -> usable r = true -> numbers_of r <> None)
    by (intros r Hr; apply Hn; right; exact Hr).
  destruct (usable rec) eqn:Hu.
  2:{ rewrite query_loop_skip by exact Hu. apply IH; assumption. }
  pose proof (query_loop_use rec rest out0 Hu) as Hstep.
  destruct (numbers_of rec) as [[e v]|] eqn:En.
  2:{ exfalso. apply (Hn rec); [left|exact Hu|exact En]. }
  rewrite Hstep.
  destruct (out0 !! station_of rec) as [prev|] eqn:Ep.
  - destruct (Ht _ _ Ep) as [pt ->].
    destruct (str_gtb (time_of rec) pt).
    + apply IH; [apply timed_insert, Ht|exact Hrest].
    + apply IH; assumption.
  - apply IH; [apply timed_insert, Ht|exact Hrest].
Qed.

End QueryLoop.

(** ** The records of [fetch_station] *)

Section FetchStation.
Context `{Builtins}.

Lemma collect_records_skip (rec : xml_record) (rest : list xml_record) :
  usable_without_id rec = false -> collect_records (rec :: rest) = collect_records rest.
Proof.
  unfold usable_without_id. intros Hu. cbn [collect_records].
  destruct (is_VT rec); [|reflexivity]. cbn [negb].
  destruct (present (r_ObTime rec)), (present (r_elev rec)),
    (present (r_data_value rec)); try reflexivity; discriminate.
Qed.

Lemma collect_records_use (rec : xml_record) (rest : list xml_record) :
  usable_without_id rec = true ->
  match numbers_of rec with
  | None => raises (collect_records (rec :: rest))
  | Some (e, v) =>
      collect_records (rec :: rest) =
        let! more := collect_records rest in
        Ok ((time_of rec, e, v, text_of (r_provider rec)) :: more)
  end.
Proof.
  unfold usable_without_id. intros Hu.
  apply andb_true_iff in Hu. destruct Hu as [Hu H3].
  apply andb_true_iff in Hu. destruct Hu as [Hu H2].
  apply andb_true_iff in Hu. destruct Hu as [H0 H1].
  unfold numbers_of. cbn [collect_records]. rewrite H0, H1, H2, H3. cbn [negb orb].
  unfold float_of.
  destruct (py_float (text_of (r_elev rec))) as [e|]; [|exact I]. cbn [Py.bind].
  destruct (py_float (text_of (r_data_value rec))) as [v|]; [|exact I]. cbn [Py.bind].
  reflexivity.
Qed.

Lemma collect_records_spec (recs : list xml_record) (records : list obs) :
  collect_records recs = Ok records ->
  records = omap obs_of recs /\
  forall rec, rec ∈ recs -> usable_without_id rec = true -> numbers_of rec <> None.
Proof.
  revert records. induction recs as [|rec rest IH]; intros records Hc.
  - simpl in Hc. injection Hc as <-. split; [reflexivity|]. intros rec Hin. inversion Hin.
  - change (omap obs_of (rec :: rest))
      with (match obs_of rec with
            | Some o => o :: omap obs_of rest
            | None => omap obs_of rest
            end).
    unfold obs_of at 1.
    destruct (usable_without_id rec) eqn:Hu.
    + pose proof (collect_records_use rec rest Hu) as Hstep.
      destruct (numbers_of rec) as [[e v]|] eqn:En.
      2:{ rewrite Hc in Hstep. destruct Hstep. }
      rewrite Hstep in Hc. apply bind_Ok in Hc. destruct Hc as (more & Hm & Hc).
      injection Hc as <-. destruct (IH _ Hm) as [-> Hn]. split; [reflexivity|].
      intros rec' Hin Hu'. apply elem_of_cons in Hin.
      destruct Hin as [->|Hin]; [congruence|apply Hn; assumption].
    + rewrite collect_records_skip in Hc by exact Hu.
      destruct (IH _ Hc) as [-> Hn]. split; [reflexivity|].
      intros rec' Hin Hu'. apply elem_of_cons in Hin.
      destruct Hin as [->|Hin]; [congruence|apply Hn; assumption].
Qed.

Lemma collect_records_total (recs : list xml_record) :
  (forall rec, rec ∈ recs -> usable_without_id rec = true -> numbers_of rec <> None) ->
  collect_records recs = Ok (omap obs_of recs).
Proof.
  induction recs as [|rec rest IH]; intros Hn; [reflexivity|].
  assert (Hrest : forall r, r ∈ rest -> usable_without_id r = true -> numbers_of r <> None)
    by (intros r Hr; apply Hn; right; exact Hr).
  change (omap obs_of (rec :: rest))
    with (match obs_of rec with
          | Some o => o :: omap obs_of rest
          | None => omap obs_of rest
          end).
  unfold obs_of at 1.
  destruct (usable_without_id rec) eqn:Hu.
  - pose proof (collect_records_use rec rest Hu) as Hstep.
    destruct (numbers_of rec) as [[e v]|] eqn:En.
    2:{ exfalso. apply (Hn rec); [left|exact Hu|exact En]. }
    rewrite Hstep, (IH Hrest). reflexivity.
  - rewrite collect_records_skip by exact Hu. apply IH, Hrest.
Qed.

Lemma obs_of_elem (recs : list xml_record) (o : obs) :
  o ∈ omap obs_of recs <->
  exists rec e v, rec ∈ recs /\ usable_without_id rec = true /\
                  numbers_of rec = Some (e, v) /\
                  o = (time_of rec, e, v, text_of (r_provider rec)).
Proof.
  rewrite list_elem_of_omap. unfold obs_of. split.
  - intros (rec & Hin & Ho). destruct (usable_without_id rec) eqn:Hu; [|discriminate].
    destruct (numbers_of rec) as [[e v]|] eqn:En; [|discriminate].
    injection Ho as <-. exists rec, e, v. auto.
  - intros (rec & e & v & Hin & Hu & En & ->). exists rec.
    rewrite Hu, En. auto.
Qed.

(** *** The stable sort on times *)

Lemma insert_by_key_perm (k : Z) (r : obs) (l : list (Z * obs)) :
  insert_by_key k r l ≡ₚ (k, r) :: l.
Proof.
  induction l as [|[k' r'] l IH]; simpl; [reflexivity|].
  destruct (k <? k')%Z; [reflexivity|]. rewrite IH. apply Permutation_swap.
Qed.

Lemma insert_by_key_sorted (k : Z) (r : obs) (l : list (Z * obs)) :
  StronglySorted key_le l -> StronglySorted key_le (insert_by_key k r l).
Proof.
  intros Hs. induction l as [|[k' r'] l IH]; simpl.
  - constructor; constructor.
  - apply StronglySorted_inv in Hs. destruct Hs as [Hs Hall].
    destruct (Z.ltb_spec k k') as [Hlt|Hge].
    + constructor; [constructor; assumption|].
      constructor; [unfold key_le; simpl; lia|].
      eapply Forall_impl; [exact Hall|]. intros x Hx. unfold key_le in *. simpl in *. lia.
    + constructor; [apply IH, Hs|].
      rewrite Forall_forall. intros x Hx. rewrite insert_by_key_perm in Hx.
      apply elem_of_cons in Hx. destruct Hx as [->|Hx]; [unfold key_le; simpl; lia|].
      rewrite Forall_forall in Hall. apply Hall, Hx.
Qed.

Lemma sort_keys_spec (keyed acc : list (Z * obs)) :
  StronglySorted key_le acc ->
  let sorted := fold_left (fun acc kr => insert_by_key (fst kr) (snd kr) acc) keyed acc in
  sorted ≡ₚ keyed ++ acc /\ StronglySorted key_le sorted.
Proof.
  revert acc. induction keyed as [|[k r] keyed IH]; intros acc Hs; simpl.
  - split; [reflexivity|exact Hs].
  - destruct (IH (insert_by_key k r acc) (insert_by_key_sorted k r acc Hs)) as [Hp Hs'].
    split; [|exact Hs']. rewrite Hp, insert_by_key_perm.
    symmetry. apply Permutation_middle.
Qed.

Lemma sorted_keys_last (l : list (Z * obs)) (x : Z * obs) :
  StronglySorted key_le l -> last l = Some x ->
  forall y, y ∈ l -> (fst y <= fst x)%Z.
Proof.
  induction l as [|a l IH]; intros Hs Hl y Hy; [discriminate|].
  apply StronglySorted_inv in Hs. destruct Hs as [Hs Hall].
  destruct l as [|b l].
  - simpl in Hl. injection Hl as ->. apply list_elem_of_singleton in Hy. subst. lia.
  - change (last (a :: b :: l)) with (last (b :: l)) in Hl.
    apply elem_of_cons in Hy. destruct Hy as [->|Hy].
    + rewrite Forall_forall in Hall. apply Hall.
      rewrite last_lookup in Hl. eapply list_elem_of_lookup_2, Hl.
    + apply IH; assumption.
Qed.

Lemma keyed_spec (records : list obs) (keyed : list (Z * obs)) :
  mapM (fun r : obs => let! k := strptime_of (fst (fst (fst r))) in Ok (k, r)) records
    = Ok keyed ->
  (forall kr, kr ∈ keyed ->
     snd kr ∈ records /\ strptime (fst (fst (fst (snd kr)))) = Some (fst kr)) /\
  (forall r, r ∈ records -> exists k, (k, r) ∈ keyed) /\
  length keyed = length records.
Proof.
  revert keyed. induction records as [|r records IH]; intros keyed Hm; simpl in Hm.
  - injection Hm as <-. split; [intros kr Hin; inversion Hin|].
    split; [intros r Hin; inversion Hin|reflexivity].
  - unfold strptime_of in Hm at 1.
    destruct (strptime (fst (fst (fst r)))) as [k|] eqn:Ek; [|discriminate].
    cbn [Py.bind] in Hm.
    destruct (mapM _ records) as [keyed'|] eqn:Em; [|discriminate].
    injection Hm as <-. destruct (IH _ eq_refl) as (A & B & C).
    split; [|split].
    + intros kr Hin. apply elem_of_cons in Hin. destruct Hin as [->|Hin].
      * simpl. split; [left|exact Ek].
      * destruct (A _ Hin) as [A1 A2]. split; [right; exact A1|exact A2].
    + intros r' Hin. apply elem_of_cons in Hin. destruct Hin as [->|Hin].
      * exists k. left.
      * destruct (B _ Hin) as [k' Hk']. exists k'. right. exact Hk'.
    + simpl. rewrite C. reflexivity.
Qed.

Lemma keyed_total (records : list obs) :
  (forall r, r ∈ records -> strptime (fst (fst (fst r))) <> None) ->
  exists keyed,
    mapM (fun r : obs => let! k := strptime_of (fst (fst (fst r))) in Ok (k, r)) records
      = Ok keyed.
Proof.
  intros Hk. apply mapM_total_on. intros r Hr. unfold strptime_of.
  destruct (strptime (fst (fst (fst r)))) as [k|] eqn:E.
  - simpl. eauto.
  - exfalso. apply (Hk r Hr E).
Qed.

End FetchStation.

Section FetchStationSpec.
Context `{Builtins}.

Lemma sorted_obs_last (keyed : list (Z * obs)) (newest : obs) :
  last (snd <$> fold_left (fun acc kr => insert_by_key (fst kr) (snd kr) acc) keyed [])
    = Some newest ->
  exists k, (k, newest) ∈ keyed /\ forall kr, kr ∈ keyed -> (fst kr <= k)%Z.
Proof.
  intros Hl. destruct (sort_keys_spec keyed []) as [Hp Hs]; [constructor|].
  cbv zeta in Hp, Hs.
  set (sorted := fold_left _ keyed []) in *.
  rewrite fmap_last in Hl.
  destruct (last sorted) as [[k o]|] eqn:El; [|discriminate].
  simpl in Hl. injection Hl as ->. exists k.
  rewrite app_nil_r in Hp. split.
  - rewrite <- Hp. rewrite last_lookup in El. eapply list_elem_of_lookup_2, El.
  - intros kr Hin. apply (sorted_keys_last sorted (k, newest) Hs El).
    rewrite Hp. exact Hin.
Qed.

Lemma fetch_station_spec (sid : string) (now : Q) (recs : list xml_record) (r : row60) :
  fetch_station sid now (Records recs) = Ok r ->
  reads_well recs /\
  (((forall rec, rec ∈ recs -> usable_without_id rec = false) /\
    r = missing_row60 sid "no_temp") \/
   exists rec e v k,
     rec ∈ recs /\ usable_without_id rec = true /\
     numbers_of rec = Some (e, v) /\ strptime (time_of rec) = Some k /\
     r = row60_of sid now rec e v k /\
     forall rec' k', rec' ∈ recs -> usable_without_id rec' = true ->
                     strptime (time_of rec') = Some k' -> (k' <= k)%Z).
Proof.
  unfold fetch_station. intros Hf.
  apply bind_Ok in Hf. destruct Hf as (records & Hc & Hf).
  destruct (collect_records_spec _ _ Hc) as [Hrec Hnum].
  destruct records as [|o0 records'] eqn:Erec.
  - injection Hf as <-.
    assert (Hnone : forall rec, rec ∈ recs -> usable_without_id rec = false).
    { intros rec Hin. destruct (usable_without_id rec) eqn:Hu; [|reflexivity].
      exfalso. destruct (numbers_of rec) as [[e v]|] eqn:En.
      - assert (Ho : (time_of rec, e, v, text_of (r_provider rec)) ∈ omap obs_of recs).
        { apply obs_of_elem. exists rec, e, v. auto. }
        rewrite <- Hrec in Ho. inversion Ho.
      - apply (Hnum rec Hin Hu En). }
    split; [|left; auto].
    intros rec Hin Hu. rewrite (Hnone rec Hin) in Hu. discriminate.
  - rewrite <- Erec in *. clear Erec.
    apply bind_Ok in Hf. destruct Hf as (sorted & Hs & Hf).
    apply bind_Ok in Hf. destruct Hf as (newest & Hn & Hf).
    unfold sort_by_time in Hs.
    apply bind_Ok in Hs. destruct Hs as (keyed & Hk & Hs). apply Ok_inj in Hs.
    destruct (keyed_spec _ _ Hk) as (K1 & K2 & _).
    unfold index_last in Hn. destruct (last sorted) as [nw|] eqn:El; [|discriminate].
    apply Ok_inj in Hn. subst nw. rewrite <- Hs in El.
    destruct (sorted_obs_last keyed newest El) as (k & Hin & Hmax).
    destruct (K1 _ Hin) as [Hnr Hnk]. simpl in Hnr, Hnk.
    rewrite Hrec in Hnr. apply obs_of_elem in Hnr.
    destruct Hnr as (rec & e & v & Hrin & Hu & En & ->). simpl in Hnk.
    cbn [Py.bind] in Hf. unfold strptime_of in Hf. simpl in Hf.
    rewrite Hnk in Hf. cbn [Py.bind] in Hf. apply Ok_inj in Hf.
    assert (Hkeys : forall rec', rec' ∈ recs -> usable_without_id rec' = true ->
              exists k', strptime (time_of rec') = Some k' /\ (k' <= k)%Z).
    { intros rec' Hin' Hu'.
      destruct (numbers_of rec') as [[e' v']|] eqn:En';
        [|exfalso; apply (Hnum rec' Hin' Hu' En')].
      assert (Ho : (time_of rec', e', v', text_of (r_provider rec')) ∈ omap obs_of recs).
      { apply obs_of_elem. exists rec', e', v'. auto. }
      rewrite <- Hrec in Ho. destruct (K2 _ Ho) as [k' Hk'].
      destruct (K1 _ Hk') as [_ Hp']. simpl in Hp'.
      exists k'. split; [exact Hp'|]. apply (Hmax _ Hk'). }
    split.
    + intros rec' Hin' Hu'. split; [apply Hnum; assumption|].
      destruct (Hkeys rec' Hin' Hu') as (k' & -> & _). discriminate.
    + right. exists rec, e, v, k. do 4 (split; [assumption|]).
      split; [symmetry; exact Hf|].
      intros rec' k' Hin' Hu' Hk'.
      destruct (Hkeys rec' Hin' Hu') as (k'' & Hk'' & Hle). congruence.
Qed.

Lemma fetch_station_total (sid : string) (now : Q) (recs : list xml_record) :
  reads_well recs -> exists r, fetch_station sid now (Records recs) = Ok r.
Proof.
  intros Hw. unfold fetch_station.
  rewrite collect_records_total by (intros rec Hin Hu; apply Hw; assumption).
  cbn [Py.bind].
  destruct (omap obs_of recs) as [|o0 records'] eqn:Erec; [eauto|].
  rewrite <- Erec.
  assert (Htimes : forall o, o ∈ omap obs_of recs -> strptime (fst (fst (fst o))) <> None).
  { intros o Ho. apply obs_of_elem in Ho.
    destruct Ho as (rec & e & v & Hin & Hu & _ & ->). simpl.
    apply Hw; assumption. }
  destruct (keyed_total _ Htimes) as [keyed Hk].
  unfold sort_by_time. rewrite Hk. cbn [Py.bind].
  destruct (keyed_spec _ _ Hk) as (K1 & _ & Klen).
  destruct (sort_keys_spec keyed []) as [Hp _]; [constructor|]. cbv zeta in Hp.
  set (sorted := fold_left _ keyed []) in *. rewrite app_nil_r in Hp.
  unfold index_last. rewrite fmap_last.
  destruct (last sorted) as [[k o]|] eqn:El.
  2:{ exfalso. rewrite last_lookup in El. apply lookup_ge_None in El.
      apply Permutation_length in Hp. rewrite Klen, Erec in Hp. simpl in Hp. lia. }
  simpl. assert (Hin : (k, o) ∈ keyed).
  { rewrite <- Hp. rewrite last_lookup in El. eapply list_elem_of_lookup_2, El. }
  destruct (K1 _ Hin) as [_ Hko]. simpl in Hko.
  destruct o as [[[tm e] v] pr]. simpl in Hko. unfold strptime_of. rewrite Hko.
  cbn [Py.bind]. eauto.
Qed.

End FetchStationSpec.

(** ** Claims about the fetcher *)

Lemma timed_empty : timed ∅.
Proof. intros k r Hk. rewrite lookup_empty in Hk. discriminate. Qed.

Lemma query_madis_spec `{Builtins} (recs : list xml_record) (out : gmap string row)
  (sid : string) (r : row) :
  query_madis (Records recs) = Ok out -> out !! sid = Some r ->
  exists rec e v,
    rec ∈ recs /\ usable rec = true /\ station_of rec = sid /\
    numbers_of rec = Some (e, v) /\ r = row_of rec e v /\
    forall rec', rec' ∈ recs -> usable rec' = true -> station_of rec' = sid ->
                 str_le (time_of rec') (time_of rec).
Proof.
  simpl. intros Hq Hr.
  destruct (query_loop_spec recs ∅ out timed_empty Hq) as (_ & _ & C).
  specialize (C sid). rewrite Hr in C.
  destruct C as (t & Ht & [C2|(rec & e & v & P1 & P2 & P3 & P4 & P5)] & _ & C4).
  { rewrite lookup_empty in C2. discriminate. }
  exists rec, e, v. do 5 (split; [assumption|]).
  subst r. simpl in Ht. injection Ht as <-. exact C4.
Qed.

(** C3.  Latest variant: the row that [query_madis] keeps for a station comes
    from a usable record of that station whose observation time no other
    usable record of the station exceeds (in the order of strings, which is
    the order of time whenever the two agree on the records' timestamps); and
    when the station's usable records have different times, the row does not
    depend on the order of the response.  Recent-60 variant: the row of
    [fetch_station] comes from the usable record with the greatest parsed
    time, again independent of the order of the response. *)
Theorem C3_latest_record_wins `{Builtins} :
  (forall recs out sid r,
     query_madis (Records recs) = Ok out -> out !! sid = Some r ->
     exists rec e v,
       rec ∈ recs /\ usable rec = true /\ station_of rec = sid /\
       numbers_of rec = Some (e, v) /\ r = row_of rec e v /\
       (forall rec', rec' ∈ recs -> usable rec' = true -> station_of rec' = sid ->
                     str_le (time_of rec') (time_of rec)) /\
       ((forall r1 r2 k1 k2,
           r1 ∈ recs -> r2 ∈ recs -> usable r1 = true -> usable r2 = true ->
           station_of r1 = sid -> station_of r2 = sid ->
           strptime (time_of r1) = Some k1 -> strptime (time_of r2) = Some k2 ->
           str_le (time_of r1) (time_of r2) -> (k1 <= k2)%Z) ->
        forall rec' k' k, rec' ∈ recs -> usable rec' = true -> station_of rec' = sid ->
                          strptime (time_of rec') = Some k' ->
                          strptime (time_of rec) = Some k -> (k' <= k)%Z)) /\
  (forall recs recs' out sid,
     recs ≡ₚ recs' ->
     (forall r1 r2, r1 ∈ recs -> r2 ∈ recs -> usable r1 = true -> usable r2 = true ->
                    station_of r1 = sid -> station_of r2 = sid ->
                    time_of r1 = time_of r2 -> r1 = r2) ->
     query_madis (Records recs) = Ok out ->
     exists out', query_madis (Records recs') = Ok out' /\ out' !! sid = out !! sid) /\
  (forall sid now recs r,
     fetch_station sid now (Records recs) = Ok r ->
     (exists rec, rec ∈ recs /\ usable_without_id rec = true) ->
     exists rec e v k,
       rec ∈ recs /\ usable_without_id rec = true /\
       numbers_of rec = Some (e, v) /\ strptime (time_of rec) = Some k /\
       r = row60_of sid now rec e v k /\
       forall rec' k', rec' ∈ recs -> usable_without_id rec' = true ->
                       strptime (time_of rec') = Some k' -> (k' <= k)%Z) /\
  (forall sid now recs recs' r,
     recs ≡ₚ recs' ->
     (forall r1 r2, r1 ∈ recs -> r2 ∈ recs ->
                    usable_without_id r1 = true -> usable_without_id r2 = true ->
                    strptime (time_of r1) = strptime (time_of r2) -> r1 = r2) ->
     fetch_station sid now (Records recs) = Ok r ->
     fetch_station sid now (Records recs') = Ok r).
Proof.
  split; [|split; [|split]].
  - intros recs out sid r Hq Hr.
    destruct (query_madis_spec recs out sid r Hq Hr)
      as (rec & e & v & P1 & P2 & P3 & P4 & P5 & P6).
    exists rec, e, v. do 6 (split; [assumption|]).
    intros Hmono rec' k' k Hin Hu Hs Hk' Hk.
    apply (Hmono rec' rec k' k); try assumption. apply P6; assumption.
  - intros recs recs' out sid Hperm Hdist Hq.
    assert (Hq0 := Hq). simpl in Hq0.
    destruct (query_loop_spec recs ∅ out timed_empty Hq0) as (A & _ & C).
    destruct (query_loop_total recs' ∅ timed_empty) as [out' Hq'].
    { intros rec Hin. apply A. rewrite Hperm. exact Hin. }
    exists out'. split; [exact Hq'|].
    destruct (query_loop_spec recs' ∅ out' timed_empty Hq') as (_ & _ & C').
    specialize (C sid). specialize (C' sid).
    destruct (out !! sid) as [r|] eqn:Er; destruct (out' !! sid) as [r'|] eqn:Er'.
    + destruct (query_madis_spec recs out sid r Hq Er)
        as (rec & e & v & P1 & P2 & P3 & P4 & P5 & P6).
      destruct (query_madis_spec recs' out' sid r' Hq' Er')
        as (rec' & e' & v' & Q1 & Q2 & Q3 & Q4 & Q5 & Q6).
      rewrite <- Hperm in Q1.
      assert (Erec : rec = rec').
      { apply Hdist; auto. apply str_le_antisym.
        - apply Q6; auto. rewrite <- Hperm. exact P1.
        - apply P6; auto. }
      subst rec'. rewrite P4 in Q4. injection Q4 as <- <-. congruence.
    + exfalso. destruct C' as [_ C'].
      destruct (query_madis_spec recs out sid r Hq Er)
        as (rec & e & v & P1 & P2 & P3 & _).
      apply (C' rec); [rewrite <- Hperm; exact P1|exact P2|exact P3].
    + exfalso. destruct C as [_ C].
      destruct (query_madis_spec recs' out' sid r' Hq' Er')
        as (rec & e & v & P1 & P2 & P3 & _).
      apply (C rec); [rewrite Hperm; exact P1|exact P2|exact P3].
    + reflexivity.
  - intros sid now recs r Hf (rec0 & Hin0 & Hu0).
    destruct (fetch_station_spec sid now recs r Hf) as [_ [[Hnone _]|Hsome]].
    + rewrite (Hnone rec0 Hin0) in Hu0. discriminate.
    + exact Hsome.
  - intros sid now recs recs' r Hperm Hdist Hf.
    destruct (fetch_station_spec sid now recs r Hf) as [Hw Hcase].
    destruct (fetch_station_total sid now recs') as [r' Hf'].
    { intros rec Hin. apply Hw. rewrite Hperm. exact Hin. }
    rewrite Hf'. f_equal.
    destruct (fetch_station_spec sid now recs' r' Hf') as [_ Hcase'].
    destruct Hcase as [[Hnone ->]|(rec & e & v & k & P1 & P2 & P3 & P4 & P5 & P6)];
      destruct Hcase' as [[Hnone' ->]|(rec' & e' & v' & k' & Q1 & Q2 & Q3 & Q4 & Q5 & Q6)].
    + reflexivity.
    + rewrite <- Hperm in Q1. rewrite (Hnone rec' Q1) in Q2. discriminate.
    + rewrite Hperm in P1. rewrite (Hnone' rec P1) in P2. discriminate.
    + rewrite <- Hperm in Q1.
      assert (Ek : k = k').
      { assert (k' <= k)%Z by (apply (P6 rec' k'); assumption).
        assert (k <= k')%Z
          by (apply (Q6 rec k); [rewrite <- Hperm; exact P1|exact P2|exact P4]).
        lia. }
      subst k'.
      assert (Erec : rec = rec') by (apply Hdist; auto; congruence).
      subst rec'. rewrite P3 in Q3. injection Q3 as <- <-. congruence.
Qed.

(** C7, as the code has it.  In the latest variant a record is used only
    when it is a V-T record whose station id, observation time, elevation and
    value are all present: any other record is skipped, and every row comes
    from such a record.  In the recent-60 variant the same holds with the
    station id left out: a V-T record with time, elevation and value is used
    whether or not it names a station. *)
Theorem C7_usable_records `{Builtins} :
  (forall rec rest out,
     usable rec = false -> query_loop (rec :: rest) out = query_loop rest out) /\
  (forall recs out sid r,
     query_madis (Records recs) = Ok out -> out !! sid = Some r ->
     exists rec e v, rec ∈ recs /\ usable rec = true /\ station_of rec = sid /\
                     numbers_of rec = Some (e, v) /\ r = row_of rec e v) /\
  (forall rec rest,
     usable_without_id rec = false ->
     collect_records (rec :: rest) = collect_records rest) /\
  (forall sid now recs r,
     fetch_station sid now (Records recs) = Ok r ->
     r = missing_row60 sid "no_temp" \/
     exists rec e v k, rec ∈ recs /\ usable_without_id rec = true /\
                       numbers_of rec = Some (e, v) /\
                       strptime (time_of rec) = Some k /\
                       r = row60_of sid now rec e v k) /\
  (forall sid now rec e v k,
     usable_without_id rec = true -> numbers_of rec = Some (e, v) ->
     strptime (time_of rec) = Some k ->
     fetch_station sid now (Records [rec]) = Ok (row60_of sid now rec e v k)).
Proof.
  split; [|split; [|split; [|split]]].
  - intros rec rest out Hu. apply query_loop_skip, Hu.
  - intros recs out sid r Hq Hr.
    destruct (query_madis_spec recs out sid r Hq Hr)
      as (rec & e & v & P1 & P2 & P3 & P4 & P5 & _).
    exists rec, e, v. auto.
  - intros rec rest Hu. apply collect_records_skip, Hu.
  - intros sid now recs r Hf.
    destruct (fetch_station_spec sid now recs r Hf)
      as [_ [[_ ->]|(rec & e & v & k & P1 & P2 & P3 & P4 & P5 & _)]]; [left; reflexivity|].
    right. exists rec, e, v, k. auto.
  - intros sid now rec e v k Hu Hn Hk.
    destruct (fetch_station_total sid now [rec]) as [r Hf].
    { intros rec' Hin _. apply list_elem_of_singleton in Hin. subst rec'.
      rewrite Hn, Hk. split; discriminate. }
    rewrite Hf. f_equal.
    destruct (fetch_station_spec sid now [rec] r Hf)
      as [_ [[Hnone _]|(rec' & e' & v' & k' & P1 & P2 & P3 & P4 & P5 & _)]].
    + rewrite (Hnone rec) in Hu; [discriminate|left].
    + apply list_elem_of_singleton in P1. subst rec'. congruence.
Qed.

(** *** Running the fetchers on the sample records *)

Lemma sample_two_cases (P : xml_record -> xml_record -> Prop) (a b : xml_record) :
  P a a -> P a b -> P b a -> P b b ->
  forall r1 r2, r1 ∈ [a; b] -> r2 ∈ [a; b] -> P r1 r2.
Proof.
  intros Haa Hab Hba Hbb r1 r2 H1 H2.
  apply elem_of_cons in H1. destruct H1 as [->|H1];
    [|apply list_elem_of_singleton in H1; subst r1];
    (apply elem_of_cons in H2; destruct H2 as [->|H2];
     [|apply list_elem_of_singleton in H2; subst r2]); assumption.
Defined.

Lemma C3_latest_record_wins_witness :
  (exists out out',
     @query_madis Sample.builtins (Records [Sample.ksba_1130; Sample.ksba_1000]) = Ok out /\
     @query_madis Sample.builtins (Records [Sample.ksba_1000; Sample.ksba_1130]) = Ok out' /\
     out' !! "KSBA"%string = out !! "KSBA"%string) /\
  (exists r,
     @fetch_station Sample.builtins "KSBA" Sample.noon
        (Records [Sample.ksba_1130; Sample.ksba_1000]) = Ok r /\
     @fetch_station Sample.builtins "KSBA" Sample.noon
        (Records [Sample.ksba_1000; Sample.ksba_1130]) = Ok r /\
     ob_time60 r = Some "2024-05-01T11:30"%string) /\
  (exists out r rec,
     @query_madis Sample.builtins (Records [Sample.ksba_1130; Sample.ksba_1000]) = Ok out /\
     out !! "KSBA"%string = Some r /\ ob_time r = Some (time_of rec) /\
     forall rec' k' k, rec' ∈ [Sample.ksba_1130; Sample.ksba_1000] ->
       Sample.strptime_sample (time_of rec') = Some k' ->
       Sample.strptime_sample (time_of rec) = Some k -> (k' <= k)%Z).
Proof.
  destruct (@C3_latest_record_wins Sample.builtins) as (H1 & H2 & _ & H4).
  split; [|split].
  3:{ assert (E : exists out r,
               @query_madis Sample.builtins (Records [Sample.ksba_1130; Sample.ksba_1000])
                 = Ok out /\ out !! "KSBA"%string = Some r)
        by (vm_compute; eexists; eexists; split; reflexivity).
      destruct E as (out & r & E & El).
      destruct (H1 _ _ _ _ E El) as (rec & e & v & Hin & _ & _ & _ & -> & _ & Hk).
      exists out, (row_of rec e v), rec. split; [exact E|]. split; [exact El|].
      split; [reflexivity|].
      intros rec' k' k Hin' Hk' Hkk. apply (Hk) with (rec' := rec'); try assumption.
      - intros r1 r2 k1 k2 I1 I2. revert k1 k2. revert r1 r2 I1 I2.
        apply (sample_two_cases
                 (fun r1 r2 => forall k1 k2,
                    usable r1 = true -> usable r2 = true ->
                    station_of r1 = "KSBA"%string -> station_of r2 = "KSBA"%string ->
                    @strptime Sample.builtins (time_of r1) = Some k1 ->
                    @strptime Sample.builtins (time_of r2) = Some k2 ->
                    str_le (time_of r1) (time_of r2) -> (k1 <= k2)%Z));
          intros k1 k2 _ _ _ _ E1 E2 Hle;
          vm_compute in E1, E2; injection E1 as <-; injection E2 as <-;
          first [lia|vm_compute in Hle; discriminate Hle].
      - apply elem_of_cons in Hin'. destruct Hin' as [->|Hin'];
          [|apply list_elem_of_singleton in Hin'; subst rec']; reflexivity.
      - apply elem_of_cons in Hin'. destruct Hin' as [->|Hin'];
          [|apply list_elem_of_singleton in Hin'; subst rec']; reflexivity. }
  - assert (E : exists out,
               @query_madis Sample.builtins (Records [Sample.ksba_1130; Sample.ksba_1000])
                 = Ok out)
      by (vm_compute; eexists; reflexivity).
    destruct E as [out E]. exists out.
    destruct (H2 [Sample.ksba_1130; Sample.ksba_1000] [Sample.ksba_1000; Sample.ksba_1130]
                 out "KSBA"%string) as (out' & Hq & Hl).
    + apply Permutation_swap.
    + apply (sample_two_cases
               (fun r1 r2 => usable r1 = true -> usable r2 = true ->
                             station_of r1 = "KSBA"%string -> station_of r2 = "KSBA"%string ->
                             time_of r1 = time_of r2 -> r1 = r2));
        intros _ _ _ _ Ht; first [reflexivity|discriminate Ht].
    + exact E.
    + exists out'. split; [exact E|]. split; [exact Hq|exact Hl].
  - eexists. split; [vm_compute; reflexivity|]. split; [|reflexivity].
    apply (H4 "KSBA"%string Sample.noon [Sample.ksba_1130; Sample.ksba_1000]).
    + apply Permutation_swap.
    + apply (sample_two_cases
               (fun r1 r2 => usable_without_id r1 = true -> usable_without_id r2 = true ->
                             strptime (time_of r1) = strptime (time_of r2) -> r1 = r2));
        intros _ _ Ht; first [reflexivity|vm_compute in Ht; discriminate Ht].
    + vm_compute. reflexivity.
Defined.

Lemma C7_usable_records_witness :
  (exists e v,
     @fetch_station Sample.builtins "KSBA" Sample.noon (Records [Sample.ksba_1130]) =
       Ok (row60_of "KSBA" Sample.noon Sample.ksba_1130 e v 690)) /\
  @query_loop Sample.builtins
     [Sample.record_of None "2024-05-01T11:30" "3.0" "289.65"; Sample.ksba_1130] ∅ =
  @query_loop Sample.builtins [Sample.ksba_1130] ∅.
Proof.
  destruct (@C7_usable_records Sample.builtins) as (H1 & _ & _ & _ & H5).
  split.
  - eexists. eexists. apply H5; [reflexivity|vm_compute; reflexivity|reflexivity].
  - apply H1. reflexivity.
Defined.

(** The claim of C7 fails in the recent-60 variant for a record without a
    station id: [fetch_station] uses it. *)
Lemma C7_record_without_id_is_used :
  let rec := Sample.record_of None "2024-05-01T11:30" "3.0" "289.65" in
  r_shef_id rec = None /\ usable rec = false /\
  exists r,
    @fetch_station Sample.builtins "KSBA" Sample.noon (Records [rec]) = Ok r /\
    ob_time60 r = Some "2024-05-01T11:30"%string /\
    elev_m60 r <> None /\ temp_c60 r <> None /\ recent60 r = true.
Proof.
  split; [reflexivity|]. split; [reflexivity|].
  eexists. split; [vm_compute; reflexivity|].
  split; [reflexivity|]. split; [discriminate|]. split; [discriminate|reflexivity].
Qed.

(** C4 at a record whose elevation is not a number.  In the recent-60 variant
    the [ValueError] of [float(elev)] leaves [fetch_station]; [fut.result()]
    raises it again, so no station resolves and no chart is drawn.  The latest
    variant catches the same error and resolves the station to a missing row
    with a diagnostic. *)
Theorem C4_bad_elevation_raises :
  @fetch_station Sample.builtins "KSBA" Sample.noon
     (station_latest Sample.bad_elev_service "KSBA") =
    Raise (ValueError "could not convert string to float: 'n/a'") /\
  @station_rows Sample.builtins Sample.bad_elev_service Sample.noon =
    Raise (ValueError "could not convert string to float: 'n/a'") /\
  raises (@main60 Sample.builtins Sample.profile_text Sample.bad_elev_service
                  Sample.noon "sba24122.01t") /\
  @fetch_one_station_fallback Sample.builtins
     (Sample.always (station_latest Sample.bad_elev_service "KSBA")) "KSBA" =
    missing_row "KSBA" "fetch_error: could not convert string to float: 'n/a'".
Proof.
  split; [vm_compute; reflexivity|]. split; [vm_compute; reflexivity|].
  split; [vm_compute; exact I|]. vm_compute. reflexivity.
Qed.

(** ** The tick loop ends by its condition *)

Lemma ticks_loop_exit (step : Z) (b : Q) :
  (1 <= step)%Z ->
  forall fuel cursor,
    (Qfloor b - cursor + 1 <= Z.of_nat fuel)%Z ->
    let tk := ticks_loop fuel cursor step (Fin b) in
    (forall x, x ∈ tk -> inject_Z x <= b) /\
    ~ inject_Z (cursor + step * Z.of_nat (length tk)) <= b.
Proof.
  intros Hstep. induction fuel as [|fuel IH]; intros cursor Hfuel; cbn [ticks_loop].
  - split; [intros x Hx; inversion Hx|].
    simpl. rewrite Z.mul_0_r, Z.add_0_r. intros Hle.
    apply Qfloor_resp_le in Hle. rewrite Qfloor_Z in Hle. lia.
  - unfold of_int, fleb. destruct (Qle_bool (inject_Z cursor) b) eqn:E.
    + apply Qle_bool_iff in E.
      destruct (IH (cursor + step)%Z) as [A B]; [lia|].
      split.
      * intros x Hx. apply elem_of_cons in Hx. destruct Hx as [->|Hx]; [exact E|apply A, Hx].
      * cbn [length].
        replace (cursor + step * Z.of_nat (S (length (ticks_loop fuel (cursor + step) step (Fin b)))))%Z
          with (cursor + step + step * Z.of_nat (length (ticks_loop fuel (cursor + step) step (Fin b))))%Z
          by lia.
        exact B.
    + split; [intros x Hx; inversion Hx|].
      simpl. rewrite Z.mul_0_r, Z.add_0_r. intros Hle.
      apply Qle_bool_iff in Hle. congruence.
Qed.

Lemma ticks_exit (cursor step : Z) (b : Q) (tk : list Z) :
  (1 <= step)%Z -> ticks cursor step (Fin b) = Ok tk ->
  (forall x, x ∈ tk -> inject_Z x <= b) /\
  ~ inject_Z (cursor + step * Z.of_nat (length tk)) <= b.
Proof.
  intros Hstep Ht. simpl in Ht. apply Ok_inj in Ht. subst tk.
  apply ticks_loop_exit; [exact Hstep|lia].
Qed.

Lemma x_step_of_pos (x_range : pyfloat) : (1 <= x_step_of x_range)%Z.
Proof.
  unfold x_step_of.
  destruct (fleb x_range (of_int 5)); [lia|].
  destruct (fleb x_range (of_int 10)); lia.
Qed.

(** ** The latest fetcher resolves every station *)

Section LatestFetch.
Context `{Builtins}.

Lemma query_madis_keyed (resp : response) (out : gmap string row) :
  query_madis resp = Ok out -> keyed_by_id out.
Proof.
  intros Hq k r Hk. destruct resp as [e|e|recs]; try discriminate.
  destruct (query_madis_spec recs out k r Hq Hk) as (rec & e & v & _ & _ & Hs & _ & -> & _).
  exact Hs.
Qed.

Lemma fallback_loop_id (svc : service) (sid : string) (lags : list nat) :
  forall last_error, id (fallback_loop svc sid lags last_error) = sid.
Proof.
  induction lags as [|lag rest IH]; intros err; cbn [fallback_loop]; [reflexivity|].
  destruct (query_station_snapshot svc sid lag) as [rows|e] eqn:Eq; [|apply IH].
  destruct (rows !! sid) as [r|] eqn:Er; [|apply IH].
  eapply query_madis_keyed; [exact Eq|exact Er].
Qed.

(** The row of a station whose queries all fail or come back empty. *)
Lemma fallback_loop_missing (svc : service) (sid : string) (lags : list nat) :
  (forall lag, lag ∈ lags ->
     match query_station_snapshot svc sid lag with
     | Ok rows => rows !! sid = None
     | Raise _ => True
     end) ->
  forall last_error, exists text,
    fallback_loop svc sid lags last_error = missing_row sid text.
Proof.
  induction lags as [|lag rest IH]; intros Hall err; cbn [fallback_loop]; [eauto|].
  assert (Hrest : forall l, l ∈ rest ->
            match query_station_snapshot svc sid l with
            | Ok rows => rows !! sid = None
            | Raise _ => True
            end) by (intros l Hl; apply Hall; right; exact Hl).
  specialize (Hall lag (list_elem_of_here _ _)).
  destruct (query_station_snapshot svc sid lag) as [rows|e]; [|apply IH, Hrest].
  rewrite Hall. apply IH, Hrest.
Qed.

Lemma keyed_by_id_insert (results : gmap string row) (r : row) :
  keyed_by_id results -> keyed_by_id (<[id r := r]> results).
Proof.
  intros Hk k r' Hl. destruct (decide (id r = k)) as [E|Hne].
  - subst k. rewrite lookup_insert_eq in Hl. congruence.
  - rewrite lookup_insert_ne in Hl by exact Hne. apply Hk, Hl.
Qed.

Lemma take_from_snapshot_keyed (snapshot : gmap string row) (todo : list string) :
  keyed_by_id snapshot ->
  forall pending results,
    keyed_by_id results ->
    keyed_by_id (snd (take_from_snapshot snapshot todo pending results)).
Proof.
  intros Hs. induction todo as [|sid rest IH]; intros pending results Hr;
    cbn [take_from_snapshot]; [exact Hr|].
  destruct (snapshot !! sid) as [r|] eqn:E; [|apply IH, Hr].
  apply IH. rewrite <- (Hs _ _ E). apply keyed_by_id_insert, Hr.
Qed.

Lemma batch_loop_keyed (svc : service) (lags : list nat) :
  forall pending results,
    keyed_by_id results -> keyed_by_id (snd (batch_loop svc lags pending results)).
Proof.
  induction lags as [|lag rest IH]; intros pending results Hr; cbn [batch_loop];
    [exact Hr|].
  destruct pending as [|p ps]; [exact Hr|].
  destruct (query_ca_snapshot svc lag) as [snapshot|e] eqn:Eq; [|apply IH, Hr].
  pose proof (take_from_snapshot_keyed snapshot (p :: ps)
                (query_madis_keyed _ _ Eq) (p :: ps) results Hr) as Hk.
  destruct (take_from_snapshot snapshot (p :: ps) (p :: ps) results) as [pending' results'].
  apply IH. exact Hk.
Qed.

(** [fetch_madis_stations] cannot raise (every query is inside [try]) and
    gives exactly one row per configured station, in the order of
    [STATIONS]. *)
Lemma fetch_madis_stations_ids (svc : service) :
  id <$> fetch_madis_stations svc = STATIONS.
Proof.
  unfold fetch_madis_stations.
  pose proof (batch_loop_keyed svc (seq 0 73) STATIONS ∅) as Hb.
  destruct (batch_loop svc (seq 0 73) STATIONS ∅) as [pending results].
  simpl in Hb.
  assert (Hk0 : keyed_by_id results)
    by (apply Hb; intros k r Hl; rewrite lookup_empty in Hl; discriminate).
  assert (Hk : keyed_by_id
                 (fold_left (fun res stn =>
                               let r := fetch_one_station_fallback svc stn in
                               <[id r := r]> res) pending results)).
  { clear Hb. revert results Hk0. induction pending as [|p ps IH]; intros results Hk0;
      simpl; [exact Hk0|].
    apply IH. apply keyed_by_id_insert, Hk0. }
  set (final := fold_left _ pending results) in *.
  rewrite <- list_fmap_compose.
  rewrite <- (list_fmap_id STATIONS) at 2.
  apply list_fmap_ext. intros i stn _. simpl.
  destruct (final !! stn) as [r|] eqn:E; simpl; [apply Hk, E|reflexivity].
Qed.

End LatestFetch.

(** A failed transport or a document that does not parse gives a missing row
    with a diagnostic; a response without usable records gives [no_temp]. *)
Lemma fetch_station_failures `{Builtins} (sid : string) (now : Q) (e : exn) :
  fetch_station sid now (FetchFails e) =
    Ok (missing_row60 sid ("fetch_error: " ++ exn_str e)) /\
  fetch_station sid now (XmlFails e) =
    Ok (missing_row60 sid ("xml_error: " ++ exn_str e)) /\
  fetch_station sid now (Records []) = Ok (missing_row60 sid "no_temp").
Proof. repeat split. Qed.

(* ===================================================================== *)
(** * Further properties of the parser                                    *)
(* ===================================================================== *)


(** Only one sorted list has the rows of a table whose equal altitudes belong
    to equal rows. *)
Lemma sort_by_alt_unique (pts pts' : list point) :
  pts ≡ₚ pts' -> finite_alts pts -> same_alt_same_row pts ->
  sort_by_alt pts = sort_by_alt pts'.
Proof.
  intros Hperm Hfin Hsame.
  assert (Hfin' : finite_alts pts') by (eapply finite_alts_perm; eassumption).
  apply (StronglySorted_unique_strong alt_le).
  - intros x1 x2 H1 H2 L1 L2.
    rewrite sort_by_alt_perm in H1. rewrite sort_by_alt_perm, <- Hperm in H2.
    apply Hsame; [exact H1|exact H2|]. unfold alt_le in *. apply Qle_antisym; assumption.
  - apply sort_by_alt_sorted, Hfin.
  - apply sort_by_alt_sorted, Hfin'.
  - rewrite !sort_by_alt_perm. exact Hperm.
Qed.

Lemma parse_profile_found `{Builtins} (msg raw : string) :
  ~ header_missing (splitlines raw) ->
  parse_profile msg raw =
    (let! out := resample (table_points (splitlines raw)) in
     Ok (observation_time (splitlines raw), out)).
Proof.
  intros Hn. destruct (parse_profile_spec msg raw) as [[Hm _]|[_ E]]; [contradiction|exact E].
Qed.





(** ** The order of the rows *)

(** X1.  The grid that the parsers return does not depend on the order of the
    rows of the table, as long as rows with the same altitude are the same
    row: two files whose tables hold the same valid points, in any order, give
    the same grid (or the same exception). *)
Theorem parse_row_order `{Builtins} (raw raw' : string) :
  let pts := table_points (splitlines raw) in
  let pts' := table_points (splitlines raw') in
  ~ header_missing (splitlines raw) -> ~ header_missing (splitlines raw') ->
  pts ≡ₚ pts' -> finite_alts pts -> same_alt_same_row pts ->
  grid_of (parse_rass_profile raw) = grid_of (parse_rass_profile raw') /\
  grid_of (parse_rass raw) = grid_of (parse_rass raw').
Proof.
  intros pts pts' Hh Hh' Hperm Hfin Hsame.
  assert (E : resample pts = resample pts').
  { unfold resample. rewrite (Permutation_length Hperm).
    rewrite (sort_by_alt_unique pts pts' Hperm Hfin Hsame). reflexivity. }
  unfold parse_rass_profile, parse_rass.
  rewrite !parse_profile_found by assumption. fold pts pts'. rewrite E.
  destruct (resample pts'); split; reflexivity.
Qed.

Ltac sample_pairs :=
  let p := fresh "p" in let q := fresh "q" in
  let Hp := fresh "Hp" in let Hq := fresh "Hq" in let E := fresh "E" in
  intros p q Hp Hq;
  repeat (apply elem_of_cons in Hp; destruct Hp as [->|Hp]);
  try (inversion Hp; fail);
  repeat (apply elem_of_cons in Hq; destruct Hq as [->|Hq]);
  try (inversion Hq; fail);
  intros E; first [reflexivity|vm_compute in E; discriminate E].

Lemma parse_row_order_witness :
  grid_of (@parse_rass_profile Sample.builtins Sample.profile_text) =
  grid_of (@parse_rass_profile Sample.builtins Sample.shuffled_text) /\
  grid_of (@parse_rass Sample.builtins Sample.profile_text) =
  grid_of (@parse_rass Sample.builtins Sample.shuffled_text).
Proof.
  apply (@parse_row_order Sample.builtins Sample.profile_text Sample.shuffled_text).
  - eapply sample_header. vm_compute. reflexivity.
  - eapply sample_header. vm_compute. reflexivity.
  - run_list (@table_points Sample.builtins (splitlines Sample.profile_text)).
    run_list (@table_points Sample.builtins (splitlines Sample.shuffled_text)).
    match goal with
    | |- [?a; ?b; ?c] ≡ₚ [?c; ?a; ?b] =>
        change ([a; b] ++ [c] ≡ₚ [c] ++ [a; b]); apply Permutation_app_comm
    end.
  - sample_finite.
  - unfold same_alt_same_row.
    run_list (@table_points Sample.builtins (splitlines Sample.profile_text)).
    sample_pairs.
Defined.

(** ** No overshoot *)




(** ** Points that lie on the grid *)



(** ** The observation time *)

Lemma string_length_app (a b : string) :
  String.length (a ++ b) = (String.length a + String.length b)%nat.
Proof. induction a as [|c a IH]; simpl; [reflexivity|]. rewrite <- IH. reflexivity. Qed.

Lemma zfill2_length (s : string) : (2 <= String.length (zfill2 s))%nat.
Proof.
  destruct s as [|c [|d s]]; simpl; try lia.
  destruct (Ascii.eqb c "+" || Ascii.eqb c "-"); simpl; lia.
Qed.

Lemma numeric_field_nonempty (s : string) :
  numeric_field s = true -> (1 <= String.length s)%nat.
Proof. destruct s; simpl; [discriminate|lia]. Qed.

Lemma scan_time_spec (lines : list string) (t : string) :
  scan_time lines = Some t ->
  exists k line yy mm dd hh mi ss more,
    lines !! k = Some line /\
    split line = yy :: mm :: dd :: hh :: mi :: ss :: more /\
    forallb numeric_field [yy; mm; dd; hh; mi; ss] = true /\
    (String.length yy <= 2)%nat /\
    t = stamp yy mm dd hh mi ss /\
    scan_time (take k lines) = None.
Proof.
  induction lines as [|line rest IH]; intros Hs; [discriminate|].
  cbn [scan_time] in Hs.
  change (forallb (fun p => isdigit (remove_first_dot p))) with (forallb numeric_field) in Hs.
  assert (Hnext : scan_time rest = Some t ->
    (forall k, scan_time (take (S k) (line :: rest)) = scan_time (take k rest)) ->
    exists k line0 yy mm dd hh mi ss more,
      (line :: rest) !! k = Some line0 /\
      split line0 = yy :: mm :: dd :: hh :: mi :: ss :: more /\
      forallb numeric_field [yy; mm; dd; hh; mi; ss] = true /\
      (String.length yy <= 2)%nat /\
      t = stamp yy mm dd hh mi ss /\
      scan_time (take k (line :: rest)) = None).
  { intros Hr Hstep.
    destruct (IH Hr) as (k & l0 & yy & mm & dd & hh & mi & ss & more & P1 & P2 & P3 & P4 & P5 & P6).
    exists (S k), l0, yy, mm, dd, hh, mi, ss, more.
    do 5 (split; [assumption|]). rewrite Hstep. exact P6. }
  destruct (split line) as [|yy [|mm [|dd [|hh [|mi [|ss more]]]]]] eqn:Esp;
    try (apply (Hnext Hs); intros k; cbn [take scan_time]; rewrite Esp; reflexivity).
  destruct (forallb numeric_field [yy; mm; dd; hh; mi; ss]) eqn:Ef.
  2:{ apply (Hnext Hs). intros k. cbn [take scan_time]. rewrite Esp.
      change (forallb (fun p => isdigit (remove_first_dot p))) with (forallb numeric_field).
      rewrite Ef. reflexivity. }
  destruct (Nat.leb_spec (String.length yy) 2) as [Hle|Hgt].
  - injection Hs as <-. exists 0%nat, line, yy, mm, dd, hh, mi, ss, more.
    repeat split; auto.
  - apply (Hnext Hs). intros k. cbn [take scan_time]. rewrite Esp.
    change (forallb (fun p => isdigit (remove_first_dot p))) with (forallb numeric_field).
    rewrite Ef. destruct (Nat.leb_spec (String.length yy) 2); [lia|reflexivity].
Qed.

Lemma stamp_length (yy mm dd hh mi ss : string) :
  (1 <= String.length yy)%nat ->
  (18 <= String.length (stamp yy mm dd hh mi ss))%nat.
Proof.
  intros Hy. unfold stamp. rewrite !string_length_app.
  pose proof (zfill2_length mm). pose proof (zfill2_length dd).
  pose proof (zfill2_length hh). pose proof (zfill2_length mi).
  pose proof (zfill2_length ss). simpl. lia.
Qed.

(** X4.  An observation time is read from the first twelve lines only, and
    from the first of them whose first six fields are numeric and whose year
    field has one or two characters: it is [20], the year field as it stands,
    and the five other fields filled with zeros to two characters, at least 18
    characters in all.  No earlier line gives a time. *)
Theorem observation_time_shape (lines : list string) (t : string) :
  observation_time lines = Some t ->
  exists k line yy mm dd hh mi ss more,
    (k < 12)%nat /\ lines !! k = Some line /\
    split line = yy :: mm :: dd :: hh :: mi :: ss :: more /\
    forallb numeric_field [yy; mm; dd; hh; mi; ss] = true /\
    (1 <= String.length yy <= 2)%nat /\
    t = stamp yy mm dd hh mi ss /\
    (18 <= String.length t)%nat /\
    observation_time (take k lines) = None.
Proof.
  unfold observation_time. intros Hs.
  destruct (scan_time_spec _ _ Hs)
    as (k & line & yy & mm & dd & hh & mi & ss & more & P1 & P2 & P3 & P4 & P5 & P6).
  apply lookup_take_Some in P1. destruct P1 as [P1 Hk].
  assert (Hy : (1 <= String.length yy)%nat).
  { simpl in P3. apply andb_true_iff in P3. destruct P3 as [P3 _].
    apply numeric_field_nonempty, P3. }
  exists k, line, yy, mm, dd, hh, mi, ss, more.
  split; [exact Hk|]. split; [exact P1|]. split; [exact P2|]. split; [exact P3|].
  split; [lia|]. split; [exact P5|]. split; [subst t; apply stamp_length, Hy|].
  rewrite take_take in P6. rewrite take_take.
  replace (12 `min` k)%nat with k by lia.
  replace (k `min` 12)%nat with k in P6 by lia. exact P6.
Qed.

Lemma observation_time_shape_witness :
  exists t,
    observation_time ["# SBA"; " 24  5  1 10  0  0   -8"; "HT TEMP"]%string = Some t /\
    (18 <= String.length t)%nat.
Proof.
  eexists. split; [vm_compute; reflexivity|].
  destruct (observation_time_shape ["# SBA"; " 24  5  1 10  0  0   -8"; "HT TEMP"]%string
              "2024-05-01 10:00:00"%string)
    as (k & line & yy & mm & dd & hh & mi & ss & more & _ & _ & _ & _ & _ & _ & Hlen & _).
  - vm_compute. reflexivity.
  - exact Hlen.
Defined.

(** ** A table between two grid altitudes *)




(* ===================================================================== *)
(** * Further properties of the latest fetcher                            *)
(* ===================================================================== *)

Section LatestRows.
Context `{Builtins}.

(** ** The loops of [fetch_madis_stations] *)

(** What the inner loop of the batch phase leaves: a station of [todo] that
    the snapshot holds gets the snapshot's row and leaves [pending]. *)
Lemma take_from_snapshot_spec (snapshot : gmap string row) (todo : list string) :
  forall pending results,
    (forall s, snd (take_from_snapshot snapshot todo pending results) !! s =
       match snapshot !! s with
       | Some r => if decide (s ∈ todo) then Some r else results !! s
       | None => results !! s
       end) /\
    (forall s, s ∈ fst (take_from_snapshot snapshot todo pending results) <->
               s ∈ pending /\ ~ (s ∈ todo /\ is_Some (snapshot !! s))).
Proof.
  induction todo as [|x rest IH]; intros pending results; cbn [take_from_snapshot].
  - split.
    + intros s. simpl. destruct (snapshot !! s); [|reflexivity].
      destruct (decide (s ∈ [])) as [Hin|_]; [inversion Hin|reflexivity].
    + intros s. simpl. split; [intros Hs; split; [exact Hs|]|tauto].
      intros [Hin _]. inversion Hin.
  - destruct (snapshot !! x) as [rx|] eqn:Ex.
    + destruct (IH (List.filter (fun s => negb (String.eqb s x)) pending)
                   (<[x := rx]> results)) as [A B].
      split.
      * intros s. rewrite A. destruct (decide (s = x)) as [->|Hne].
        -- rewrite Ex. rewrite lookup_insert_eq.
           destruct (decide (x ∈ rest)), (decide (x ∈ x :: rest)) as [|Hn];
             try reflexivity; exfalso; apply Hn; left.
        -- rewrite lookup_insert_ne by congruence.
           destruct (snapshot !! s); [|reflexivity].
           destruct (decide (s ∈ rest)) as [Hr|Hr], (decide (s ∈ x :: rest)) as [Hx|Hx];
             try reflexivity.
           ++ exfalso. apply Hx. right. exact Hr.
           ++ exfalso. apply elem_of_cons in Hx. destruct Hx; [congruence|contradiction].
      * intros s. rewrite B. rewrite list_elem_of_In, filter_In, <- list_elem_of_In.
        rewrite negb_true_iff, String.eqb_neq. split.
        -- intros [[Hp Hne] Hn]. split; [exact Hp|].
           intros [Hin Hs]. apply Hn. split; [|exact Hs].
           apply elem_of_cons in Hin. destruct Hin; [congruence|assumption].
        -- intros [Hp Hn]. split; [split; [exact Hp|]|].
           ++ intros ->. apply Hn. split; [left|]. rewrite Ex. eauto.
           ++ intros [Hin Hs]. apply Hn. split; [right; exact Hin|exact Hs].
    + destruct (IH pending results) as [A B]. split.
      * intros s. rewrite A. destruct (snapshot !! s) as [r|] eqn:Es; [|reflexivity].
        destruct (decide (s ∈ rest)) as [Hr|Hr], (decide (s ∈ x :: rest)) as [Hx|Hx];
          try reflexivity.
        -- exfalso. apply Hx. right. exact Hr.
        -- exfalso. apply elem_of_cons in Hx. destruct Hx; [congruence|contradiction].
      * intros s. rewrite B. split.
        -- intros [Hp Hn]. split; [exact Hp|]. intros [Hin Hs]. apply Hn.
           split; [|exact Hs]. apply elem_of_cons in Hin.
           destruct Hin as [->|Hin]; [|exact Hin].
           rewrite Ex in Hs. destruct Hs; discriminate.
        -- intros [Hp Hn]. split; [exact Hp|]. intros [Hin Hs]. apply Hn.
           split; [right; exact Hin|exact Hs].
Qed.

(** A station that is not pending is left alone. *)
Lemma batch_loop_untouched (svc : service) (sid : string) (lags : list nat) :
  forall pending results,
    sid ∉ pending ->
    snd (batch_loop svc lags pending results) !! sid = results !! sid /\
    sid ∉ fst (batch_loop svc lags pending results).
Proof.
  induction lags as [|lag rest IH]; intros pending results Hn; cbn [batch_loop]; [auto|].
  destruct pending as [|p ps]; [auto|].
  destruct (query_ca_snapshot svc lag) as [snapshot|e]; [|apply IH, Hn].
  destruct (take_from_snapshot_spec snapshot (p :: ps) (p :: ps) results) as [A B].
  destruct (take_from_snapshot snapshot (p :: ps) (p :: ps) results) as [pending' results'].
  simpl in A, B.
  destruct (IH pending' results') as [C D].
  { rewrite B. tauto. }
  split; [|exact D]. rewrite C, A.
  destruct (snapshot !! sid); [|reflexivity].
  destruct (decide (sid ∈ p :: ps)); [contradiction|reflexivity].
Qed.

(** A station that no snapshot of the lags holds stays pending. *)
Lemma batch_loop_miss (svc : service) (sid : string) (lags : list nat) :
  (forall lag, lag ∈ lags -> ca_miss svc sid lag) ->
  forall pending results,
    sid ∈ pending ->
    snd (batch_loop svc lags pending results) !! sid = results !! sid /\
    sid ∈ fst (batch_loop svc lags pending results).
Proof.
  induction lags as [|lag rest IH]; intros Hmiss pending results Hin;
    cbn [batch_loop]; [auto|].
  assert (Hrest : forall l, l ∈ rest -> ca_miss svc sid l)
    by (intros l Hl; apply Hmiss; right; exact Hl).
  specialize (Hmiss lag (list_elem_of_here _ _)). unfold ca_miss in Hmiss.
  destruct pending as [|p ps]; [inversion Hin|].
  destruct (query_ca_snapshot svc lag) as [snapshot|e]; [|apply IH; assumption].
  destruct (take_from_snapshot_spec snapshot (p :: ps) (p :: ps) results) as [A B].
  destruct (take_from_snapshot snapshot (p :: ps) (p :: ps) results) as [pending' results'].
  simpl in A, B.
  destruct (IH Hrest pending' results') as [C D].
  { rewrite B. split; [exact Hin|]. intros [_ Hs]. rewrite Hmiss in Hs.
    destruct Hs; discriminate. }
  split; [|exact D]. rewrite C, A, Hmiss. reflexivity.
Qed.

(** The first snapshot that holds a pending station gives its row. *)
Lemma batch_loop_hit (svc : service) (sid : string) (pre post : list nat) (lag : nat)
  (snapshot : gmap string row) (r : row) :
  (forall l, l ∈ pre -> ca_miss svc sid l) ->
  query_ca_snapshot svc lag = Ok snapshot -> snapshot !! sid = Some r ->
  forall pending results,
    sid ∈ pending ->
    snd (batch_loop svc (pre ++ lag :: post) pending results) !! sid = Some r /\
    sid ∉ fst (batch_loop svc (pre ++ lag :: post) pending results).
Proof.
  intros Hmiss Hq Hr. induction pre as [|l pre IH]; intros pending results Hin.
  - cbn [app batch_loop]. destruct pending as [|p ps]; [inversion Hin|].
    rewrite Hq.
    destruct (take_from_snapshot_spec snapshot (p :: ps) (p :: ps) results) as [A B].
    destruct (take_from_snapshot snapshot (p :: ps) (p :: ps) results) as [pending' results'].
    simpl in A, B.
    destruct (batch_loop_untouched svc sid post pending' results') as [C D].
    { rewrite B. intros [_ Hn]. apply Hn. split; [exact Hin|]. rewrite Hr. eauto. }
    split; [|exact D]. rewrite C, A, Hr.
    destruct (decide (sid ∈ p :: ps)); [reflexivity|contradiction].
  - assert (Hpre : forall x, x ∈ pre -> ca_miss svc sid x)
      by (intros x Hx; apply Hmiss; right; exact Hx).
    specialize (Hmiss l (list_elem_of_here _ _)). unfold ca_miss in Hmiss.
    change ((l :: pre) ++ lag :: post) with (l :: (pre ++ lag :: post)).
    cbn [batch_loop]. destruct pending as [|p ps]; [inversion Hin|].
    destruct (query_ca_snapshot svc l) as [s|e]; [|apply IH; assumption].
    destruct (take_from_snapshot_spec s (p :: ps) (p :: ps) results) as [A B].
    destruct (take_from_snapshot s (p :: ps) (p :: ps) results) as [pending' results'].
    simpl in A, B. apply IH; [exact Hpre|].
    rewrite B. split; [exact Hin|]. intros [_ Hs]. rewrite Hmiss in Hs.
    destruct Hs; discriminate.
Qed.

(** The fallback phase: every station still pending gets the row of its own
    fallback, the others keep theirs. *)
Lemma fallback_fold_spec (svc : service) (pending : list string) :
  forall (results : gmap string row) (s : string),
    fold_left (fun res stn =>
                 let r := fetch_one_station_fallback svc stn in
                 <[id r := r]> res) pending results !! s =
    if decide (s ∈ pending) then Some (fetch_one_station_fallback svc s)
    else results !! s.
Proof.
  induction pending as [|p ps IH]; intros results s; cbn [fold_left].
  - destruct (decide (s ∈ [])) as [Hin|_]; [inversion Hin|reflexivity].
  - rewrite IH. unfold fetch_one_station_fallback at 2 3. rewrite fallback_loop_id.
    fold (fetch_one_station_fallback svc p).
    destruct (decide (s ∈ ps)) as [Hs|Hs], (decide (s ∈ p :: ps)) as [Hx|Hx];
      try reflexivity.
    + exfalso. apply Hx. right. exact Hs.
    + apply elem_of_cons in Hx. destruct Hx as [->|Hx]; [|contradiction].
      rewrite lookup_insert_eq. reflexivity.
    + rewrite lookup_insert_ne; [reflexivity|].
      intros ->. apply Hx. left.
Qed.

(** The row of a station in the list that [fetch_madis_stations] returns. *)
Lemma fetch_madis_stations_lookup (svc : service) (i : nat) (sid : string) :
  STATIONS !! i = Some sid ->
  fetch_madis_stations svc !! i =
    Some (let out := batch_loop svc (seq 0 73) STATIONS ∅ in
          if decide (sid ∈ fst out) then fetch_one_station_fallback svc sid
          else default (missing_row sid "no_temp") (snd out !! sid)).
Proof.
  intros Hi. unfold fetch_madis_stations.
  destruct (batch_loop svc (seq 0 73) STATIONS ∅) as [pending results].
  rewrite list_lookup_fmap, Hi. cbn [fmap option_fmap option_map fst snd].
  rewrite fallback_fold_spec.
  destruct (decide (sid ∈ pending)); reflexivity.
Qed.

Lemma seq_split (lag n : nat) :
  (lag < n)%nat -> seq 0 n = seq 0 lag ++ lag :: seq (S lag) (n - S lag).
Proof.
  intros Hlt. replace n with (lag + S (n - S lag))%nat at 1 by lia.
  rewrite seq_app. reflexivity.
Qed.

Lemma station_listed (i : nat) (sid : string) : STATIONS !! i = Some sid -> sid ∈ STATIONS.
Proof. intros Hi. eapply list_elem_of_lookup_2, Hi. Qed.

(** ** The freshest snapshot wins *)

(** X6.  The batch phase of [fetch_madis_stations] goes back hour by hour; a
    station takes its row from the first statewide snapshot that holds it
    (queries that fail count as snapshots without the station), and no later
    snapshot and no fallback replaces that row. *)
Theorem freshest_snapshot_wins (svc : service) (i : nat) (sid : string) (lag : nat)
  (snapshot : gmap string row) (r : row) :
  STATIONS !! i = Some sid -> (lag < 73)%nat ->
  query_ca_snapshot svc lag = Ok snapshot -> snapshot !! sid = Some r ->
  (forall l, (l < lag)%nat -> ca_miss svc sid l) ->
  fetch_madis_stations svc !! i = Some r.
Proof.
  intros Hi Hlag Hq Hr Hmiss.
  rewrite (fetch_madis_stations_lookup svc i sid Hi). cbv zeta.
  rewrite (seq_split lag 73 Hlag).
  destruct (batch_loop_hit svc sid (seq 0 lag) (seq (S lag) (73 - S lag)) lag snapshot r)
    with (pending := STATIONS) (results := (∅ : gmap string row)) as [A B];
    [|exact Hq|exact Hr|exact (station_listed i sid Hi)|].
  { intros l Hl. apply Hmiss. apply elem_of_seq in Hl. lia. }
  destruct (decide (sid ∈ _)); [contradiction|]. rewrite A. reflexivity.
Qed.

(** X7.  A station that none of the 73 statewide snapshots holds gets the row
    of its own fallback, whatever the other stations do. *)
Theorem unlisted_station_falls_back (svc : service) (i : nat) (sid : string) :
  STATIONS !! i = Some sid ->
  (forall l, (l < 73)%nat -> ca_miss svc sid l) ->
  fetch_madis_stations svc !! i = Some (fetch_one_station_fallback svc sid).
Proof.
  intros Hi Hmiss.
  rewrite (fetch_madis_stations_lookup svc i sid Hi). cbv zeta.
  destruct (batch_loop_miss svc sid (seq 0 73)) with (pending := STATIONS)
    (results := (∅ : gmap string row)) as [_ B];
    [|exact (station_listed i sid Hi)|].
  { intros l Hl. apply Hmiss. apply elem_of_seq in Hl. lia. }
  destruct (decide (sid ∈ _)); [reflexivity|contradiction].
Qed.

(** ** The fallback of one station *)

Lemma fallback_loop_hit (svc : service) (sid : string) (pre post : list nat) (lag : nat)
  (rows : gmap string row) (r : row) :
  (forall l, l ∈ pre -> station_miss svc sid l) ->
  query_station_snapshot svc sid lag = Ok rows -> rows !! sid = Some r ->
  forall last_error, fallback_loop svc sid (pre ++ lag :: post) last_error = r.
Proof.
  intros Hmiss Hq Hr. induction pre as [|l pre IH]; intros err.
  - cbn [app fallback_loop]. rewrite Hq, Hr. reflexivity.
  - assert (Hpre : forall x, x ∈ pre -> station_miss svc sid x)
      by (intros x Hx; apply Hmiss; right; exact Hx).
    specialize (Hmiss l (list_elem_of_here _ _)). unfold station_miss in Hmiss.
    change ((l :: pre) ++ lag :: post) with (l :: (pre ++ lag :: post)).
    cbn [fallback_loop].
    destruct (query_station_snapshot svc sid l) as [s|e]; [|apply IH, Hpre].
    rewrite Hmiss. apply IH, Hpre.
Qed.

Lemma fallback_loop_quiet (svc : service) (sid : string) (lags : list nat) :
  (forall l, l ∈ lags -> exists rows, query_station_snapshot svc sid l = Ok rows /\
                                       rows !! sid = None) ->
  forall last_error,
    fallback_loop svc sid lags last_error = fallback_loop svc sid [] last_error.
Proof.
  induction lags as [|l lags IH]; intros Hq err; [reflexivity|].
  destruct (Hq l (list_elem_of_here _ _)) as (rows & E & Hn).
  cbn [fallback_loop]. rewrite E, Hn.
  rewrite IH by (intros x Hx; apply Hq; right; exact Hx). reflexivity.
Qed.

Lemma fallback_loop_error (svc : service) (sid : string) (pre post : list nat) (lag : nat)
  (e : exn) :
  (forall l, l ∈ pre -> station_miss svc sid l) ->
  query_station_snapshot svc sid lag = Raise e ->
  (forall l, l ∈ post -> exists rows, query_station_snapshot svc sid l = Ok rows /\
                                       rows !! sid = None) ->
  forall last_error,
    fallback_loop svc sid (pre ++ lag :: post) last_error =
      fallback_loop svc sid [] (Some (exn_str e)).
Proof.
  intros Hmiss Hq Hpost. induction pre as [|l pre IH]; intros err.
  - cbn [app fallback_loop]. rewrite Hq. apply fallback_loop_quiet, Hpost.
  - assert (Hpre : forall x, x ∈ pre -> station_miss svc sid x)
      by (intros x Hx; apply Hmiss; right; exact Hx).
    specialize (Hmiss l (list_elem_of_here _ _)). unfold station_miss in Hmiss.
    change ((l :: pre) ++ lag :: post) with (l :: (pre ++ lag :: post)).
    cbn [fallback_loop].
    destruct (query_station_snapshot svc sid l) as [s|e']; [|apply IH, Hpre].
    rewrite Hmiss. apply IH, Hpre.
Qed.

(** X8.  [fetch_one_station_fallback] returns the row of the first lag of its
    list whose snapshot holds the station; failures before that lag do not
    matter.  When no lag has the station, the row is without values and its
    provider text tells why: [no_temp] when every query came back, and
    otherwise [fetch_error:] with the text of the last query that failed,
    even when later queries came back without the station. *)
Theorem fallback_outcome (svc : service) (sid : string) :
  (forall pre post lag rows r,
     lag_checks = pre ++ lag :: post ->
     (forall l, l ∈ pre -> station_miss svc sid l) ->
     query_station_snapshot svc sid lag = Ok rows -> rows !! sid = Some r ->
     fetch_one_station_fallback svc sid = r) /\
  ((forall l, l ∈ lag_checks -> exists rows, query_station_snapshot svc sid l = Ok rows /\
                                              rows !! sid = None) ->
   fetch_one_station_fallback svc sid = missing_row sid "no_temp") /\
  (forall pre post lag e,
     lag_checks = pre ++ lag :: post ->
     (forall l, l ∈ pre -> station_miss svc sid l) ->
     query_station_snapshot svc sid lag = Raise e ->
     (forall l, l ∈ post -> exists rows, query_station_snapshot svc sid l = Ok rows /\
                                          rows !! sid = None) ->
     fetch_one_station_fallback svc sid =
       missing_row sid (if is_empty (exn_str e) then "no_temp"
                        else "fetch_error: " ++ exn_str e)).
Proof.
  unfold fetch_one_station_fallback. split; [|split].
  - intros pre post lag rows r -> Hmiss Hq Hr. eapply fallback_loop_hit; eassumption.
  - intros Hq. rewrite fallback_loop_quiet by exact Hq. reflexivity.
  - intros pre post lag e -> Hmiss Hq Hpost.
    rewrite (fallback_loop_error svc sid pre post lag e Hmiss Hq Hpost). reflexivity.
Qed.

(** ** Where the rows come from *)

Lemma snapshot_row_from_record (resp : response) (rows : gmap string row)
  (sid : string) (r : row) :
  query_madis resp = Ok rows -> rows !! sid = Some r ->
  id r = sid /\ exists recs, resp = Records recs /\ from_record recs r.
Proof.
  intros Hq Hr. destruct resp as [e|e|recs]; try discriminate.
  destruct (query_madis_spec recs rows sid r Hq Hr)
    as (rec & e & v & P1 & P2 & P3 & P4 & P5 & _).
  split; [subst r; exact P3|]. exists recs. split; [reflexivity|].
  exists rec, e, v. subst r. simpl. auto.
Qed.

Lemma from_record_complete (recs : list xml_record) (r : row) :
  from_record recs r -> complete r.
Proof.
  intros (rec & e & v & _ & _ & _ & _ & ->). unfold complete. simpl.
  do 3 eexists. repeat split.
Qed.

Lemma fallback_loop_sourced (svc : service) (sid : string) (lags : list nat) :
  (forall l, l ∈ lags -> l ∈ lag_checks) ->
  forall last_error, sourced svc (fallback_loop svc sid lags last_error).
Proof.
  induction lags as [|l lags IH]; intros Hin err; cbn [fallback_loop].
  - right. eexists. split; [reflexivity|]. unfold diagnostic.
    destruct err as [e|]; [|left; reflexivity].
    destruct (is_empty e); [left; reflexivity|right; eauto].
  - assert (Hrest : forall x, x ∈ lags -> x ∈ lag_checks)
      by (intros x Hx; apply Hin; right; exact Hx).
    destruct (query_station_snapshot svc sid l) as [rows|e] eqn:Eq; [|apply IH, Hrest].
    destruct (rows !! sid) as [r|] eqn:Er; [|apply IH, Hrest].
    destruct (snapshot_row_from_record _ _ _ _ Eq Er) as (Hid & recs & Hresp & Hfrom).
    left. exists recs. split; [|exact Hfrom].
    right. exists l. split; [apply Hin; left|]. rewrite Hid. symmetry. exact Hresp.
Qed.

Lemma batch_loop_sourced (svc : service) (lags : list nat) :
  (forall l, l ∈ lags -> (l < 73)%nat) ->
  forall pending results,
    (forall s r, results !! s = Some r -> sourced svc r) ->
    forall s r, snd (batch_loop svc lags pending results) !! s = Some r -> sourced svc r.
Proof.
  induction lags as [|lag rest IH]; intros Hlt pending results Hres; cbn [batch_loop];
    [exact Hres|].
  assert (Hrest : forall l, l ∈ rest -> (l < 73)%nat)
    by (intros l Hl; apply Hlt; right; exact Hl).
  destruct pending as [|p ps]; [exact Hres|].
  destruct (query_ca_snapshot svc lag) as [snapshot|e] eqn:Eq; [|apply IH; assumption].
  destruct (take_from_snapshot_spec snapshot (p :: ps) (p :: ps) results) as [A _].
  destruct (take_from_snapshot snapshot (p :: ps) (p :: ps) results) as [pending' results'].
  simpl in A. apply IH; [exact Hrest|].
  intros s r Hs. rewrite A in Hs.
  destruct (snapshot !! s) as [r'|] eqn:Es; [|eapply Hres, Hs].
  destruct (decide (s ∈ p :: ps)); [|eapply Hres, Hs].
  injection Hs as <-.
  destruct (snapshot_row_from_record _ _ _ _ Eq Es) as (Hid & recs & Hresp & Hfrom).
  left. exists recs. split; [|exact Hfrom].
  left. exists lag. split; [apply Hlt; left|]. symmetry. exact Hresp.
Qed.

Lemma sourced_shape (svc : service) (r : row) :
  sourced svc r -> complete r \/ blank r.
Proof.
  intros [(recs & _ & Hfrom)|(text & -> & _)].
  - left. eapply from_record_complete, Hfrom.
  - right. repeat split.
Qed.

Lemma fetch_rows_sourced (svc : service) :
  Forall (sourced svc) (fetch_madis_stations svc).
Proof.
  apply Forall_lookup. intros i r Hr.
  assert (Hi : exists sid, STATIONS !! i = Some sid).
  { apply lookup_lt_Some in Hr.
    rewrite <- (length_fmap id), fetch_madis_stations_ids in Hr.
    apply lookup_lt_is_Some_2 in Hr. exact Hr. }
  destruct Hi as [sid Hi].
  rewrite (fetch_madis_stations_lookup svc i sid Hi) in Hr. cbv zeta in Hr.
  assert (Hb : forall s r', snd (batch_loop svc (seq 0 73) STATIONS ∅) !! s = Some r' ->
                            sourced svc r').
  { apply (batch_loop_sourced svc (seq 0 73)).
    - intros l Hl. apply elem_of_seq in Hl. lia.
    - intros s r' Hl. rewrite lookup_empty in Hl. discriminate. }
  set (out := batch_loop svc (seq 0 73) STATIONS ∅) in *. clearbody out.
  apply (inj Some) in Hr. subst r.
  destruct (decide (sid ∈ out.1)).
  - apply fallback_loop_sourced. auto.
  - destruct (out.2 !! sid) as [r|] eqn:Er.
    + simpl. eapply Hb, Er.
    + simpl. right. exists "no_temp"%string. split; [reflexivity|left; reflexivity].
Qed.

(** X9.  Every row that [fetch_madis_stations] returns is accounted for.  It
    is built from a usable record that names its station, found in a
    statewide snapshot of the last 72 hours or in a snapshot of that station
    at a lag of the fallback, and then it has its elevation, temperature and
    time; or it has none of the three, and its provider text is [no_temp] or
    begins with [fetch_error:]. *)
Theorem rows_are_sourced (svc : service) :
  Forall (fun r => sourced svc r /\ (complete r \/ blank r)) (fetch_madis_stations svc).
Proof.
  eapply Forall_impl; [apply fetch_rows_sourced|].
  intros r Hs. split; [exact Hs|]. eapply sourced_shape, Hs.
Qed.

(** ** When [query_madis] raises *)

Lemma query_loop_raises (recs : list xml_record) :
  forall out0 e,
    timed out0 -> query_loop recs out0 = Raise e ->
    exists rec, rec ∈ recs /\ usable rec = true /\ numbers_of rec = None /\
                exists msg, e = ValueError msg.
Proof.
  induction recs as [|rec rest IH]; intros out0 e Ht Hq; [discriminate|].
  assert (Hrest : forall out1, timed out1 -> query_loop rest out1 = Raise e ->
            exists rec0, rec0 ∈ rec :: rest /\ usable rec0 = true /\
                         numbers_of rec0 = None /\ exists msg, e = ValueError msg).
  { intros out1 Ht1 Hq1. destruct (IH out1 e Ht1 Hq1) as (r0 & P1 & P2).
    exists r0. split; [right; exact P1|exact P2]. }
  destruct (usable rec) eqn:Hu.
  2:{ rewrite query_loop_skip in Hq by exact Hu. apply (Hrest out0 Ht Hq). }
  pose proof (query_loop_use rec rest out0 Hu) as Hstep.
  destruct (numbers_of rec) as [[e0 v0]|] eqn:En.
  - rewrite Hstep in Hq. clear Hstep.
    destruct (out0 !! station_of rec) as [prev|] eqn:Ep.
    + destruct (Ht _ _ Ep) as [pt Hpt]. rewrite Hpt in Hq.
      destruct (str_gtb (time_of rec) pt).
      * apply (Hrest _ (timed_insert _ rec e0 v0 Ht) Hq).
      * apply (Hrest out0 Ht Hq).
    + apply (Hrest _ (timed_insert _ rec e0 v0 Ht) Hq).
  - exists rec. split; [left|]. split; [exact Hu|]. split; [exact En|].
    clear Hstep. cbn [query_loop] in Hq.
    unfold usable in Hu.
    apply andb_true_iff in Hu. destruct Hu as [Hu H4].
    apply andb_true_iff in Hu. destruct Hu as [Hu H3].
    apply andb_true_iff in Hu. destruct Hu as [Hu H2].
    apply andb_true_iff in Hu. destruct Hu as [H0 H1].
    rewrite H0, H1, H2, H3, H4 in Hq. cbn [negb orb] in Hq.
    unfold numbers_of in En. unfold float_of in Hq.
    destruct (py_float (text_of (r_elev rec))) as [x|].
    + destruct (py_float (text_of (r_data_value rec))) as [y|]; [discriminate|].
      cbn [Py.bind] in Hq. injection Hq as <-. eauto.
    + cbn [Py.bind] in Hq. injection Hq as <-. eauto.
Qed.

(** X10.  [query_madis] on a parsed response returns exactly when the
    elevation and the value of every usable record read as numbers.  When it
    raises, the exception is the [ValueError] of [float()] on such a record;
    the comparison of observation times never raises. *)
Theorem query_madis_returns_iff (recs : list xml_record) :
  (returns (query_madis (Records recs)) <->
   forall rec, rec ∈ recs -> usable rec = true -> numbers_of rec <> None) /\
  (forall e, query_madis (Records recs) = Raise e ->
     exists rec msg, rec ∈ recs /\ usable rec = true /\ numbers_of rec = None /\
                     e = ValueError msg).
Proof.
  cbn [query_madis]. split; [split|].
  - intros Hr. destruct (query_loop recs ∅) as [out|e] eqn:Eq; [|destruct Hr].
    destruct (query_loop_spec recs ∅ out timed_empty Eq) as (A & _). exact A.
  - intros Hn. destruct (query_loop_total recs ∅ timed_empty Hn) as [out ->]. exact I.
  - intros e Hq.
    destruct (query_loop_raises recs ∅ e timed_empty Hq) as (rec & P1 & P2 & P3 & msg & P4).
    exists rec, msg. auto.
Qed.

End LatestRows.

(** *** Running the latest fetcher on the sample service *)

Lemma freshest_snapshot_wins_witness :
  exists r,
    @fetch_madis_stations Sample.builtins Sample.mixed_service !! 7%nat = Some r /\
    ob_time r = Some "2024-05-01T11:30"%string.
Proof.
  assert (E : exists snapshot r,
            @query_ca_snapshot Sample.builtins Sample.mixed_service 2 = Ok snapshot /\
            snapshot !! "KSBA"%string = Some r /\
            ob_time r = Some "2024-05-01T11:30"%string)
    by (vm_compute; eexists; eexists; repeat split).
  destruct E as (snapshot & r & Hq & Hr & Ht).
  exists r. split; [|exact Ht].
  apply (@freshest_snapshot_wins Sample.builtins Sample.mixed_service 7 "KSBA" 2 snapshot r).
  - reflexivity.
  - lia.
  - exact Hq.
  - exact Hr.
  - intros l Hl. destruct l as [|[|l]]; [vm_compute; exact I|vm_compute; reflexivity|lia].
Defined.

Lemma unlisted_station_falls_back_witness :
  @fetch_madis_stations Sample.builtins Sample.mixed_service !! 1%nat =
    Some (missing_row "SE068" "fetch_error: bad xml").
Proof.
  rewrite (@unlisted_station_falls_back Sample.builtins Sample.mixed_service 1 "SE068").
  - vm_compute. reflexivity.
  - reflexivity.
  - intros l _. unfold ca_miss, query_ca_snapshot. simpl.
    destruct (l =? 0)%nat; [exact I|].
    destruct (l =? 2)%nat; [vm_compute; reflexivity|].
    destruct (l =? 3)%nat; vm_compute; reflexivity.
Defined.

Lemma fallback_outcome_witness :
  @fetch_one_station_fallback Sample.builtins Sample.mixed_service "KSBA" =
    missing_row "KSBA" "fetch_error: bad xml" /\
  @fetch_one_station_fallback Sample.builtins Sample.stale_service "KSBA" =
    missing_row "KSBA" "no_temp".
Proof.
  destruct (@fallback_outcome Sample.builtins Sample.mixed_service "KSBA") as (_ & _ & H3).
  destruct (@fallback_outcome Sample.builtins Sample.stale_service "KSBA") as (_ & H2 & _).
  split.
  - apply (H3 [0; 1; 2]%nat [6; 9; 12; 18; 24; 36; 48; 72; 96; 120; 144; 168]%nat 3%nat
              (IOError "bad xml")).
    + reflexivity.
    + intros l Hl. repeat (apply elem_of_cons in Hl; destruct Hl as [->|Hl]);
        [vm_compute; reflexivity..|inversion Hl].
    + reflexivity.
    + intros l Hl. repeat (apply elem_of_cons in Hl; destruct Hl as [->|Hl]);
        [vm_compute; eexists; split; reflexivity..|inversion Hl].
  - apply H2. intros l _. vm_compute. eexists. split; reflexivity.
Defined.

Lemma query_madis_returns_iff_witness :
  returns (@query_madis Sample.builtins (Records [Sample.ksba_1130; Sample.ksba_1000])) /\
  exists msg,
    @query_madis Sample.builtins
      (Records [Sample.record_of (Some "KSBA"%string) "2024-05-01T10:00" "n/a" "289.65"]) =
    Raise (ValueError msg).
Proof.
  split.
  - apply (proj1 (@query_madis_returns_iff Sample.builtins _)).
    intros rec Hin _.
    repeat (apply elem_of_cons in Hin; destruct Hin as [->|Hin]);
      [vm_compute; discriminate..|inversion Hin].
  - destruct (@query_madis Sample.builtins
                (Records [Sample.record_of (Some "KSBA"%string) "2024-05-01T10:00" "n/a" "289.65"]))
      as [out|e] eqn:Eq; [vm_compute in Eq; discriminate Eq|].
    destruct (proj2 (@query_madis_returns_iff Sample.builtins _) e Eq)
      as (rec & msg & _ & _ & _ & ->).
    exists msg. reflexivity.
Defined.

(* ===================================================================== *)
(** * Further properties of the recent-60 fetcher                         *)
(* ===================================================================== *)

Lemma mapM_Forall2 {A B} (f : A -> result B) (l : list A) :
  forall ys, mapM f l = Ok ys -> Forall2 (fun x y => f x = Ok y) l ys.
Proof.
  induction l as [|x l IH]; intros ys Hm; simpl in Hm.
  - injection Hm as <-. constructor.
  - destruct (f x) as [y|] eqn:E; [|discriminate].
    destruct (mapM f l) as [ys'|]; [|discriminate].
    injection Hm as <-. constructor; [exact E|apply IH; reflexivity].
Qed.

Lemma mapM_raises {A B} (f : A -> result B) (l : list A) (e : exn) :
  mapM f l = Raise e -> exists x, x ∈ l /\ f x = Raise e.
Proof.
  induction l as [|x l IH]; intros Hm; simpl in Hm; [discriminate|].
  destruct (f x) as [y|e'] eqn:E.
  - destruct (mapM f l) as [ys'|e'']; [discriminate|].
    injection Hm as ->. destruct IH as (z & Hz & Hf); [reflexivity|].
    exists z. split; [right; exact Hz|exact Hf].
  - injection Hm as ->. exists x. split; [left|exact E].
Qed.

Section Recent60Rows.
Context `{Builtins}.

Lemma fetch_station_shape (sid : string) (now : Q) (resp : response) (r : row60) :
  fetch_station sid now resp = Ok r ->
  id60 r = sid /\ (blank60 r \/ complete60 r).
Proof.
  intros Hf. destruct resp as [e|e|recs].
  - injection Hf as <-. split; [reflexivity|left; repeat split].
  - injection Hf as <-. split; [reflexivity|left; repeat split].
  - destruct (fetch_station_spec sid now recs r Hf)
      as [_ [[_ ->]|(rec & e & v & k & _ & _ & _ & _ & -> & _)]].
    + split; [reflexivity|left; repeat split].
    + split; [reflexivity|]. right. unfold complete60, row60_of. simpl.
      do 4 eexists. do 4 (split; [reflexivity|]).
      apply Qle_bool_iff.
Qed.

Lemma station_rows_ids (svc : service) (now : Q) (rows : list row60) :
  station_rows svc now = Ok rows -> id60 <$> rows = STATIONS.
Proof.
  unfold station_rows. generalize STATIONS. intros stns Hm.
  apply mapM_Forall2 in Hm.
  induction Hm as [|stn r stns rows Hf _ IH]; [reflexivity|].
  apply fetch_station_shape in Hf. destruct Hf as [Hid _].
  rewrite fmap_cons, Hid, IH. reflexivity.
Qed.

Lemma station_rows_values (svc : service) (now : Q) (rows : list row60) :
  station_rows svc now = Ok rows -> Forall (fun r => blank60 r \/ complete60 r) rows.
Proof.
  unfold station_rows. generalize STATIONS. intros stns Hm.
  apply mapM_Forall2 in Hm.
  induction Hm as [|stn r stns rows Hf _ IH]; constructor; [|exact IH].
  apply fetch_station_shape in Hf. tauto.
Qed.

(** X11.  When the station part of the recent-60 run returns, it gives one
    row per configured station, in the order of [STATIONS], and every row
    either has none of its values and is not recent, or has all of them, with
    a finite age, and is recent exactly when that age is at most 60 minutes
    (an observation stamped after the run counts as recent). *)
Theorem station_rows_shape (svc : service) (now : Q) (rows : list row60) :
  station_rows svc now = Ok rows ->
  id60 <$> rows = STATIONS /\
  Forall (fun r => blank60 r \/ complete60 r) rows.
Proof.
  intros Hm. split; [eapply station_rows_ids, Hm|eapply station_rows_values, Hm].
Qed.

Lemma collect_records_raises (recs : list xml_record) (e : exn) :
  collect_records recs = Raise e -> exists msg, e = ValueError msg.
Proof.
  induction recs as [|rec rest IH]; intros Hc; [discriminate|].
  destruct (usable_without_id rec) eqn:Hu.
  2:{ rewrite collect_records_skip in Hc by exact Hu. apply IH, Hc. }
  cbn [collect_records] in Hc. unfold usable_without_id in Hu.
  apply andb_true_iff in Hu. destruct Hu as [Hu H3].
  apply andb_true_iff in Hu. destruct Hu as [Hu H2].
  apply andb_true_iff in Hu. destruct Hu as [H0 H1].
  rewrite H0, H1, H2, H3 in Hc. cbn [negb orb] in Hc. unfold float_of in Hc.
  destruct (py_float (text_of (r_elev rec))); [|injection Hc as <-; eauto].
  cbn [Py.bind] in Hc.
  destruct (py_float (text_of (r_data_value rec))); [|injection Hc as <-; eauto].
  cbn [Py.bind] in Hc.
  destruct (collect_records rest) as [more|e']; [discriminate|].
  injection Hc as ->. apply IH. reflexivity.
Qed.

(** X12.  [fetch_station] on a parsed response returns exactly when, for every
    record it uses, the elevation and the value read as numbers and the
    observation time matches the format; and whatever it raises is the
    [ValueError] of [float()] or of [strptime]. *)
Theorem fetch_station_returns_iff (sid : string) (now : Q) (recs : list xml_record) :
  (returns (fetch_station sid now (Records recs)) <-> reads_well recs) /\
  (forall e, fetch_station sid now (Records recs) = Raise e ->
     exists msg, e = ValueError msg).
Proof.
  split; [split|].
  - intros Hr. destruct (fetch_station sid now (Records recs)) as [r|e] eqn:Ef;
      [|destruct Hr].
    apply (fetch_station_spec sid now recs r Ef).
  - intros Hw. destruct (fetch_station_total sid now recs Hw) as [r ->]. exact I.
  - intros e Hf. unfold fetch_station in Hf.
    destruct (collect_records recs) as [records|e'] eqn:Ec.
    2:{ cbn [Py.bind] in Hf. injection Hf as <-. apply (collect_records_raises recs e' Ec). }
    cbn [Py.bind] in Hf.
    destruct records as [|o0 records'] eqn:Erec; [discriminate|].
    rewrite <- Erec in *.
    unfold sort_by_time in Hf.
    destruct (mapM (fun r : obs => let! k := strptime_of (fst (fst (fst r))) in Ok (k, r))
                   records) as [keyed|e'] eqn:Ek.
    2:{ cbn [Py.bind] in Hf. injection Hf as <-. apply mapM_raises in Ek. destruct Ek as (o & _ & Ho).
        unfold strptime_of in Ho. destruct (strptime (fst (fst (fst o)))); [discriminate|].
        injection Ho as <-. eauto. }
    cbn [Py.bind] in Hf.
    destruct (keyed_spec _ _ Ek) as (K1 & _ & Klen).
    destruct (sort_keys_spec keyed []) as [Hp _]; [constructor|]. cbv zeta in Hp.
    set (sorted := fold_left _ keyed []) in *. rewrite app_nil_r in Hp.
    unfold index_last in Hf. rewrite fmap_last in Hf.
    destruct (last sorted) as [[k o]|] eqn:El.
    2:{ exfalso. rewrite last_lookup in El. apply lookup_ge_None in El.
        apply Permutation_length in Hp. rewrite Klen, Erec in Hp. simpl in Hp. lia. }
    destruct o as [[[tm e0] v0] pr].
    cbn [fmap option_fmap option_map Py.bind snd] in Hf. unfold strptime_of in Hf.
    destruct (strptime tm); cbn [Py.bind] in Hf; [discriminate|].
    injection Hf as <-. eauto.
Qed.

End Recent60Rows.

Lemma station_rows_shape_witness :
  exists rows,
    @station_rows Sample.builtins Sample.stale_service Sample.noon = Ok rows /\
    id60 <$> rows = STATIONS /\
    Forall (fun r => blank60 r \/ complete60 r) rows.
Proof.
  eexists. split; [vm_compute; reflexivity|].
  apply (@station_rows_shape Sample.builtins Sample.stale_service Sample.noon).
  vm_compute. reflexivity.
Defined.

Lemma fetch_station_returns_iff_witness :
  returns (@fetch_station Sample.builtins "KSBA" Sample.noon
             (Records [Sample.ksba_1130; Sample.ksba_1000])).
Proof.
  apply (proj1 (@fetch_station_returns_iff Sample.builtins "KSBA" Sample.noon _)).
  intros rec Hin _.
  repeat (apply elem_of_cons in Hin; destruct Hin as [->|Hin]);
    [split; vm_compute; discriminate..|inversion Hin].
Defined.

(* ===================================================================== *)
(** * Further properties of the renderer                                  *)
(* ===================================================================== *)

(** ** The ticks of an axis *)

Lemma ticks_loop_lookup (step : Z) (bound : pyfloat) :
  forall fuel cursor i t,
    ticks_loop fuel cursor step bound !! i = Some t ->
    t = (cursor + Z.of_nat i * step)%Z.
Proof.
  induction fuel as [|fuel IH]; intros cursor i t Hl; cbn [ticks_loop] in Hl.
  - rewrite lookup_nil in Hl. discriminate.
  - destruct (fleb (of_int cursor) bound); [|rewrite lookup_nil in Hl; discriminate].
    destruct i as [|i]; simpl in Hl.
    + injection Hl as <-. lia.
    + apply IH in Hl. lia.
Qed.

Lemma ceiling_least (x : Q) (k : Z) : x <= inject_Z k -> (Qceiling x <= k)%Z.
Proof.
  intros Hle. apply Qceiling_resp_le in Hle. rewrite Qceiling_Z in Hle. exact Hle.
Qed.

(** X13.  The ticks of an axis are exactly the multiples of the step that lie
    in the range of the axis, from the least one up, each once: the cursor
    starts at [ceil(lo / step) * step] and the loop stops at the first
    multiple above [hi]. *)
Theorem ticks_are_the_multiples (lo hi : Q) (step c : Z) (tk : list Z) :
  (1 <= step)%Z ->
  math_ceil (fdiv (Fin lo) (of_int step)) = Ok c ->
  ticks (c * step) step (Fin hi) = Ok tk ->
  (forall i t, tk !! i = Some t -> t = ((c + Z.of_nat i) * step)%Z) /\
  (forall t, t ∈ tk <->
     (exists k, t = (k * step)%Z) /\ lo <= inject_Z t /\ inject_Z t <= hi).
Proof.
  intros Hstep Hc Ht.
  destruct (ticks_exit _ _ _ _ Hstep Ht) as [Hle Hstop].
  assert (Hlook : forall i t, tk !! i = Some t -> t = ((c + Z.of_nat i) * step)%Z).
  { intros i t Hl. simpl in Ht. apply Ok_inj in Ht. subst tk.
    apply ticks_loop_lookup in Hl. lia. }
  simpl in Hc. apply Ok_inj in Hc.
  assert (Hs : 0 < inject_Z step).
  { change 0 with (inject_Z 0). rewrite <- Zlt_Qlt. lia. }
  assert (Hlo : lo <= inject_Z (c * step)).
  { rewrite inject_Z_mult. subst c.
    pose proof (Qle_ceiling (lo / inject_Z step)) as Hq.
    assert (E : lo == lo / inject_Z step * inject_Z step) by (field; lra).
    rewrite E at 1. apply Qmult_le_compat_r; [exact Hq|lra]. }
  split; [exact Hlook|]. intros t. split.
  - intros Hin. assert (Hin' := Hin). apply list_elem_of_lookup in Hin.
    destruct Hin as [i Hi]. apply Hlook in Hi.
    split; [eexists; exact Hi|]. split; [|apply Hle, Hin'].
    eapply Qle_trans; [exact Hlo|]. rewrite <- Zle_Qle. subst t. nia.
  - intros [[k ->] [Hk1 Hk2]].
    assert (Hck : (c <= k)%Z).
    { subst c. apply ceiling_least. apply Qle_shift_div_r; [exact Hs|].
      rewrite <- inject_Z_mult. exact Hk1. }
    assert (Hlen : (k - c < Z.of_nat (length tk))%Z).
    { destruct (Z.lt_ge_cases (k - c) (Z.of_nat (length tk))) as [Hlt|Hge]; [exact Hlt|].
      exfalso. apply Hstop. eapply Qle_trans; [|exact Hk2].
      rewrite <- Zle_Qle. nia. }
    destruct (lookup_lt_is_Some_2 tk (Z.to_nat (k - c))) as [t Hl]; [lia|].
    assert (Et := Hlook _ _ Hl). rewrite Z2Nat.id in Et by lia.
    replace (c + (k - c))%Z with k in Et by lia. subst t.
    eapply list_elem_of_lookup_2, Hl.
Qed.

Lemma ticks_are_the_multiples_witness :
  exists tk,
    ticks (7 * 2) 2 (Fin 19.3) = Ok tk /\
    forall t, t ∈ tk <->
      (exists k, t = (k * 2)%Z) /\ 12.3 <= inject_Z t /\ inject_Z t <= 19.3.
Proof.
  eexists. split; [reflexivity|].
  apply (ticks_are_the_multiples 12.3 19.3 2 7).
  - lia.
  - reflexivity.
  - reflexivity.
Defined.

(** ** The parts of a chart *)

(** The list of elements that [plot_lines] returns, part by part. *)
Lemma plot_lines_parts (attempts : nat) (cc cp lt title sub : string)
  (x_min x_max : pyfloat) (y_min y_max anchor_alt : Z) (anchor_temp : pyfloat)
  (rp : list (Z * pyfloat)) (stations : list (string * option pyfloat * option pyfloat))
  (ids : list string) (els : list svg) :
  plot_lines attempts cc cp lt title sub x_min x_max y_min y_max
             anchor_alt anchor_temp rp stations ids = Ok els ->
  exists obs_path dalr_path c x_ticks cy y_ticks y_lines x_lines circles marks,
    path_from true (x_to_svg x_min x_max) (y_to_svg y_min y_max)
      ((fun p : Z * pyfloat => (snd p, of_int (fst p))) <$> rp) = Ok obs_path /\
    path_from true (x_to_svg x_min x_max) (y_to_svg y_min y_max)
      ((fun p : Z * pyfloat =>
          (dalr_temp anchor_alt anchor_temp (fst p), of_int (fst p))) <$> rp)
      = Ok dalr_path /\
    math_ceil (fdiv x_min (of_int (x_step_of (fsub x_max x_min)))) = Ok c /\
    ticks (c * x_step_of (fsub x_max x_min)) (x_step_of (fsub x_max x_min)) x_max
      = Ok x_ticks /\
    math_ceil (fdiv (of_int y_min) (of_int 200)) = Ok cy /\
    ticks (cy * 200) 200 (of_int y_max) = Ok y_ticks /\
    y_tick_lines (y_to_svg y_min y_max) y_ticks = Ok y_lines /\
    x_tick_lines (x_to_svg x_min x_max) x_ticks = Ok x_lines /\
    point_circles (x_to_svg x_min x_max) (y_to_svg y_min y_max) rp = Ok circles /\
    station_marks attempts (x_to_svg x_min x_max) (y_to_svg y_min y_max) stations []
      = Ok marks /\
    els = head_lines cc title sub ++ y_lines ++ x_lines ++ axis_lines
          ++ [Path "rass" obs_path; Path "dalr" dalr_path]
          ++ circles ++ marks ++ legend_lines lt ++ caption_lines cc cp ids
          ++ [SvgClose].
Proof.
  unfold plot_lines. intros H.
  apply bind_Ok in H. destruct H as (obs_path & H1 & H).
  apply bind_Ok in H. destruct H as (dalr_path & H2 & H).
  apply bind_Ok in H. destruct H as (c & H3 & H).
  apply bind_Ok in H. destruct H as (x_ticks & H4 & H).
  apply bind_Ok in H. destruct H as (cy & H5 & H).
  apply bind_Ok in H. destruct H as (y_ticks & H6 & H).
  apply bind_Ok in H. destruct H as (y_lines & H7 & H).
  apply bind_Ok in H. destruct H as (x_lines & H8 & H).
  apply bind_Ok in H. destruct H as (circles & H9 & H).
  apply bind_Ok in H. destruct H as (marks & H10 & H).
  apply Ok_inj in H.
  exists obs_path, dalr_path, c, x_ticks, cy, y_ticks, y_lines, x_lines, circles, marks.
  repeat (split; [assumption|]). symmetry. exact H.
Qed.

(** What [draw_chart] and [draw_svg] hand to [plot_lines]. *)
Lemma draw_chart_inv (rp : list (Z * pyfloat)) (sts : list row)
  (obs_dt : option string) (rass_file : string) (els : list svg) :
  draw_chart rp sts obs_dt rass_file = Ok els ->
  exists a t y_min y_max x_min x_max,
    index rp 0 = Ok (a, t) /\
    y_range rp (omap elev_m (station_valid sts)) = Ok (y_min, y_max) /\
    x_range (x_values a t rp (omap temp_c (station_valid sts))) = Ok (x_min, x_max) /\
    plot_lines 30 "missing" "No MADIS temp: " "MADIS station" (title_of obs_dt)
      ("RASS file: " ++ rass_file ++ " | MADIS: latest available per station")
      x_min x_max y_min y_max a t rp
      ((fun s => (id s, temp_c s, elev_m s)) <$> station_valid sts)
      (id <$> List.filter (fun s => is_none (temp_c s) || is_none (elev_m s)) sts)
    = Ok els.
Proof.
  unfold draw_chart. intros H.
  apply bind_Ok in H. destruct H as ([a t] & Ha & H).
  apply bind_Ok in H. destruct H as ([y_min y_max] & Hy & H).
  apply bind_Ok in H. destruct H as ([x_min x_max] & Hx & H).
  exists a, t, y_min, y_max, x_min, x_max. auto.
Qed.

Lemma draw_svg_inv (rp : list (Z * pyfloat)) (recent all : list row60)
  (rass_time : option string) (rass_file : string) (els : list svg) :
  draw_svg rp recent all rass_time rass_file = Ok els ->
  exists a t y_min y_max x_min x_max,
    index rp 0 = Ok (a, t) /\
    y_range60 rp (omap elev_m60 recent) = Ok (y_min, y_max) /\
    x_range60 (x_values a t rp (omap temp_c60 recent)) = Ok (x_min, x_max) /\
    plot_lines 25 "note" "Excluded: " "MADIS (<=60 min)" (title_of rass_time)
      ("RASS file: " ++ rass_file ++ " | MADIS stations: latest obs within last 60 min")
      x_min x_max y_min y_max a t rp
      ((fun r => (id60 r, temp_c60 r, elev_m60 r)) <$> recent)
      (id60 <$> List.filter (fun r => negb (recent60 r)) all)
    = Ok els.
Proof.
  unfold draw_svg. intros H.
  apply bind_Ok in H. destruct H as ([a t] & Ha & H).
  apply bind_Ok in H. destruct H as ([y_min y_max] & Hy & H).
  apply bind_Ok in H. destruct H as ([x_min x_max] & Hx & H).
  exists a, t, y_min, y_max, x_min, x_max. auto.
Qed.

(** ** The labels of the stations *)

Lemma clamp_label (v : pyfloat) :
  exists q,
    py_max (of_int (margin_top + 10)) [py_min (of_int (height - margin_bottom - 4)) [v]]
      = Fin q /\ 60 <= q /\ q <= 476.
Proof.
  unfold py_max, py_min, fgtb. cbn [fold_left].
  change (of_int (margin_top + 10)) with (Fin 60).
  change (of_int (height - margin_bottom - 4)) with (Fin 476).
  destruct v as [a| | |].
  - destruct (fltb (Fin a) (Fin 476)) eqn:E1.
    + apply fltb_Fin in E1. destruct (fltb (Fin 60) (Fin a)) eqn:E2.
      * apply fltb_Fin in E2. exists a. split; [reflexivity|]. lra.
      * exists 60. split; [reflexivity|]. lra.
    + exists 476. split; [reflexivity|]. lra.
  - exists 476. split; [reflexivity|]. lra.
  - exists 60. split; [reflexivity|]. lra.
  - exists 476. split; [reflexivity|]. lra.
Qed.

Lemma station_marks_labels (attempts : nat) (xf yf : pyfloat -> result pyfloat)
  (stations : list (string * option pyfloat * option pyfloat)) :
  forall used marks,
    station_marks attempts xf yf stations used = Ok marks ->
    forall c x y a b, Text c x y a b ∈ marks ->
      c = "station-label"%string /\
      (exists q, y = Fin q /\ 64 <= q /\ q <= 480) /\
      (forall qx sid, x = Fin qx -> a = Some "start"%string -> b = BStr sid ->
         qx + 6 * inject_Z (Z.of_nat (String.length sid)) + 2 <= 750).
Proof.
  induction stations as [|[[sid temp] elev] rest IH]; intros used marks H c x y a b Hin.
  - simpl in H. injection H as <-. inversion Hin.
  - cbn [station_marks] in H.
    apply bind_Ok in H. destruct H as (t & Ht & H).
    apply bind_Ok in H. destruct H as (x_px & Hx & H).
    apply bind_Ok in H. destruct H as (e & He & H).
    apply bind_Ok in H. destruct H as (y_px & Hy & H).
    apply bind_Ok in H. destruct H as (more & Hm & H).
    apply Ok_inj in H. subst marks.
    apply elem_of_cons in Hin. destruct Hin as [Hin|Hin]; [discriminate|].
    apply elem_of_cons in Hin. destruct Hin as [Hin|Hin]; [|eapply IH; eassumption].
    destruct (clamp_label (nudge attempts y_px used)) as (q & Hq & Hq1 & Hq2).
    rewrite Hq in Hin.
    assert (Hy' : exists q', fadd (Fin q) (of_int 4) = Fin q' /\ 64 <= q' /\ q' <= 480).
    { eexists. split; [reflexivity|]. change (inject_Z 4) with 4. lra. }
    destruct (fgtb (fadd (fadd x_px (of_int (6 * Z.of_nat (String.length sid)))) (of_int 8))
                   (of_int (width - margin_right))) eqn:Eg;
      injection Hin as -> -> -> -> ->.
    + split; [reflexivity|]. split; [exact Hy'|]. intros qx s _ Hs. discriminate.
    + split; [reflexivity|]. split; [exact Hy'|].
      intros qx s Hqx _ Hs. injection Hs as <-.
      destruct x_px as [p| | |]; try discriminate.
      simpl in Hqx. injection Hqx as <-.
      unfold fgtb in Eg. simpl in Eg. apply fltb_Fin_false in Eg.
      rewrite inject_Z_mult in Eg.
      change (inject_Z 6) with 6 in *. change (inject_Z 8) with 8 in Eg.
      change (inject_Z (width - margin_right)) with 750 in Eg. lra.
Qed.

Lemma mapM_concat_no_labels {A} (f : A -> result (list svg)) (l : list A)
  (ls : list (list svg)) :
  (forall x ys, f x = Ok ys -> Forall (fun e => is_station_label e = false) ys) ->
  mapM f l = Ok ls -> Forall (fun e => is_station_label e = false) (concat ls).
Proof.
  intros Hf Hm. apply Forall_concat. eapply mapM_Forall; [|exact Hm]. exact Hf.
Qed.

(** Outside the station loop no element is a station label. *)
Lemma plot_lines_labels (attempts : nat) (cc cp lt title sub : string)
  (x_min x_max : pyfloat) (y_min y_max anchor_alt : Z) (anchor_temp : pyfloat)
  (rp : list (Z * pyfloat)) (stations : list (string * option pyfloat * option pyfloat))
  (ids : list string) (els : list svg) :
  String.eqb cc "station-label" = false ->
  plot_lines attempts cc cp lt title sub x_min x_max y_min y_max
             anchor_alt anchor_temp rp stations ids = Ok els ->
  exists marks,
    station_marks attempts (x_to_svg x_min x_max) (y_to_svg y_min y_max) stations []
      = Ok marks /\
    forall e, e ∈ els -> is_station_label e = true -> e ∈ marks.
Proof.
  intros Hcc Hp.
  destruct (plot_lines_parts _ _ _ _ _ _ _ _ _ _ _ _ _ _ _ _ Hp)
    as (obs_path & dalr_path & c & x_ticks & cy & y_ticks & y_lines & x_lines & circles
        & marks & _ & _ & _ & _ & _ & _ & Hyl & Hxl & Hc & Hm & ->).
  exists marks. split; [exact Hm|].
  assert (Hno : forall part, Forall (fun e => is_station_label e = false) part ->
            forall e, e ∈ part -> is_station_label e = true -> False).
  { intros part Hpart e Hin He. rewrite Forall_forall in Hpart.
    rewrite (Hpart e Hin) in He. discriminate. }
  intros e Hin He.
  rewrite !elem_of_app in Hin.
  destruct Hin as [Hin|[Hin|[Hin|[Hin|[Hin|[Hin|[Hin|[Hin|[Hin|Hin]]]]]]]]];
    try exact Hin; exfalso; revert e Hin He; apply Hno.
  - unfold head_lines. repeat constructor.
  - unfold y_tick_lines in Hyl. apply bind_Ok in Hyl. destruct Hyl as (lls & Hmm & Hyl).
    apply Ok_inj in Hyl. subst y_lines.
    eapply mapM_concat_no_labels; [|exact Hmm]. intros y l Hl. simpl in Hl.
    apply bind_Ok in Hl. destruct Hl as (px & _ & Hl). apply Ok_inj in Hl. subst l.
    repeat constructor.
  - unfold x_tick_lines in Hxl. apply bind_Ok in Hxl. destruct Hxl as (lls & Hmm & Hxl).
    apply Ok_inj in Hxl. subst x_lines.
    eapply mapM_concat_no_labels; [|exact Hmm]. intros y l Hl. simpl in Hl.
    apply bind_Ok in Hl. destruct Hl as (px & _ & Hl). apply Ok_inj in Hl. subst l.
    repeat constructor.
  - unfold axis_lines. repeat constructor.
  - repeat constructor.
  - unfold point_circles in Hc. eapply mapM_Forall; [|exact Hc].
    intros p y Hl. simpl in Hl.
    apply bind_Ok in Hl. destruct Hl as (cx & _ & Hl).
    apply bind_Ok in Hl. destruct Hl as (cy' & _ & Hl). apply Ok_inj in Hl. subst y.
    reflexivity.
  - unfold legend_lines. repeat constructor.
  - unfold caption_lines. destruct ids; repeat constructor. simpl. exact Hcc.
  - repeat constructor.
Qed.

(** X14.  The label of a station stays inside the plot.  Its vertical
    position is clamped: whatever the elevation, the text sits between y = 64
    and y = 480.  A label that is anchored at its start ends, by the
    six-pixels-per-character estimate, at least two pixels before the right
    edge of the plot at x = 750; a longer one is anchored at its end instead. *)
Theorem station_labels_stay_inside (rp : list (Z * pyfloat)) (sts : list row)
  (recent all : list row60) (obs_dt : option string) (rass_file : string)
  (els : list svg) :
  draw_chart rp sts obs_dt rass_file = Ok els \/
  draw_svg rp recent all obs_dt rass_file = Ok els ->
  forall x y a b, Text "station-label" x y a b ∈ els ->
    (exists q, y = Fin q /\ 64 <= q /\ q <= 480) /\
    (forall qx sid, x = Fin qx -> a = Some "start"%string -> b = BStr sid ->
       qx + 6 * inject_Z (Z.of_nat (String.length sid)) + 2 <= 750).
Proof.
  intros Hd x y a b Hin.
  assert (Hm : exists attempts xf yf stations marks,
            station_marks attempts xf yf stations [] = Ok marks /\
            Text "station-label" x y a b ∈ marks).
  { destruct Hd as [Hd|Hd].
    - destruct (draw_chart_inv _ _ _ _ _ Hd) as (a0 & t & y0 & y1 & x0 & x1 & _ & _ & _ & Hp).
      destruct (plot_lines_labels 30 "missing" _ _ _ _ _ _ _ _ _ _ _ _ _ _ eq_refl Hp)
        as (marks & Hm & Hl).
      do 4 eexists. exists marks. split; [exact Hm|]. apply Hl; [exact Hin|reflexivity].
    - destruct (draw_svg_inv _ _ _ _ _ _ Hd) as (a0 & t & y0 & y1 & x0 & x1 & _ & _ & _ & Hp).
      destruct (plot_lines_labels 25 "note" _ _ _ _ _ _ _ _ _ _ _ _ _ _ eq_refl Hp)
        as (marks & Hm & Hl).
      do 4 eexists. exists marks. split; [exact Hm|]. apply Hl; [exact Hin|reflexivity]. }
  destruct Hm as (attempts & xf & yf & stations & marks & Hm & Hl).
  destruct (station_marks_labels _ _ _ _ _ _ Hm _ _ _ _ _ Hl) as (_ & H1 & H2).
  split; assumption.
Qed.

Lemma station_labels_stay_inside_witness :
  exists els x y,
    draw_chart Sample.profile Sample.stations None "sba24122.01t" = Ok els /\
    Text "station-label" x y (Some "start"%string) (BStr "KSBA") ∈ els /\
    exists q, y = Fin q /\ 64 <= q /\ q <= 480.
Proof.
  assert (E : exists els x y,
            draw_chart Sample.profile Sample.stations None "sba24122.01t" = Ok els /\
            Text "station-label" x y (Some "start"%string) (BStr "KSBA") ∈ els).
  { vm_compute. do 3 eexists. split; [reflexivity|].
    repeat (first [apply list_elem_of_here|apply list_elem_of_further]). }
  destruct E as (els & x & y & Hd & Hin).
  exists els, x, y. split; [exact Hd|]. split; [exact Hin|].
  apply (station_labels_stay_inside Sample.profile Sample.stations [] [] None
           "sba24122.01t" els (or_introl Hd) x y _ _ Hin).
Defined.

(** ** The label loop *)

Lemma forallb_false {A} (f : A -> bool) (l : list A) :
  forallb f l = false -> exists x, x ∈ l /\ f x = false.
Proof.
  induction l as [|x l IH]; simpl; [discriminate|].
  destruct (f x) eqn:E; simpl.
  - intros Hl. destruct (IH Hl) as (z & Hz & Hf). exists z. split; [right; exact Hz|exact Hf].
  - intros _. exists x. split; [left|exact E].
Qed.

(** The count of the earlier labels above a height falls as the height
    rises. *)
Lemma count_above_mono (used : list Q) (c1 c2 : Q) :
  c1 <= c2 ->
  (length (List.filter (fun p => negb (Qle_bool p c2)) used) <=
   length (List.filter (fun p => negb (Qle_bool p c1)) used))%nat.
Proof.
  intros Hc. induction used as [|p used IH]; simpl; [lia|].
  destruct (Qle_bool p c2) eqn:E2, (Qle_bool p c1) eqn:E1; simpl; try lia.
  exfalso. apply Qle_bool_iff in E1.
  assert (Hle : p <= c2) by lra. apply Qle_bool_iff in Hle. congruence.
Qed.

Lemma count_above_strict (used : list Q) (c1 c2 p : Q) :
  c1 <= c2 -> p ∈ used -> c1 < p -> p <= c2 ->
  (length (List.filter (fun p => negb (Qle_bool p c2)) used) <
   length (List.filter (fun p => negb (Qle_bool p c1)) used))%nat.
Proof.
  intros Hc Hin H1 H2. induction used as [|x used IH]; [inversion Hin|].
  pose proof (count_above_mono used c1 c2 Hc) as Hm. simpl.
  apply elem_of_cons in Hin. destruct Hin as [<-|Hin].
  - apply Qle_bool_iff in H2. rewrite H2.
    destruct (Qle_bool p c1) eqn:E1; simpl; [|lia].
    apply Qle_bool_iff in E1. exfalso. lra.
  - specialize (IH Hin).
    destruct (Qle_bool x c2) eqn:E2, (Qle_bool x c1) eqn:E1; simpl; try lia.
    exfalso. apply Qle_bool_iff in E1.
    assert (Hle : x <= c2) by lra. apply Qle_bool_iff in Hle. congruence.
Qed.

Lemma nudge_steps (used : list Q) :
  forall attempts y,
    (length (List.filter (fun p => negb (Qle_bool p (y - 12))) used) +
     length (List.filter (fun p => negb (Qle_bool p y)) used) < attempts)%nat ->
    exists y' k,
      nudge attempts (Fin y) (Fin <$> used) = Fin y' /\
      (k <= length (List.filter (fun p => negb (Qle_bool p (y - 12))) used) +
            length (List.filter (fun p => negb (Qle_bool p y)) used))%nat /\
      y' == y + 12 * inject_Z (Z.of_nat k) /\
      forall p, p ∈ used -> 12 <= Qabs (y' - p).
Proof.
  induction attempts as [|n IH]; intros y Hphi; [lia|].
  cbn [nudge].
  destruct (forallb (fun prev => fgeb (fabs (fsub (Fin y) prev)) (of_int 12)) (Fin <$> used))
    eqn:Eall.
  - exists y, 0%nat. split; [reflexivity|]. split; [lia|].
    split; [change (inject_Z (Z.of_nat 0)) with 0; lra|].
    intros p Hp. rewrite forallb_forall in Eall.
    specialize (Eall (Fin p)).
    change (fgeb (fabs (fsub (Fin y) (Fin p))) (of_int 12))
      with (Qle_bool 12 (Qabs (y - p))) in Eall.
    apply Qle_bool_iff. apply Eall. apply list_elem_of_In.
    apply list_elem_of_fmap. exists p. auto.
  - apply forallb_false in Eall. destruct Eall as (x & Hx & Hf).
    apply list_elem_of_fmap in Hx. destruct Hx as (p & -> & Hp).
    change (fgeb (fabs (fsub (Fin y) (Fin p))) (of_int 12))
      with (Qle_bool 12 (Qabs (y + - p))) in Hf.
    assert (Hlt : Qabs (y + - p) < 12).
    { destruct (Qlt_le_dec (Qabs (y + - p)) 12) as [Hl|Hg]; [exact Hl|].
      apply Qle_bool_iff in Hg. congruence. }
    apply Qabs_Qlt_condition in Hlt. destruct Hlt as [Hl1 Hl2].
    pose proof (count_above_strict used (y - 12) (y + inject_Z 12) p) as Hs.
    change (inject_Z 12) with 12 in *.
    assert (Hs' := Hs ltac:(lra) Hp ltac:(lra) ltac:(lra)). clear Hs.
    pose proof (count_above_mono used (y + 12 - 12) y ltac:(lra)) as Hm1.
    pose proof (count_above_mono used y (y + 12 - 12) ltac:(lra)) as Hm2.
    destruct (IH (y + 12)) as (y' & k & Hn & Hk & Hy & Hall); [lia|].
    exists y', (S k). split; [exact Hn|]. split; [lia|]. split; [|exact Hall].
    rewrite Hy. rewrite Nat2Z.inj_succ, <- Z.add_1_r, inject_Z_plus.
    change (inject_Z 1) with 1. lra.
Qed.

(** X15.  The label loop keeps labels apart.  When fewer than half as many
    labels were placed before as there are attempts (the charts have at most
    8 stations and 30 or 25 attempts), the loop ends on a position that is at
    least 12 away from every earlier label, reached by moving down in steps
    of 12, at most two steps per earlier label. *)
Theorem nudge_separates (attempts : nat) (y : Q) (used : list Q) :
  (2 * length used < attempts)%nat ->
  exists y' k,
    nudge attempts (Fin y) (Fin <$> used) = Fin y' /\
    (k <= 2 * length used)%nat /\
    y' == y + 12 * inject_Z (Z.of_nat k) /\
    forall p, p ∈ used -> 12 <= Qabs (y' - p).
Proof.
  intros Hlen.
  pose proof (List.filter_length_le (fun p => negb (Qle_bool p (y - 12))) used) as H1.
  pose proof (List.filter_length_le (fun p => negb (Qle_bool p y)) used) as H2.
  destruct (nudge_steps used attempts y) as (y' & k & Hn & Hk & Hy & Hall); [lia|].
  exists y', k. split; [exact Hn|]. split; [lia|]. split; assumption.
Qed.

Lemma nudge_separates_witness :
  exists y' k,
    nudge 25 (Fin 100) (Fin <$> [95; 110; 124]) = Fin y' /\
    (k <= 6)%nat /\ y' == 100 + 12 * inject_Z (Z.of_nat k) /\
    forall p, p ∈ [95; 110; 124] -> 12 <= Qabs (y' - p).
Proof.
  apply (nudge_separates 25 100 [95; 110; 124]). simpl. lia.
Defined.

(** ** Everything is drawn inside the plot *)

Lemma frac_bounds (lo hi v : Q) :
  lo <= v -> v <= hi -> lo < hi ->
  0 <= (v + - lo) / (hi - lo) /\ (v + - lo) / (hi - lo) <= 1.
Proof.
  intros H1 H2 H3. split.
  - apply Qle_shift_div_l; lra.
  - apply Qle_shift_div_r; lra.
Qed.

Lemma x_map_range (lo hi v : Q) :
  lo <= v -> v <= hi -> lo < hi ->
  exists px, x_to_svg (Fin lo) (Fin hi) (Fin v) = Ok (Fin px) /\
             inject_Z margin_left <= px /\ px <= inject_Z (width - margin_right).
Proof.
  intros H1 H2 H3. rewrite x_to_svg_ok by lra.
  destruct (frac_bounds lo hi v H1 H2 H3) as [F0 F1].
  eexists. split; [reflexivity|].
  change (inject_Z margin_left) with 90. change (inject_Z plot_w) with 660.
  change (inject_Z (width - margin_right)) with 750.
  set (f := (v + - lo) / (hi - lo)) in *. split; nra.
Qed.

Lemma y_map_range (y_min y_max : Z) (a : Q) :
  inject_Z y_min <= a -> a <= inject_Z y_max -> (y_min < y_max)%Z ->
  exists py, y_to_svg y_min y_max (Fin a) = Ok (Fin py) /\
             inject_Z margin_top <= py /\ py <= inject_Z (height - margin_bottom).
Proof.
  intros H1 H2 H3. rewrite y_to_svg_ok by lia.
  assert (Hlt : inject_Z y_min < inject_Z y_max) by (rewrite <- Zlt_Qlt; exact H3).
  assert (F : 0 <= (inject_Z y_max + - a) / inject_Z (y_max - y_min) /\
              (inject_Z y_max + - a) / inject_Z (y_max - y_min) <= 1).
  { unfold Z.sub. rewrite inject_Z_plus, inject_Z_opp. split.
    - apply Qle_shift_div_l; lra.
    - apply Qle_shift_div_r; lra. }
  destruct F as [F0 F1].
  eexists. split; [reflexivity|].
  change (inject_Z margin_top) with 50. change (inject_Z plot_h) with 430.
  change (inject_Z (height - margin_bottom)) with 480.
  set (f := (inject_Z y_max + - a) / inject_Z (y_max - y_min)) in *. split; nra.
Qed.

(** The horizontal range holds every value it was computed from. *)
Lemma x_range_covers (vals : list pyfloat) :
  vals <> [] -> all_finite vals ->
  exists lo hi,
    x_range vals = Ok (Fin lo, Fin hi) /\ x_range60 vals = Ok (Fin lo, Fin hi) /\
    lo < hi /\ forall v, v ∈ vals -> lo <= qval v /\ qval v <= hi.
Proof.
  intros Hne Hfin.
  destruct (finite_has_min vals Hne Hfin) as [m Hm].
  destruct (finite_has_max vals Hne Hfin) as [M HM].
  destruct (x_ranges_finite vals m M Hfin Hm HM) as (lo & hi & H1 & H2 & Hlo & Hhi & HmM).
  exists lo, hi. split; [exact H1|]. split; [exact H2|]. split; [lra|].
  intros v Hv. destruct Hm as [_ Hm]. destruct HM as [_ HM].
  specialize (Hm v Hv). specialize (HM v Hv). lra.
Qed.

Lemma within_ends_profile (rp : list (Z * pyfloat)) : within_ends rp -> is_profile rp.
Proof.
  intros (first & last_ & Hh & Hl & Hall). exists first, last_.
  split; [exact Hh|]. split; [exact Hl|].
  rewrite Forall_forall in Hall.
  assert (Hin : first ∈ rp) by (rewrite head_lookup in Hh; eapply list_elem_of_lookup_2, Hh).
  specialize (Hall first Hin). lia.
Qed.

(** The vertical range of [draw_chart] holds the altitudes of the profile and
    the elevations of the stations. *)
Lemma y_range_covers (rp : list (Z * pyfloat)) (station_alts : list pyfloat) :
  within_ends rp -> all_finite station_alts ->
  exists y_min y_max,
    y_range rp station_alts = Ok (y_min, y_max) /\ (y_min < y_max)%Z /\
    (forall p, p ∈ rp -> (y_min <= fst p <= y_max)%Z) /\
    (forall e, e ∈ station_alts -> inject_Z y_min <= qval e /\ qval e <= inject_Z y_max).
Proof.
  intros (first & last_ & Hh & Hl & Hall) Hfin.
  unfold y_range, index, index_last. rewrite <- head_lookup, Hh, Hl. cbn [Py.bind].
  assert (E0 : match station_alts with
               | [] => py_min (of_int (fst first)) [Fin 0]
               | _ :: _ => py_min (of_int (fst first)) (Fin 0 :: station_alts)
               end = py_min (of_int (fst first)) (Fin 0 :: station_alts))
    by (destruct station_alts; reflexivity).
  assert (E1 : match station_alts with
               | [] => of_int (fst last_)
               | _ :: _ => py_max (of_int (fst last_)) station_alts
               end = py_max (of_int (fst last_)) station_alts)
    by (destruct station_alts; reflexivity).
  rewrite E0, E1. clear E0 E1.
  destruct (py_min_finite (Fin 0 :: station_alts) (of_int (fst first)))
    as (q0 & Hq0 & _ & Hle0).
  { apply all_finite_cons. split; [reflexivity|].
    apply all_finite_cons. split; [reflexivity|exact Hfin]. }
  destruct (py_max_finite station_alts (of_int (fst last_)))
    as (q1 & Hq1 & _ & Hle1).
  { apply all_finite_cons. split; [reflexivity|exact Hfin]. }
  rewrite Hq0, Hq1, floor100_Fin, ceil100_Fin. cbn [Py.bind].
  assert (H0 : q0 <= inject_Z (fst first)) by (apply (Hle0 (of_int (fst first))); left).
  assert (H1 : inject_Z (fst last_) <= q1) by (apply (Hle1 (of_int (fst last_))); left).
  pose proof (floor100_le q0) as F. pose proof (ceil100_ge q1) as C.
  set (lo := (Qfloor (q0 / 100) * 100)%Z) in *.
  set (hi := (Qceiling (q1 / 100) * 100)%Z) in *.
  assert (Hfl : (fst first <= fst last_)%Z).
  { rewrite Forall_forall in Hall.
    assert (Hin : first ∈ rp)
      by (rewrite head_lookup in Hh; eapply list_elem_of_lookup_2, Hh).
    specialize (Hall first Hin). lia. }
  assert (Hlo : (lo <= fst first)%Z) by (rewrite Zle_Qle; lra).
  assert (Hhi : (fst last_ <= hi)%Z) by (rewrite Zle_Qle; lra).
  eexists. eexists. split; [reflexivity|].
  assert (Hup : (hi <= (if (hi =? lo)%Z then hi + 100 else hi))%Z)
    by (destruct (hi =? lo)%Z; lia).
  split; [destruct (Z.eqb_spec hi lo); lia|]. split.
  - intros p Hp. rewrite Forall_forall in Hall. specialize (Hall p Hp). lia.
  - intros e He.
    assert (A : q0 <= qval e) by (apply Hle0; right; right; exact He).
    assert (B : qval e <= q1) by (apply Hle1; right; exact He).
    rewrite Zle_Qle in Hup. split; lra.
Qed.

(** The same for [draw_svg], whose range starts at zero when no station is
    recent: there the profile must not start below zero. *)
Lemma y_range60_covers (rp : list (Z * pyfloat)) (station_alts : list pyfloat) :
  within_ends rp -> all_finite station_alts ->
  (station_alts = [] -> forall p, p ∈ rp -> (0 <= fst p)%Z) ->
  exists y_min y_max,
    y_range60 rp station_alts = Ok (y_min, y_max) /\ (y_min < y_max)%Z /\
    (forall p, p ∈ rp -> (y_min <= fst p <= y_max)%Z) /\
    (forall e, e ∈ station_alts -> inject_Z y_min <= qval e /\ qval e <= inject_Z y_max).
Proof.
  intros (first & last_ & Hh & Hl & Hall) Hfin Hzero.
  unfold y_range60, index, index_last. rewrite <- head_lookup, Hh, Hl. cbn [Py.bind].
  rewrite Forall_forall in Hall.
  assert (Hfl : (fst first <= fst last_)%Z).
  { assert (Hin : first ∈ rp)
      by (rewrite head_lookup in Hh; eapply list_elem_of_lookup_2, Hh).
    specialize (Hall first Hin). lia. }
  destruct station_alts as [|s alts].
  - cbn [Py.bind]. eexists. eexists. split; [reflexivity|].
    assert (Hpos : forall p, p ∈ rp -> (0 <= fst p)%Z) by (apply Hzero; reflexivity).
    split; [destruct (Z.leb_spec (fst last_) 0); lia|]. split.
    + intros p Hp. specialize (Hall p Hp). specialize (Hpos p Hp).
      destruct (Z.leb_spec (fst last_) 0); lia.
    + intros e He. inversion He.
  - destruct (py_min_finite (of_int (fst first) :: s :: alts) (Fin 0))
      as (q0 & Hq0 & _ & Hle0).
    { apply all_finite_cons. split; [reflexivity|].
      apply all_finite_cons. split; [reflexivity|exact Hfin]. }
    destruct (py_max_finite (s :: alts) (of_int (fst last_)))
      as (q1 & Hq1 & _ & Hle1).
    { apply all_finite_cons. split; [reflexivity|exact Hfin]. }
    rewrite Hq0, Hq1, floor100_Fin, ceil100_Fin. cbn [Py.bind].
    assert (H0 : q0 <= inject_Z (fst first))
      by (apply (Hle0 (of_int (fst first))); right; left).
    assert (H1 : inject_Z (fst last_) <= q1) by (apply (Hle1 (of_int (fst last_))); left).
    pose proof (floor100_le q0) as F. pose proof (ceil100_ge q1) as C.
    set (lo := (Qfloor (q0 / 100) * 100)%Z) in *.
    set (hi := (Qceiling (q1 / 100) * 100)%Z) in *.
    assert (Hlo : (lo <= fst first)%Z) by (rewrite Zle_Qle; lra).
    assert (Hhi : (fst last_ <= hi)%Z) by (rewrite Zle_Qle; lra).
    eexists. eexists. split; [reflexivity|].
    assert (Hup : (hi <= (if (hi <=? lo)%Z then lo + 100 else hi))%Z)
      by (destruct (Z.leb_spec hi lo); lia).
    split; [destruct (Z.leb_spec hi lo); lia|]. split.
    + intros p Hp. specialize (Hall p Hp). lia.
    + intros e He.
      assert (A : q0 <= qval e) by (apply Hle0; right; right; exact He).
      assert (B : qval e <= q1) by (apply Hle1; right; exact He).
      rewrite Zle_Qle in Hup. split; lra.
Qed.

(** The dots of a chart are those of the profile points. *)
Lemma point_circles_elem (xf yf : pyfloat -> result pyfloat) (rp : list (Z * pyfloat))
  (circles : list svg) :
  point_circles xf yf rp = Ok circles ->
  forall e, e ∈ circles ->
    exists p cx cy, p ∈ rp /\ xf (snd p) = Ok cx /\ yf (of_int (fst p)) = Ok cy /\
                    e = Circle "rass-point" cx cy (of_int 2).
Proof.
  unfold point_circles. intros Hm. apply mapM_Forall2 in Hm.
  induction Hm as [|p c rp' circles' Hf _ IH]; intros e Hin; [inversion Hin|].
  apply elem_of_cons in Hin. destruct Hin as [->|Hin].
  - apply bind_Ok in Hf. destruct Hf as (cx & Hx & Hf).
    apply bind_Ok in Hf. destruct Hf as (cy & Hy & Hf). apply Ok_inj in Hf.
    exists p, cx, cy. split; [left|]. auto.
  - destruct (IH e Hin) as (q & cx & cy & Hq & P). exists q, cx, cy.
    split; [right; exact Hq|exact P].
Qed.

(** The squares of the station loop are those of its stations. *)
Lemma station_marks_squares (attempts : nat) (xf yf : pyfloat -> result pyfloat)
  (stations : list (string * option pyfloat * option pyfloat)) :
  forall used marks,
    station_marks attempts xf yf stations used = Ok marks ->
    Forall (fun e => is_circle e = false) marks /\
    forall c x y w h, Rect c x y w h ∈ marks ->
      exists sid t e x_px y_px,
        (sid, Some t, Some e) ∈ stations /\ xf t = Ok x_px /\ yf e = Ok y_px /\
        x = fsub x_px (of_int 3) /\ y = fsub y_px (of_int 3).
Proof.
  induction stations as [|[[sid temp] elev] rest IH]; intros used marks H.
  - simpl in H. injection H as <-. split; [constructor|]. intros ? ? ? ? ? Hin. inversion Hin.
  - cbn [station_marks] in H.
    apply bind_Ok in H. destruct H as (t & Ht & H).
    apply bind_Ok in H. destruct H as (x_px & Hx & H).
    apply bind_Ok in H. destruct H as (e & He & H).
    apply bind_Ok in H. destruct H as (y_px & Hy & H).
    apply bind_Ok in H. destruct H as (more & Hm & H).
    apply Ok_inj in H. subst marks.
    destruct temp as [t'|]; [|discriminate]. injection Ht as ->.
    destruct elev as [e'|]; [|discriminate]. injection He as ->.
    destruct (IH _ _ Hm) as [C1 C2]. split.
    + constructor; [reflexivity|]. constructor; [|exact C1].
      match goal with |- context [if ?c then _ else _] => destruct c end; reflexivity.
    + intros c x y w h Hin. apply elem_of_cons in Hin. destruct Hin as [Hin|Hin].
      * injection Hin as -> -> -> -> ->. exists sid, t, e, x_px, y_px.
        split; [left|]. auto.
      * apply elem_of_cons in Hin. destruct Hin as [Hin|Hin].
        -- match type of Hin with context [if ?c then _ else _] => destruct c end;
             discriminate.
        -- destruct (C2 _ _ _ _ _ Hin) as (s1 & t1 & e1 & x1 & y1 & P1 & P2).
           exists s1, t1, e1, x1, y1. split; [right; exact P1|exact P2].
Qed.

(** Where the dots and the station squares of a chart come from. *)
Lemma plot_lines_marks (attempts : nat) (cc cp lt title sub : string)
  (x_min x_max : pyfloat) (y_min y_max anchor_alt : Z) (anchor_temp : pyfloat)
  (rp : list (Z * pyfloat)) (stations : list (string * option pyfloat * option pyfloat))
  (ids : list string) (els : list svg) :
  plot_lines attempts cc cp lt title sub x_min x_max y_min y_max
             anchor_alt anchor_temp rp stations ids = Ok els ->
  (forall e, e ∈ els -> is_circle e = true ->
     exists p cx cy,
       p ∈ rp /\ x_to_svg x_min x_max (snd p) = Ok cx /\
       y_to_svg y_min y_max (of_int (fst p)) = Ok cy /\
       e = Circle "rass-point" cx cy (of_int 2)) /\
  (forall e, e ∈ els -> is_station_square e = true ->
     e = legend_square \/
     exists sid t el x_px y_px,
       (sid, Some t, Some el) ∈ stations /\
       x_to_svg x_min x_max t = Ok x_px /\ y_to_svg y_min y_max el = Ok y_px /\
       e = Rect "station" (fsub x_px (of_int 3)) (fsub y_px (of_int 3))
                (of_int 6) (of_int 6)).
Proof.
  intros Hp.
  destruct (plot_lines_parts _ _ _ _ _ _ _ _ _ _ _ _ _ _ _ _ Hp)
    as (obs_path & dalr_path & c & x_ticks & cy & y_ticks & y_lines & x_lines & circles
        & marks & _ & _ & _ & _ & _ & _ & Hyl & Hxl & Hc & Hm & ->).
  destruct (station_marks_squares _ _ _ _ _ _ Hm) as [Mc Ms].
  pose proof (y_tick_lines_plain _ _ _ Hyl) as Py.
  pose proof (x_tick_lines_plain _ _ _ Hxl) as Px.
  pose proof (point_circles_plain _ _ _ _ Hc) as Pc.
  pose proof (head_lines_plain cc title sub) as Ph.
  pose proof axis_lines_plain as Pa.
  pose proof (caption_lines_plain cc cp ids) as Pcap.
  assert (Hnoc : forall part, Forall (fun e => is_circle e = false) part ->
            forall e, e ∈ part -> is_circle e = true -> False).
  { intros part Hpart e Hin He. rewrite Forall_forall in Hpart.
    rewrite (Hpart e Hin) in He. discriminate. }
  assert (Hnos : forall part, Forall plain part ->
            forall e, e ∈ part -> is_station_square e = true -> False).
  { intros part Hpart e Hin He. rewrite Forall_forall in Hpart.
    destruct (Hpart e Hin) as [_ Hs]. rewrite Hs in He. discriminate. }
  split.
  - intros e Hin He. rewrite !elem_of_app in Hin.
    destruct Hin as [Hin|[Hin|[Hin|[Hin|[Hin|[Hin|[Hin|[Hin|[Hin|Hin]]]]]]]]];
      try (exact (point_circles_elem _ _ _ _ Hc e Hin));
      exfalso; revert e Hin He; apply Hnoc.
    + unfold head_lines. repeat constructor.
    + unfold y_tick_lines in Hyl. apply bind_Ok in Hyl. destruct Hyl as (lls & Hmm & Hyl).
      apply Ok_inj in Hyl. subst y_lines. apply Forall_concat.
      eapply mapM_Forall; [|exact Hmm]. intros y l Hl. simpl in Hl.
      apply bind_Ok in Hl. destruct Hl as (px & _ & Hl). apply Ok_inj in Hl. subst l.
      repeat constructor.
    + unfold x_tick_lines in Hxl. apply bind_Ok in Hxl. destruct Hxl as (lls & Hmm & Hxl).
      apply Ok_inj in Hxl. subst x_lines. apply Forall_concat.
      eapply mapM_Forall; [|exact Hmm]. intros y l Hl. simpl in Hl.
      apply bind_Ok in Hl. destruct Hl as (px & _ & Hl). apply Ok_inj in Hl. subst l.
      repeat constructor.
    + unfold axis_lines. repeat constructor.
    + repeat constructor.
    + exact Mc.
    + unfold legend_lines. repeat constructor.
    + unfold caption_lines. destruct ids; repeat constructor.
    + repeat constructor.
  - intros e Hin He. rewrite !elem_of_app in Hin.
    destruct Hin as [Hin|[Hin|[Hin|[Hin|[Hin|[Hin|[Hin|[Hin|[Hin|Hin]]]]]]]]].
    + exfalso. exact (Hnos _ Ph e Hin He).
    + exfalso. exact (Hnos _ Py e Hin He).
    + exfalso. exact (Hnos _ Px e Hin He).
    + exfalso. exact (Hnos _ Pa e Hin He).
    + exfalso. repeat (apply elem_of_cons in Hin; destruct Hin as [->|Hin]);
        try discriminate. inversion Hin.
    + exfalso. exact (Hnos _ Pc e Hin He).
    + right. destruct e; try discriminate. simpl in He. apply String.eqb_eq in He. subst cls.
      destruct (Ms _ _ _ _ _ Hin) as (sid & t & el & x_px & y_px & P1 & P2 & P3 & -> & ->).
      exists sid, t, el, x_px, y_px. do 3 (split; [assumption|]).
      (* the width and the height of a station square *)
      clear - Hm Hin. revert Hm Hin. generalize (@nil pyfloat).
      revert marks. induction stations as [|[[s0 t0] e0] rest IH]; intros marks used Hm Hin.
      * simpl in Hm. injection Hm as <-. inversion Hin.
      * cbn [station_marks] in Hm.
        apply bind_Ok in Hm. destruct Hm as (t1 & Ht & Hm).
        apply bind_Ok in Hm. destruct Hm as (x1 & Hx & Hm).
        apply bind_Ok in Hm. destruct Hm as (e1 & He & Hm).
        apply bind_Ok in Hm. destruct Hm as (y1 & Hy & Hm).
        apply bind_Ok in Hm. destruct Hm as (more & Hmore & Hm).
        apply Ok_inj in Hm. subst marks.
        apply elem_of_cons in Hin. destruct Hin as [Hin|Hin].
        -- injection Hin as _ _ -> ->. reflexivity.
        -- apply elem_of_cons in Hin. destruct Hin as [Hin|Hin].
           ++ match type of Hin with context [if ?c then _ else _] => destruct c end;
                discriminate.
           ++ eapply IH; eassumption.
    + left. unfold legend_lines in Hin.
      repeat (apply elem_of_cons in Hin; destruct Hin as [->|Hin]);
        try discriminate; [reflexivity|inversion Hin].
    + exfalso. exact (Hnos _ Pcap e Hin He).
    + exfalso. apply list_elem_of_singleton in Hin. subst e. discriminate.
Qed.

Lemma plot_lines_inside (attempts : nat) (cc cp lt title sub : string)
  (lo hi : Q) (y_min y_max anchor_alt : Z) (anchor_temp : pyfloat)
  (rp : list (Z * pyfloat)) (stations : list (string * option pyfloat * option pyfloat))
  (ids : list string) (els : list svg) :
  plot_lines attempts cc cp lt title sub (Fin lo) (Fin hi) y_min y_max
             anchor_alt anchor_temp rp stations ids = Ok els ->
  lo < hi -> (y_min < y_max)%Z ->
  (forall p, p ∈ rp ->
     exists v, snd p = Fin v /\ lo <= v /\ v <= hi /\ (y_min <= fst p <= y_max)%Z) ->
  (forall sid tc el, (sid, Some tc, Some el) ∈ stations ->
     exists qt qe, tc = Fin qt /\ el = Fin qe /\ lo <= qt /\ qt <= hi /\
                   inject_Z y_min <= qe /\ qe <= inject_Z y_max) ->
  (forall c cx cy r, Circle c cx cy r ∈ els -> inside_plot cx cy) /\
  (forall x y w h, Rect "station" x y w h ∈ els ->
     Rect "station" x y w h = legend_square \/
     inside_plot (fadd x (of_int 3)) (fadd y (of_int 3))).
Proof.
  intros Hp Hx Hy Hrp Hst.
  destruct (plot_lines_marks _ _ _ _ _ _ _ _ _ _ _ _ _ _ _ _ Hp) as [Hc Hs].
  split.
  - intros c cx cy r Hin.
    destruct (Hc _ Hin eq_refl) as (p & cx' & cy' & Hpin & Hcx & Hcy & E).
    injection E as _ -> -> _.
    destruct (Hrp p Hpin) as (v & Hv & V1 & V2 & V3).
    rewrite Hv in Hcx.
    destruct (x_map_range lo hi v V1 V2 Hx) as (px & Epx & X1 & X2).
    rewrite Epx in Hcx. apply Ok_inj in Hcx. subst cx'.
    destruct (y_map_range y_min y_max (inject_Z (fst p))) as (py & Epy & Y1 & Y2);
      [rewrite <- Zle_Qle; lia|rewrite <- Zle_Qle; lia|exact Hy|].
    unfold of_int in Hcy. rewrite Epy in Hcy. apply Ok_inj in Hcy. subst cy'.
    exists px, py. auto 10.
  - intros x y w h Hin.
    destruct (Hs _ Hin eq_refl) as [E|(sid & t & el & x_px & y_px & Hsin & Hxp & Hyp & E)];
      [left; exact E|right].
    injection E as -> -> _ _.
    destruct (Hst _ _ _ Hsin) as (qt & qe & -> & -> & T1 & T2 & E1 & E2).
    destruct (x_map_range lo hi qt T1 T2 Hx) as (px & Epx & X1 & X2).
    rewrite Epx in Hxp. apply Ok_inj in Hxp. subst x_px.
    destruct (y_map_range y_min y_max qe E1 E2 Hy) as (py & Epy & Y1 & Y2).
    rewrite Epy in Hyp. apply Ok_inj in Hyp. subst y_px.
    eexists. eexists. split; [reflexivity|]. split; [reflexivity|].
    change (inject_Z 3) with 3. repeat split; lra.
Qed.

Lemma profile_values_covered (a : Z) (t : pyfloat) (rp : list (Z * pyfloat))
  (temps : list pyfloat) (lo hi : Q) (y_min y_max : Z) :
  finite_temps rp ->
  (forall v, v ∈ x_values a t rp temps -> lo <= qval v /\ qval v <= hi) ->
  (forall p, p ∈ rp -> (y_min <= fst p <= y_max)%Z) ->
  forall p, p ∈ rp ->
    exists v, snd p = Fin v /\ lo <= v /\ v <= hi /\ (y_min <= fst p <= y_max)%Z.
Proof.
  intros Hft Hv Hy p Hp.
  unfold finite_temps in Hft. rewrite Forall_forall in Hft.
  destruct (is_finite_Fin _ (Hft p Hp)) as [v Ev].
  exists v. split; [exact Ev|].
  assert (Hin : snd p ∈ x_values a t rp temps).
  { apply x_values_union. left. exists (fst p). destruct p. exact Hp. }
  specialize (Hv _ Hin). rewrite Ev in Hv. simpl in Hv.
  split; [tauto|]. split; [tauto|]. apply Hy, Hp.
Qed.

(** X16.  The latest chart draws inside its plot.  For a profile whose
    altitudes lie between its first and its last one, with finite
    temperatures, and stations with finite values, every dot of a profile
    point lies inside the plot rectangle, and so does the centre of every
    station square except the one of the legend. *)
Theorem chart_stays_inside_plot (rp : list (Z * pyfloat)) (sts : list row)
  (obs_dt : option string) (rass_file : string) (els : list svg) :
  within_ends rp -> finite_temps rp ->
  Forall (fun s => finite_opt (elev_m s) /\ finite_opt (temp_c s)) sts ->
  draw_chart rp sts obs_dt rass_file = Ok els ->
  (forall c cx cy r, Circle c cx cy r ∈ els -> inside_plot cx cy) /\
  (forall x y w h, Rect "station" x y w h ∈ els ->
     Rect "station" x y w h = legend_square \/
     inside_plot (fadd x (of_int 3)) (fadd y (of_int 3))).
Proof.
  intros Hwe Hft Hs Hd.
  destruct (draw_chart_inv _ _ _ _ _ Hd) as (a & t & y0 & y1 & x0 & x1 & Ha & Hy & Hx & Hp).
  pose proof (within_ends_profile rp Hwe) as Hprof.
  destruct (profile_anchor rp Hprof Hft) as (a' & t' & Ha').
  rewrite Ha in Ha'. injection Ha' as -> ->.
  assert (Hne : rp <> []).
  { destruct Hprof as (f & _ & Hh & _). intros ->. discriminate. }
  assert (Hv : Forall (fun s => finite_opt (elev_m s) /\ finite_opt (temp_c s))
                      (station_valid sts))
    by (apply Forall_filter_keep, Hs).
  assert (Hfe : all_finite (omap elev_m (station_valid sts)))
    by (apply all_finite_omap; eapply Forall_impl; [exact Hv|]; simpl; tauto).
  assert (Hftc : all_finite (omap temp_c (station_valid sts)))
    by (apply all_finite_omap; eapply Forall_impl; [exact Hv|]; simpl; tauto).
  destruct (y_range_covers rp _ Hwe Hfe) as (ym & yM & Hy' & Hlt & Hyp & Hye).
  rewrite Hy in Hy'. injection Hy' as <- <-.
  destruct (x_range_covers (x_values a' (Fin t') rp (omap temp_c (station_valid sts))))
    as (lo & hi & Hx' & _ & Hlh & Hxv).
  { apply x_values_nonempty, Hne. }
  { apply x_values_finite; [reflexivity|exact Hft|exact Hftc]. }
  rewrite Hx in Hx'. injection Hx' as -> ->.
  apply (plot_lines_inside _ _ _ _ _ _ _ _ _ _ _ _ _ _ _ _ Hp Hlh Hlt).
  - eapply profile_values_covered; eassumption.
  - intros sid tc el Hin. apply list_elem_of_fmap in Hin.
    destruct Hin as (s & E & Hsin). injection E as -> Etc Eel.
    assert (Htc : tc ∈ omap temp_c (station_valid sts))
      by (apply list_elem_of_omap; exists s; auto).
    assert (Hel : el ∈ omap elev_m (station_valid sts))
      by (apply list_elem_of_omap; exists s; auto).
    unfold all_finite in Hfe, Hftc. rewrite Forall_forall in Hfe, Hftc.
    destruct (is_finite_Fin _ (Hftc _ Htc)) as [qt ->].
    destruct (is_finite_Fin _ (Hfe _ Hel)) as [qe ->].
    exists qt, qe. split; [reflexivity|]. split; [reflexivity|].
    assert (Hin : Fin qt ∈ x_values a' (Fin t') rp (omap temp_c (station_valid sts)))
      by (apply x_values_union; right; right; exact Htc).
    specialize (Hxv _ Hin). specialize (Hye _ Hel). simpl in Hxv, Hye. tauto.
Qed.

(** X17.  The recent-60 chart draws inside its plot under one more
    condition.  Its vertical range starts at zero when no station is recent
    (the latest variant takes the lower of zero and the first altitude), so
    the profile must not start below zero then; with that, every dot and the
    centre of every station square except the legend's lie inside the plot
    rectangle. *)
Theorem chart60_stays_inside_plot (rp : list (Z * pyfloat)) (recent all : list row60)
  (rass_time : option string) (rass_file : string) (els : list svg) :
  within_ends rp -> finite_temps rp ->
  Forall (fun r => finite_opt (elev_m60 r) /\ finite_opt (temp_c60 r)) recent ->
  (omap elev_m60 recent = [] -> forall p, p ∈ rp -> (0 <= fst p)%Z) ->
  draw_svg rp recent all rass_time rass_file = Ok els ->
  (forall c cx cy r, Circle c cx cy r ∈ els -> inside_plot cx cy) /\
  (forall x y w h, Rect "station" x y w h ∈ els ->
     Rect "station" x y w h = legend_square \/
     inside_plot (fadd x (of_int 3)) (fadd y (of_int 3))).
Proof.
  intros Hwe Hft Hs Hzero Hd.
  destruct (draw_svg_inv _ _ _ _ _ _ Hd) as (a & t & y0 & y1 & x0 & x1 & Ha & Hy & Hx & Hp).
  pose proof (within_ends_profile rp Hwe) as Hprof.
  destruct (profile_anchor rp Hprof Hft) as (a' & t' & Ha').
  rewrite Ha in Ha'. injection Ha' as -> ->.
  assert (Hne : rp <> []).
  { destruct Hprof as (f & _ & Hh & _). intros ->. discriminate. }
  assert (Hfe : all_finite (omap elev_m60 recent))
    by (apply all_finite_omap; eapply Forall_impl; [exact Hs|]; simpl; tauto).
  assert (Hftc : all_finite (omap temp_c60 recent))
    by (apply all_finite_omap; eapply Forall_impl; [exact Hs|]; simpl; tauto).
  destruct (y_range60_covers rp _ Hwe Hfe Hzero) as (ym & yM & Hy' & Hlt & Hyp & Hye).
  rewrite Hy in Hy'. injection Hy' as <- <-.
  destruct (x_range_covers (x_values a' (Fin t') rp (omap temp_c60 recent)))
    as (lo & hi & _ & Hx' & Hlh & Hxv).
  { apply x_values_nonempty, Hne. }
  { apply x_values_finite; [reflexivity|exact Hft|exact Hftc]. }
  rewrite Hx in Hx'. injection Hx' as -> ->.
  apply (plot_lines_inside _ _ _ _ _ _ _ _ _ _ _ _ _ _ _ _ Hp Hlh Hlt).
  - eapply profile_values_covered; eassumption.
  - intros sid tc el Hin. apply list_elem_of_fmap in Hin.
    destruct Hin as (s & E & Hsin). injection E as -> Etc Eel.
    assert (Htc : tc ∈ omap temp_c60 recent)
      by (apply list_elem_of_omap; exists s; auto).
    assert (Hel : el ∈ omap elev_m60 recent)
      by (apply list_elem_of_omap; exists s; auto).
    unfold all_finite in Hfe, Hftc. rewrite Forall_forall in Hfe, Hftc.
    destruct (is_finite_Fin _ (Hftc _ Htc)) as [qt ->].
    destruct (is_finite_Fin _ (Hfe _ Hel)) as [qe ->].
    exists qt, qe. split; [reflexivity|]. split; [reflexivity|].
    assert (Hin : Fin qt ∈ x_values a' (Fin t') rp (omap temp_c60 recent))
      by (apply x_values_union; right; right; exact Htc).
    specialize (Hxv _ Hin). specialize (Hye _ Hel). simpl in Hxv, Hye. tauto.
Qed.

Lemma sample_within_ends : within_ends Sample.profile.
Proof.
  exists (100%Z, Fin 15.2), (300%Z, Fin 12.8).
  split; [reflexivity|]. split; [reflexivity|].
  repeat constructor; simpl; lia.
Defined.

Lemma chart_stays_inside_plot_witness :
  exists els,
    draw_chart Sample.profile Sample.stations None "sba24122.01t" = Ok els /\
    (forall c cx cy r, Circle c cx cy r ∈ els -> inside_plot cx cy) /\
    (forall x y w h, Rect "station" x y w h ∈ els ->
       Rect "station" x y w h = legend_square \/
       inside_plot (fadd x (of_int 3)) (fadd y (of_int 3))).
Proof.
  eexists. split; [vm_compute; reflexivity|].
  apply (chart_stays_inside_plot Sample.profile Sample.stations None "sba24122.01t").
  - exact sample_within_ends.
  - repeat constructor.
  - repeat constructor.
  - vm_compute. reflexivity.
Defined.

Lemma chart60_stays_inside_plot_witness :
  exists els,
    draw_svg Sample.profile (List.filter recent60 Sample.rows60) Sample.rows60 None
             "sba24122.01t" = Ok els /\
    (forall c cx cy r, Circle c cx cy r ∈ els -> inside_plot cx cy).
Proof.
  eexists. split; [vm_compute; reflexivity|].
  apply (chart60_stays_inside_plot Sample.profile (List.filter recent60 Sample.rows60)
           Sample.rows60 None "sba24122.01t").
  - exact sample_within_ends.
  - repeat constructor.
  - repeat constructor.
  - intros E. vm_compute in E. discriminate E.
  - vm_compute. reflexivity.
Defined.

(** ** Every station is named on the chart *)

Lemma station_marks_names (attempts : nat) (xf yf : pyfloat -> result pyfloat)
  (stations : list (string * option pyfloat * option pyfloat)) :
  forall used marks,
    station_marks attempts xf yf stations used = Ok marks ->
    forall sid temp elev, (sid, temp, elev) ∈ stations ->
      exists x y a, Text "station-label" x y a (BStr sid) ∈ marks.
Proof.
  induction stations as [|[[sid0 temp0] elev0] rest IH]; intros used marks H sid temp elev Hin.
  - inversion Hin.
  - cbn [station_marks] in H.
    apply bind_Ok in H. destruct H as (t & Ht & H).
    apply bind_Ok in H. destruct H as (x_px & Hx & H).
    apply bind_Ok in H. destruct H as (e & He & H).
    apply bind_Ok in H. destruct H as (y_px & Hy & H).
    apply bind_Ok in H. destruct H as (more & Hm & H).
    apply Ok_inj in H. subst marks.
    apply elem_of_cons in Hin. destruct Hin as [E|Hin].
    + injection E as -> -> ->.
      match goal with
      | |- context [if ?c then _ else _] => destruct c
      end; do 3 eexists; right; left.
    + destruct (IH _ _ Hm _ _ _ Hin) as (x & y & a & Hl).
      exists x, y, a. right. right. exact Hl.
Qed.

(** The labels and the caption of a chart. *)
Lemma plot_lines_names (attempts : nat) (cc cp lt title sub : string)
  (x_min x_max : pyfloat) (y_min y_max anchor_alt : Z) (anchor_temp : pyfloat)
  (rp : list (Z * pyfloat)) (stations : list (string * option pyfloat * option pyfloat))
  (ids : list string) (els : list svg) :
  plot_lines attempts cc cp lt title sub x_min x_max y_min y_max
             anchor_alt anchor_temp rp stations ids = Ok els ->
  (forall sid temp elev, (sid, temp, elev) ∈ stations ->
     exists x y a, Text "station-label" x y a (BStr sid) ∈ els) /\
  (ids <> [] ->
   Text cc (of_int legend_x) (of_int (legend_y + 62)) None (BStr (cp ++ join_comma ids))
     ∈ els).
Proof.
  intros Hp.
  destruct (plot_lines_parts _ _ _ _ _ _ _ _ _ _ _ _ _ _ _ _ Hp)
    as (obs_path & dalr_path & c & x_ticks & cy & y_ticks & y_lines & x_lines & circles
        & marks & _ & _ & _ & _ & _ & _ & _ & _ & _ & Hm & ->).
  split.
  - intros sid temp elev Hin.
    destruct (station_marks_names _ _ _ _ _ _ Hm _ _ _ Hin) as (x & y & a & Hl).
    exists x, y, a. rewrite !elem_of_app. do 6 right. left. exact Hl.
  - intros Hne. rewrite !elem_of_app. do 8 right. left.
    unfold caption_lines. destruct ids; [congruence|]. left.
Qed.

(** X18.  Every configured station is named on the chart that a run draws.
    In the latest variant a station is labelled next to its square, or it is
    listed in the caption [No MADIS temp]; in the recent-60 variant it is
    labelled, or listed in the caption [Excluded].  No station is left out. *)
Theorem every_station_is_named `{Builtins} (raw : string) (svc : service) (now : Q)
  (file : string) (els : list svg) :
  Chart.main raw svc file = Ok els \/ main60 raw svc now file = Ok els ->
  forall sid, sid ∈ STATIONS ->
    (exists x y a, Text "station-label" x y a (BStr sid) ∈ els) \/
    (exists cls prefix ids,
       sid ∈ ids /\
       (cls = "missing"%string /\ prefix = "No MADIS temp: "%string \/
        cls = "note"%string /\ prefix = "Excluded: "%string) /\
       Text cls (of_int legend_x) (of_int (legend_y + 62)) None
            (BStr (prefix ++ join_comma ids)) ∈ els).
Proof.
  intros Hm sid Hsid. destruct Hm as [Hm|Hm].
  - unfold Chart.main in Hm.
    apply bind_Ok in Hm. destruct Hm as ([obs_dt rp] & _ & Hd).
    destruct (draw_chart_inv _ _ _ _ _ Hd) as (a & t & y0 & y1 & x0 & x1 & _ & _ & _ & Hp).
    destruct (plot_lines_names _ _ _ _ _ _ _ _ _ _ _ _ _ _ _ _ Hp) as [Hl Hc].
    rewrite <- (fetch_madis_stations_ids svc) in Hsid.
    apply list_elem_of_fmap in Hsid. destruct Hsid as (s & -> & Hs).
    destruct (not_none (temp_c s) && not_none (elev_m s)) eqn:Ev.
    + left. apply (Hl (id s) (temp_c s) (elev_m s)).
      apply list_elem_of_fmap. exists s. split; [reflexivity|].
      unfold station_valid. apply list_elem_of_In, filter_In.
      rewrite <- list_elem_of_In. auto.
    + right.
      assert (Hin : id s ∈ id <$> List.filter
                (fun s => is_none (temp_c s) || is_none (elev_m s))
                (fetch_madis_stations svc)).
      { apply list_elem_of_fmap. exists s. split; [reflexivity|].
        apply list_elem_of_In, filter_In. rewrite <- list_elem_of_In.
        split; [exact Hs|]. destruct (temp_c s), (elev_m s); try reflexivity; discriminate. }
      eexists. eexists. eexists. split; [exact Hin|]. split; [left; auto|].
      apply Hc. intros E. rewrite E in Hin. inversion Hin.
  - unfold main60 in Hm.
    apply bind_Ok in Hm. destruct Hm as ([rass_time rp] & _ & Hm).
    apply bind_Ok in Hm. destruct Hm as (rows & Hrows & Hd).
    destruct (draw_svg_inv _ _ _ _ _ _ Hd) as (a & t & y0 & y1 & x0 & x1 & _ & _ & _ & Hp).
    destruct (plot_lines_names _ _ _ _ _ _ _ _ _ _ _ _ _ _ _ _ Hp) as [Hl Hc].
    pose proof (station_rows_ids svc now rows Hrows) as Hids.
    rewrite <- Hids in Hsid.
    apply list_elem_of_fmap in Hsid. destruct Hsid as (r & -> & Hr).
    destruct (recent60 r) eqn:Er.
    + left. apply (Hl (id60 r) (temp_c60 r) (elev_m60 r)).
      apply list_elem_of_fmap. exists r. split; [reflexivity|].
      apply list_elem_of_In, filter_In. rewrite <- list_elem_of_In. auto.
    + right.
      assert (Hin : id60 r ∈ id60 <$> List.filter (fun r => negb (recent60 r)) rows).
      { apply list_elem_of_fmap. exists r. split; [reflexivity|].
        apply list_elem_of_In, filter_In. rewrite <- list_elem_of_In.
        split; [exact Hr|]. rewrite Er. reflexivity. }
      eexists. eexists. eexists. split; [exact Hin|]. split; [right; auto|].
      apply Hc. intros E. rewrite E in Hin. inversion Hin.
Qed.

Lemma every_station_is_named_witness :
  exists els,
    @main60 Sample.builtins Sample.profile_text Sample.stale_service Sample.noon
            "sba24122.01t" = Ok els /\
    exists ids,
      "KSBA"%string ∈ ids /\
      Text "note" (of_int legend_x) (of_int (legend_y + 62)) None
           (BStr ("Excluded: " ++ join_comma ids)) ∈ els.
Proof.
  assert (E : exists els,
            @main60 Sample.builtins Sample.profile_text Sample.stale_service Sample.noon
                    "sba24122.01t" = Ok els)
    by (vm_compute; eexists; reflexivity).
  destruct E as [els E]. exists els. split; [exact E|].
  destruct (@every_station_is_named Sample.builtins Sample.profile_text
              Sample.stale_service Sample.noon "sba24122.01t" els (or_intror E)
              "KSBA"%string)
    as [(x & y & a & Hl)|(cls & prefix & ids & Hin & [[-> ->]|[-> ->]] & Hc)].
  - do 7 right. left.
  - exfalso. vm_compute in E. injection E as <-.
    repeat (apply elem_of_cons in Hl; destruct Hl as [Hl|Hl]; [discriminate Hl|]).
    inversion Hl.
  - exfalso. vm_compute in E. injection E as <-.
    repeat (apply elem_of_cons in Hc; destruct Hc as [Hc|Hc]; [discriminate Hc|]).
    inversion Hc.
  - exists ids. auto.
Defined.

(** ** The adiabat starts at the first profile point *)

Lemma x_to_svg_comp (lo hi u v : Q) :
  ~ hi - lo == 0 -> u == v ->
  exists pu pv,
    x_to_svg (Fin lo) (Fin hi) (Fin u) = Ok (Fin pu) /\
    x_to_svg (Fin lo) (Fin hi) (Fin v) = Ok (Fin pv) /\ pu == pv.
Proof.
  intros Hne Huv. rewrite !x_to_svg_ok by exact Hne.
  eexists. eexists. split; [reflexivity|]. split; [reflexivity|].
  rewrite Huv. reflexivity.
Qed.

(** X19.  Both charts anchor the dry adiabat at the first point of the
    profile: for a profile with finite temperatures and stations with finite
    values, the path of the observed profile and the path of the adiabat both
    begin with a move to the same pixel. *)
Theorem adiabat_starts_at_profile (rp : list (Z * pyfloat)) (sts : list row)
  (recent all : list row60) (obs_dt : option string) (rass_file : string)
  (els : list svg) :
  is_profile rp -> finite_temps rp ->
  Forall (fun s => finite_opt (elev_m s) /\ finite_opt (temp_c s)) sts ->
  Forall (fun r => finite_opt (elev_m60 r) /\ finite_opt (temp_c60 r)) recent ->
  draw_chart rp sts obs_dt rass_file = Ok els \/
  draw_svg rp recent all obs_dt rass_file = Ok els ->
  exists x x' y d d',
    Path "rass" ((true, Fin x, y) :: d) ∈ els /\
    Path "dalr" ((true, Fin x', y) :: d') ∈ els /\ x == x'.
Proof.
  intros Hprof Hft Hs Hr Hd.
  destruct (profile_anchor rp Hprof Hft) as (a & t & Ha).
  assert (Hne : rp <> []).
  { destruct Hprof as (f & _ & Hh & _). intros ->. discriminate. }
  assert (Hp : exists attempts cc cp lt title sub lo hi y0 y1 stations ids,
            ~ hi - lo == 0 /\
            plot_lines attempts cc cp lt title sub (Fin lo) (Fin hi) y0 y1 a (Fin t) rp
                       stations ids = Ok els).
  { destruct Hd as [Hd|Hd].
    - destruct (draw_chart_inv _ _ _ _ _ Hd)
        as (a' & t' & y0 & y1 & x0 & x1 & Ha' & _ & Hx & Hp).
      rewrite Ha in Ha'. injection Ha' as <- <-.
      destruct (x_ranges_wide (x_values a (Fin t) rp (omap temp_c (station_valid sts))))
        as (lo & hi & Hx' & _ & Hw).
      { apply x_values_nonempty, Hne. }
      { apply x_values_finite; [reflexivity|exact Hft|].
        apply all_finite_omap. apply Forall_filter_keep.
        eapply Forall_impl; [exact Hs|]. simpl. tauto. }
      rewrite Hx in Hx'. injection Hx' as -> ->.
      do 8 eexists. exists y0, y1. do 2 eexists. split; [|exact Hp]. intros E. lra.
    - destruct (draw_svg_inv _ _ _ _ _ _ Hd)
        as (a' & t' & y0 & y1 & x0 & x1 & Ha' & _ & Hx & Hp).
      rewrite Ha in Ha'. injection Ha' as <- <-.
      destruct (x_ranges_wide (x_values a (Fin t) rp (omap temp_c60 recent)))
        as (lo & hi & _ & Hx' & Hw).
      { apply x_values_nonempty, Hne. }
      { apply x_values_finite; [reflexivity|exact Hft|].
        apply all_finite_omap. eapply Forall_impl; [exact Hr|]. simpl. tauto. }
      rewrite Hx in Hx'. injection Hx' as -> ->.
      do 8 eexists. exists y0, y1. do 2 eexists. split; [|exact Hp]. intros E. lra. }
  destruct Hp as (attempts & cc & cp & lt & title & sub & lo & hi & y0 & y1 & stations
                  & ids & Hne' & Hp).
  destruct (plot_lines_parts _ _ _ _ _ _ _ _ _ _ _ _ _ _ _ _ Hp)
    as (obs_path & dalr_path & c & x_ticks & cy & y_ticks & y_lines & x_lines & circles
        & marks & Ho & Hdl & _ & _ & _ & _ & _ & _ & _ & _ & ->).
  destruct rp as [|[a0 t0] rest]; [congruence|].
  unfold index in Ha. simpl in Ha. injection Ha as -> ->.
  cbn [fmap list_fmap path_from fst snd] in Ho, Hdl.
  destruct (x_to_svg_comp lo hi t
              (t + - (9.8 * (inject_Z a + - inject_Z a) / 1000)) Hne')
    as (pu & pv & Eu & Ev & Euv); [field|].
  change (dalr_temp a (Fin t) a)
    with (Fin (t + - (9.8 * (inject_Z a + - inject_Z a) / 1000))) in Hdl.
  rewrite Eu in Ho. rewrite Ev in Hdl. cbn [Py.bind] in Ho, Hdl.
  apply bind_Ok in Ho. destruct Ho as (y & Hy & Ho).
  apply bind_Ok in Ho. destruct Ho as (d & _ & Ho). apply Ok_inj in Ho.
  rewrite Hy in Hdl. cbn [Py.bind] in Hdl.
  apply bind_Ok in Hdl. destruct Hdl as (d' & _ & Hdl). apply Ok_inj in Hdl.
  subst obs_path dalr_path.
  exists pu, pv, y, d, d'. split; [|split; [|exact Euv]].
  - rewrite !elem_of_app. do 4 right. left. left.
  - rewrite !elem_of_app. do 4 right. left. right. left.
Qed.

Lemma adiabat_starts_at_profile_witness :
  exists els x x' y d d',
    draw_chart Sample.profile Sample.stations None "sba24122.01t" = Ok els /\
    Path "rass" ((true, Fin x, y) :: d) ∈ els /\
    Path "dalr" ((true, Fin x', y) :: d') ∈ els /\ x == x'.
Proof.
  assert (E : exists els,
            draw_chart Sample.profile Sample.stations None "sba24122.01t" = Ok els)
    by (vm_compute; eexists; reflexivity).
  destruct E as [els E]. exists els.
  destruct (adiabat_starts_at_profile Sample.profile Sample.stations [] [] None
              "sba24122.01t" els sample_is_profile)
    as (x & x' & y & d & d' & H1 & H2 & H3).
  - repeat constructor.
  - repeat constructor.
  - constructor.
  - left. exact E.
  - exists x, x', y, d, d'. auto.
Defined.

(* ===================================================================== *)
(** * The directory listings: [latest_rass_file]                          *)
(* ===================================================================== *)

Section ListingFacts.
Import Listing.

Lemma string_app_assoc (a b c : string) : ((a ++ b) ++ c = a ++ b ++ c)%string.
Proof.
  induction a as [|x a IH]; [reflexivity|].
  change (String x ((a ++ b) ++ c) = String x (a ++ b ++ c))%string.
  rewrite IH. reflexivity.
Qed.

Lemma string_app_cons (x : ascii) (a b : string) :
  (String x a ++ b = String x (a ++ b))%string.
Proof. reflexivity. Qed.

Lemma string_app_nil (b : string) : (EmptyString ++ b = b)%string.
Proof. reflexivity. Qed.

Ltac norm_app :=
  rewrite ?string_app_assoc;
  repeat first [rewrite string_app_cons | rewrite string_app_nil].

(** ** What a match holds *)

Lemma match_atoms_spec (p : list atom) :
  forall s m rest,
    match_atoms p s = Some (m, rest) ->
    s = (m ++ rest)%string /\ shaped p m.
Proof.
  induction p as [|a p IH]; intros s m rest Hm; simpl in Hm.
  - injection Hm as <- <-. split; [reflexivity|constructor].
  - destruct s as [|c s']; [discriminate|].
    destruct (atom_ok a c) eqn:Ea; [|discriminate].
    destruct (match_atoms p s') as [[m' r']|] eqn:Em; [|discriminate].
    injection Hm as <- <-. destruct (IH _ _ _ Em) as [-> Hok].
    split; [reflexivity|]. simpl. constructor; assumption.
Qed.

Lemma match_at_spec (p : pattern) (s g : string) :
  match_at p s = Some g ->
  exists b a rest,
    s = (b ++ g ++ a ++ rest)%string /\
    shaped (before p) b /\
    shaped (group p) g /\
    shaped (after p) a.
Proof.
  unfold match_at. intros Hm.
  destruct (match_atoms (before p) s) as [[b s1]|] eqn:E1; [|discriminate].
  destruct (match_atoms (group p) s1) as [[g' s2]|] eqn:E2; [|discriminate].
  destruct (match_atoms (after p) s2) as [[a rest]|] eqn:E3; [|discriminate].
  injection Hm as ->.
  destruct (match_atoms_spec _ _ _ _ E1) as [-> H1].
  destruct (match_atoms_spec _ _ _ _ E2) as [-> H2].
  destruct (match_atoms_spec _ _ _ _ E3) as [-> H3].
  exists b, a, rest. auto.
Qed.

Lemma findall_go_elem (p : pattern) (g : string) :
  forall s skip,
    g ∈ findall_go p skip s ->
    exists pre suf, s = (pre ++ suf)%string /\ match_at p suf = Some g.
Proof.
  induction s as [|c s IH]; intros skip Hg; [inversion Hg|].
  assert (Hrest : forall k, g ∈ findall_go p k s ->
            exists pre suf, String c s = (pre ++ suf)%string /\ match_at p suf = Some g).
  { intros k Hk. destruct (IH k Hk) as (pre & suf & -> & Hm).
    exists (String c pre), suf. split; [reflexivity|exact Hm]. }
  cbn [findall_go] in Hg. destruct skip as [|k]; [|apply (Hrest k Hg)].
  destruct (match_at p (String c s)) as [g'|] eqn:Em; [|apply (Hrest _ Hg)].
  apply elem_of_cons in Hg. destruct Hg as [->|Hg]; [|apply (Hrest _ Hg)].
  exists EmptyString, (String c s). split; [reflexivity|exact Em].
Qed.

Lemma shaped_nil (s : string) : shaped [] s -> s = EmptyString.
Proof. destruct s; [reflexivity|]. simpl. intros Hn. inversion Hn. Qed.

Lemma shaped_cons (a : atom) (p : list atom) (s : string) :
  shaped (a :: p) s ->
  exists c s', s = String c s' /\ atom_ok a c = true /\
               shaped p s'.
Proof.
  destruct s as [|c s']; simpl; intros Hc; inversion Hc; subst.
  exists c, s'. auto.
Qed.

Ltac read_atoms H :=
  repeat (let c := fresh "c" in
          let s := fresh "s" in
          let Hc := fresh "Hc" in
          apply shaped_cons in H; destruct H as (c & s & -> & Hc & H);
          cbn [atom_ok] in Hc;
          try (apply Ascii.eqb_eq in Hc; subst c));
  apply shaped_nil in H; subst.

Ltac read_atom H c Hc :=
  let s := fresh "s" in
  apply shaped_cons in H; destruct H as (c & s & -> & Hc & H); cbn [atom_ok] in Hc.

Lemma href_text (b : string) :
  shaped href b -> b = ("href=" ++ String quote EmptyString)%string.
Proof.
  intros Hb. change href with [Lit "h"; Lit "r"; Lit "e"; Lit "f"; Lit "="; Lit quote]%char in Hb.
  read_atoms Hb. reflexivity.
Qed.

(** A group found by [findall] under a pattern that begins with [href=] and
    a quote, and ends with the text [tail] and a quote, is the target of a
    link, up to [tail]. *)
Lemma findall_links (p : pattern) (tail : string) (html g : string) :
  before p = href ->
  after p = lits tail ++ [Lit quote] ->
  g ∈ findall p html ->
  links_to html (g ++ tail) /\ shaped (group p) g.
Proof.
  intros Hb Ha Hg. unfold findall in Hg.
  destruct (findall_go_elem p g html 0 Hg) as (pre & suf & -> & Hm).
  destruct (match_at_spec p suf g Hm) as (b & a & rest & -> & H1 & H2 & H3).
  split; [|exact H2].
  rewrite Hb in H1. apply href_text in H1. subst b.
  assert (Ea : a = (tail ++ String quote EmptyString)%string).
  { rewrite Ha in H3. clear - H3. unfold lits in H3.
    revert a H3. induction tail as [|c tail IH]; intros a H3.
    - simpl in H3. read_atoms H3. reflexivity.
    - simpl in H3. apply shaped_cons in H3. destruct H3 as (c' & s' & -> & Hc & H3).
      simpl in Hc. apply Ascii.eqb_eq in Hc. subst c'.
      rewrite string_app_cons. f_equal. apply IH, H3. }
  subst a. exists pre, rest. f_equal. norm_app. reflexivity.
Qed.

(** ** Digits, [int] and the formats *)

Lemma is_decimal_cases (c : ascii) :
  is_decimal c = true -> In c (list_ascii_of_string "0123456789").
Proof.
  destruct c as [[] [] [] [] [] [] [] []]; intros Hd; vm_compute in Hd;
    try discriminate Hd; simpl; tauto.
Qed.

Lemma year_round_trip_all :
  forallb (fun c1 => forallb (fun c2 =>
    let s := String "2" (String "0" (String c1 (String c2 EmptyString))) in
    match py_int s with
    | Ok n => String.eqb (py_str n) s
    | Raise _ => false
    end) (list_ascii_of_string "0123456789")) (list_ascii_of_string "0123456789") = true.
Proof. vm_compute. reflexivity. Qed.

Lemma doy_round_trip_all :
  forallb (fun c1 => forallb (fun c2 => forallb (fun c3 =>
    let s := String c1 (String c2 (String c3 EmptyString)) in
    match py_int s with
    | Ok n => String.eqb (fmt_03d n) s
    | Raise _ => false
    end) (list_ascii_of_string "0123456789")) (list_ascii_of_string "0123456789"))
    (list_ascii_of_string "0123456789") = true.
Proof. vm_compute. reflexivity. Qed.

(** [int] reads every year that the pattern captures, and [str] gives the
    captured text back. *)
Lemma year_round_trip (g : string) :
  shaped (group year_pattern) g ->
  digits_text 4 g /\ exists n, py_int g = Ok n /\ py_str n = g.
Proof.
  intros Hg. change (group year_pattern) with [Lit "2"; Lit "0"; Digit; Digit]%char in Hg.
  read_atom Hg c_2 H2. read_atom Hg c_0 H0. read_atom Hg c1 Hc1. read_atom Hg c2 Hc2.
  apply shaped_nil in Hg. subst.
  apply Ascii.eqb_eq in H2, H0. subst c_2 c_0.
  split; [split; [reflexivity|repeat constructor; assumption]|].
  pose proof year_round_trip_all as Hall.
  rewrite forallb_forall in Hall.
  pose proof (Hall _ (is_decimal_cases _ Hc1)) as Hall1.
  rewrite forallb_forall in Hall1.
  pose proof (Hall1 _ (is_decimal_cases _ Hc2)) as Hall2.
  cbv zeta in Hall2.
  destruct (py_int (String "2" (String "0" (String c1 (String c2 EmptyString)))))
    as [n|]; [|discriminate].
  exists n. split; [reflexivity|]. apply String.eqb_eq, Hall2.
Qed.

(** [int] reads every day that the pattern captures, and the format [03d]
    gives the captured text back, leading zeros included. *)
Lemma doy_round_trip (g : string) :
  shaped (group doy_pattern) g ->
  digits_text 3 g /\ exists n, py_int g = Ok n /\ fmt_03d n = g.
Proof.
  intros Hg. change (group doy_pattern) with [Digit; Digit; Digit] in Hg.
  read_atom Hg c Hc. read_atom Hg c0 Hc0. read_atom Hg c1 Hc1.
  apply shaped_nil in Hg. subst.
  split; [split; [reflexivity|repeat constructor; assumption]|].
  pose proof doy_round_trip_all as Hall.
  rewrite forallb_forall in Hall.
  pose proof (Hall _ (is_decimal_cases _ Hc)) as Hall1.
  rewrite forallb_forall in Hall1.
  pose proof (Hall1 _ (is_decimal_cases _ Hc0)) as Hall2.
  rewrite forallb_forall in Hall2.
  pose proof (Hall2 _ (is_decimal_cases _ Hc1)) as Hall3.
  cbv zeta in Hall3.
  destruct (py_int (String c (String c0 (String c1 EmptyString)))) as [n|]; [|discriminate].
  exists n. split; [reflexivity|]. apply String.eqb_eq, Hall3.
Qed.

(** ** [max] and [sorted] *)

Lemma py_max_int_spec (xs : list Z) :
  forall x, py_max_int x xs ∈ x :: xs /\ forall y, y ∈ x :: xs -> (y <= py_max_int x xs)%Z.
Proof.
  unfold py_max_int. induction xs as [|z xs IH]; intros x; simpl.
  - split; [left|]. intros y Hy. apply list_elem_of_singleton in Hy. lia.
  - destruct (IH (if (x <? z)%Z then z else x)) as [Hin Hmax]. split.
    + apply elem_of_cons in Hin. destruct Hin as [E|Hin].
      * rewrite E. destruct (x <? z)%Z; [right; left|left].
      * right. right. exact Hin.
    + intros y Hy.
      assert (Hm : ((if (x <? z)%Z then z else x)
                    <= fold_left (fun m y0 => if (m <? y0)%Z then y0 else m) xs
                                 (if (x <? z)%Z then z else x))%Z)
        by (apply Hmax; left).
      apply elem_of_cons in Hy. destruct Hy as [->|Hy].
      * destruct (Z.ltb_spec x z); lia.
      * apply elem_of_cons in Hy. destruct Hy as [->|Hy].
        -- destruct (Z.ltb_spec x z); lia.
        -- apply Hmax. right. exact Hy.
Qed.

Lemma insert_str_elem (s x : string) (l : list string) :
  x ∈ insert_str s l <-> x = s \/ x ∈ l.
Proof.
  induction l as [|y l IH]; simpl.
  - rewrite list_elem_of_singleton. split; [auto|]. intros [E|E]; [exact E|inversion E].
  - destruct (String.ltb s y).
    + rewrite elem_of_cons. tauto.
    + rewrite !elem_of_cons, IH. tauto.
Qed.

Lemma insert_str_sorted (s : string) (l : list string) :
  StronglySorted str_le l -> StronglySorted str_le (insert_str s l).
Proof.
  induction l as [|y l IH]; intros Hs; simpl.
  - repeat constructor.
  - apply StronglySorted_inv in Hs. destruct Hs as [Hl Hy].
    destruct (String.ltb s y) eqn:E.
    + constructor; [constructor; assumption|].
      assert (Hsy : str_le s y) by (apply str_lt_le; exact E).
      constructor; [exact Hsy|].
      eapply Forall_impl; [exact Hy|]. intros z Hz. eapply str_le_trans; eassumption.
    + constructor; [apply IH, Hl|].
      apply Forall_forall. intros z Hz. apply insert_str_elem in Hz.
      destruct Hz as [->|Hz]; [exact E|].
      rewrite Forall_forall in Hy. apply Hy, Hz.
Qed.

Lemma sorted_spec (l : list string) :
  StronglySorted str_le (sorted l) /\ forall x, x ∈ sorted l <-> x ∈ l.
Proof.
  unfold sorted.
  assert (G : forall acc, StronglySorted str_le acc ->
            StronglySorted str_le (fold_left (fun a s => insert_str s a) l acc) /\
            forall x, x ∈ fold_left (fun a s => insert_str s a) l acc <-> x ∈ l \/ x ∈ acc).
  { induction l as [|y l IH]; intros acc Hacc; simpl.
    - split; [exact Hacc|]. intros x. split; [auto|]. intros [E|E]; [inversion E|exact E].
    - destruct (IH (insert_str y acc) (insert_str_sorted y acc Hacc)) as [H1 H2].
      split; [exact H1|]. intros x. rewrite H2, insert_str_elem, elem_of_cons. tauto. }
  destruct (G [] (SSorted_nil _)) as [H1 H2]. split; [exact H1|].
  intros x. rewrite H2. split; [|auto]. intros [E|E]; [exact E|inversion E].
Qed.

Lemma sorted_last_greatest (l : list string) (top : string) :
  StronglySorted str_le l -> last l = Some top ->
  top ∈ l /\ forall x, x ∈ l -> str_le x top.
Proof.
  induction l as [|y l IH]; intros Hs Hl; [discriminate|].
  apply StronglySorted_inv in Hs. destruct Hs as [Hs Hy].
  destruct l as [|z l'].
  - injection Hl as <-. split; [left|]. intros x Hx.
    apply list_elem_of_singleton in Hx. subst x. apply str_le_refl.
  - change (last (y :: z :: l')) with (last (z :: l')) in Hl.
    destruct (IH Hs Hl) as [Hin Hmax]. split; [right; exact Hin|].
    intros x Hx. apply elem_of_cons in Hx. destruct Hx as [->|Hx]; [|apply Hmax, Hx].
    rewrite Forall_forall in Hy. apply Hy, Hin.
Qed.

(** The steps of a run of [latest_rass_file] that returns. *)
Lemma latest_rass_file_inv (a b c : string) (fetch_text : string -> result string)
  (year doy file : string) :
  latest_rass_file a b c fetch_text = Ok (year, doy, file) ->
  exists root_html year_html day_html ny nd,
    fetch_text RASS_BASE = Ok root_html /\
    fetch_text (RASS_BASE ++ year ++ "/")%string = Ok year_html /\
    fetch_text ((RASS_BASE ++ year ++ "/") ++ doy ++ "/")%string = Ok day_html /\
    year ∈ findall year_pattern root_html /\ py_int year = Ok ny /\
    (forall y, y ∈ findall year_pattern root_html ->
       exists n, py_int y = Ok n /\ (n <= ny)%Z) /\
    doy ∈ findall doy_pattern year_html /\ py_int doy = Ok nd /\
    (forall d, d ∈ findall doy_pattern year_html ->
       exists n, py_int d = Ok n /\ (n <= nd)%Z) /\
    file ∈ findall file_pattern day_html /\
    (forall f, f ∈ findall file_pattern day_html -> str_le f file).
Proof.
  unfold latest_rass_file. intros Hl.
  apply bind_Ok in Hl. destruct Hl as (root_html & Hroot & Hl).
  apply bind_Ok in Hl. destruct Hl as (years & Hyears & Hl).
  destruct years as [|y ys]; [discriminate|].
  apply bind_Ok in Hl. destruct Hl as (year_html & Hyear & Hl).
  apply bind_Ok in Hl. destruct Hl as (doys & Hdoys & Hl).
  destruct doys as [|d ds]; [discriminate|].
  apply bind_Ok in Hl. destruct Hl as (day_html & Hday & Hl).
  destruct (findall file_pattern day_html) as [|f0 fs] eqn:Ef; [discriminate|].
  apply bind_Ok in Hl. destruct Hl as (latest & Hlast & Hl).
  injection Hl as <- <- <-.
  apply mapM_Forall2 in Hyears. apply mapM_Forall2 in Hdoys.
  destruct (py_max_int_spec ys y) as [Hyin Hymax].
  destruct (py_max_int_spec ds d) as [Hdin Hdmax].
  set (ny := py_max_int y ys) in *. set (nd := py_max_int d ds) in *.
  (* the year *)
  assert (Hy : forall g n, g ∈ findall year_pattern root_html -> py_int g = Ok n ->
                           py_str n = g).
  { intros g n Hg Hn.
    destruct (findall_links year_pattern "/" root_html g eq_refl eq_refl Hg) as [_ Hok].
    destruct (year_round_trip g Hok) as (_ & n' & Hn' & Hs). congruence. }
  assert (Hd : forall g n, g ∈ findall doy_pattern year_html -> py_int g = Ok n ->
                           fmt_03d n = g).
  { intros g n Hg Hn.
    destruct (findall_links doy_pattern "/" year_html g eq_refl eq_refl Hg) as [_ Hok].
    destruct (doy_round_trip g Hok) as (_ & n' & Hn' & Hs). congruence. }
  apply list_elem_of_lookup in Hyin. destruct Hyin as [i Hi].
  destruct (Forall2_lookup_r _ _ _ _ _ Hyears Hi) as (gy & Hgy & Hpy).
  apply list_elem_of_lookup in Hdin. destruct Hdin as [j Hj].
  destruct (Forall2_lookup_r _ _ _ _ _ Hdoys Hj) as (gd & Hgd & Hpd).
  assert (Hgy' : gy ∈ findall year_pattern root_html)
    by (apply list_elem_of_lookup; eauto).
  assert (Hgd' : gd ∈ findall doy_pattern year_html)
    by (apply list_elem_of_lookup; eauto).
  rewrite (Hy gy ny Hgy' Hpy) in *. rewrite (Hd gd nd Hgd' Hpd) in *.
  unfold index_last in Hlast.
  destruct (last (sorted (f0 :: fs))) as [top|] eqn:El; [|discriminate].
  injection Hlast as ->.
  destruct (sorted_spec (f0 :: fs)) as [Hsorted Hsame].
  destruct (sorted_last_greatest _ _ Hsorted El) as [Htop Hmax].
  exists root_html, year_html, day_html, ny, nd.
  split; [exact Hroot|]. split; [exact Hyear|]. split; [exact Hday|].
  split; [exact Hgy'|]. split; [exact Hpy|]. split.
  { intros g Hg. apply list_elem_of_lookup in Hg. destruct Hg as [k Hk].
    destruct (Forall2_lookup_l _ _ _ _ _ Hyears Hk) as (n & Hn & Hpn).
    exists n. split; [exact Hpn|]. apply Hymax. apply list_elem_of_lookup. eauto. }
  split; [exact Hgd'|]. split; [exact Hpd|]. split.
  { intros g Hg. apply list_elem_of_lookup in Hg. destruct Hg as [k Hk].
    destruct (Forall2_lookup_l _ _ _ _ _ Hdoys Hk) as (n & Hn & Hpn).
    exists n. split; [exact Hpn|]. apply Hdmax. apply list_elem_of_lookup. eauto. }
  rewrite Ef. split; [apply Hsame, Htop|].
  intros f Hf. apply Hmax, Hsame, Hf.
Qed.

(** X20.  When [latest_rass_file] (of either script) returns a year, a day
    and a file name, each is the target of a link of the page that was
    fetched one level above it: the year (four digits) is linked from the
    root listing, the day (three digits, leading zeros kept) from the listing
    of that year, and the file from the listing of that day.  The URL that
    [main] then downloads is that of the day listing followed by the file
    name. *)
Theorem latest_file_is_linked (a b c : string) (fetch_text : string -> result string)
  (year doy file : string) :
  latest_rass_file a b c fetch_text = Ok (year, doy, file) ->
  exists root_html year_html day_html,
    fetch_text RASS_BASE = Ok root_html /\
    fetch_text (RASS_BASE ++ year ++ "/")%string = Ok year_html /\
    fetch_text ((RASS_BASE ++ year ++ "/") ++ doy ++ "/")%string = Ok day_html /\
    links_to root_html (year ++ "/") /\ digits_text 4 year /\
    links_to year_html (doy ++ "/") /\ digits_text 3 doy /\
    links_to day_html file /\
    rass_url year doy file = (((RASS_BASE ++ year ++ "/") ++ doy ++ "/") ++ file)%string.
Proof.
  intros Hl.
  destruct (latest_rass_file_inv a b c fetch_text year doy file Hl)
    as (root_html & year_html & day_html & ny & nd & H1 & H2 & H3 & Hy & _ & _
        & Hd & _ & _ & Hf & _).
  exists root_html, year_html, day_html.
  destruct (findall_links year_pattern "/" root_html year eq_refl eq_refl Hy) as [Ly Oy].
  destruct (findall_links doy_pattern "/" year_html doy eq_refl eq_refl Hd) as [Ld Od].
  destruct (findall_links file_pattern "" day_html file eq_refl eq_refl Hf) as [Lf _].
  destruct (year_round_trip year Oy) as [Dy _].
  destruct (doy_round_trip doy Od) as [Dd _].
  repeat (split; [assumption|]).
  split.
  - destruct Lf as (pre & post & ->). exists pre, post. norm_app. reflexivity.
  - unfold rass_url. rewrite !string_app_assoc. reflexivity.
Qed.

Lemma latest_file_is_linked_witness :
  exists root_html year_html day_html,
    Sample.web RASS_BASE = Ok root_html /\
    Sample.web (RASS_BASE ++ "2024" ++ "/")%string = Ok year_html /\
    Sample.web ((RASS_BASE ++ "2024" ++ "/") ++ "122" ++ "/")%string = Ok day_html /\
    links_to root_html ("2024" ++ "/") /\ digits_text 4 "2024" /\
    links_to year_html ("122" ++ "/") /\ digits_text 3 "122" /\
    links_to day_html "sba24122.01t" /\
    rass_url "2024" "122" "sba24122.01t"
    = (((RASS_BASE ++ "2024" ++ "/") ++ "122" ++ "/") ++ "sba24122.01t")%string.
Proof.
  apply (latest_file_is_linked "No RASS year directories found"
           "No RASS day directories found" "No RASS files found in latest day" Sample.web).
  vm_compute. reflexivity.
Defined.

(** X21.  [latest_rass_file] picks the newest entry at each level: no year
    linked from the root listing is greater, as a number, than the year it
    returns; no day linked from the listing of that year is greater than the
    day it returns; and no file linked from the listing of that day comes
    after the returned file in the order of [str]. *)
Theorem latest_file_is_newest (a b c : string) (fetch_text : string -> result string)
  (year doy file : string) :
  latest_rass_file a b c fetch_text = Ok (year, doy, file) ->
  exists root_html year_html day_html ny nd,
    fetch_text RASS_BASE = Ok root_html /\
    fetch_text (RASS_BASE ++ year ++ "/")%string = Ok year_html /\
    fetch_text ((RASS_BASE ++ year ++ "/") ++ doy ++ "/")%string = Ok day_html /\
    py_int year = Ok ny /\ py_int doy = Ok nd /\
    (forall y, y ∈ findall year_pattern root_html ->
       exists n, py_int y = Ok n /\ (n <= ny)%Z) /\
    (forall d, d ∈ findall doy_pattern year_html ->
       exists n, py_int d = Ok n /\ (n <= nd)%Z) /\
    (forall f, f ∈ findall file_pattern day_html -> str_le f file).
Proof.
  intros Hl.
  destruct (latest_rass_file_inv a b c fetch_text year doy file Hl)
    as (root_html & year_html & day_html & ny & nd & H1 & H2 & H3 & _ & Hy & Hym
        & _ & Hd & Hdm & _ & Hfm).
  exists root_html, year_html, day_html, ny, nd. auto 10.
Qed.

Lemma latest_file_is_newest_witness :
  exists root_html year_html day_html ny nd,
    Sample.web RASS_BASE = Ok root_html /\
    Sample.web (RASS_BASE ++ "2024" ++ "/")%string = Ok year_html /\
    Sample.web ((RASS_BASE ++ "2024" ++ "/") ++ "122" ++ "/")%string = Ok day_html /\
    py_int "2024" = Ok ny /\ py_int "122" = Ok nd /\
    (forall y, y ∈ findall year_pattern root_html ->
       exists n, py_int y = Ok n /\ (n <= ny)%Z) /\
    (forall d, d ∈ findall doy_pattern year_html ->
       exists n, py_int d = Ok n /\ (n <= nd)%Z) /\
    (forall f, f ∈ findall file_pattern day_html -> str_le f "sba24122.01t").
Proof.
  apply (latest_file_is_newest "No year directories found for RASS"
           "No day directories found for RASS year"
           "No SBA profile files found in latest day directory" Sample.web).
  vm_compute. reflexivity.
Defined.

(** X22.  [latest_rass_file] fails in four ways only: with the exception of
    a download, or with one of its three [RuntimeError]s (no year, no day, no
    file linked).  Reading the captured digits with [int] and taking the last
    of the sorted files never raise. *)
Theorem latest_file_failures (a b c : string) (fetch_text : string -> result string)
  (e : exn) :
  latest_rass_file a b c fetch_text = Raise e ->
  (exists url, fetch_text url = Raise e) \/
  e = RuntimeError a \/ e = RuntimeError b \/ e = RuntimeError c.
Proof.
  unfold latest_rass_file. intros Hl.
  assert (Hint : forall p tail html,
            before p = href -> after p = lits tail ++ [Lit quote] ->
            (forall g, shaped (group p) g ->
                       exists n, py_int g = Ok n) ->
            mapM py_int (findall p html) <> Raise e).
  { intros p tail html Hb Ha Hread Hm.
    apply mapM_raises in Hm. destruct Hm as (g & Hg & Hr).
    destruct (findall_links p tail html g Hb Ha Hg) as [_ Hok].
    destruct (Hread g Hok) as [n Hn]. congruence. }
  destruct (fetch_text RASS_BASE) as [root_html|e0] eqn:E0;
    [|injection Hl as <-; left; eauto].
  cbn [Py.bind] in Hl.
  destruct (mapM py_int (findall year_pattern root_html)) as [years|e1] eqn:E1.
  2:{ injection Hl as <-. exfalso.
      apply (Hint year_pattern "/"%string root_html eq_refl eq_refl); [|exact E1].
      intros g Hg. destruct (year_round_trip g Hg) as (_ & n & Hn & _). eauto. }
  cbn [Py.bind] in Hl.
  destruct years as [|y ys]; [injection Hl as <-; auto|].
  destruct (fetch_text _) as [year_html|e2] eqn:E2 in Hl;
    [|injection Hl as <-; left; eauto].
  cbn [Py.bind] in Hl.
  destruct (mapM py_int (findall doy_pattern year_html)) as [doys|e3] eqn:E3.
  2:{ injection Hl as <-. exfalso.
      apply (Hint doy_pattern "/"%string year_html eq_refl eq_refl); [|exact E3].
      intros g Hg. destruct (doy_round_trip g Hg) as (_ & n & Hn & _). eauto. }
  cbn [Py.bind] in Hl.
  destruct doys as [|d ds]; [injection Hl as <-; auto|].
  destruct (fetch_text _) as [day_html|e4] eqn:E4 in Hl;
    [|injection Hl as <-; left; eauto].
  cbn [Py.bind] in Hl.
  destruct (findall file_pattern day_html) as [|f0 fs] eqn:Ef; [injection Hl as <-; auto|].
  exfalso. unfold index_last in Hl.
  destruct (last (sorted (f0 :: fs))) as [top|] eqn:El; [discriminate|].
  apply last_None in El.
  destruct (sorted_spec (f0 :: fs)) as [_ Hsame].
  assert (Hin : f0 ∈ sorted (f0 :: fs)) by (apply Hsame; left).
  rewrite El in Hin. inversion Hin.
Qed.

Lemma latest_file_failures_witness :
  latest_rass_file "no year" "no day" "no file" (fun _ => Ok "<html></html>"%string)
  = Raise (RuntimeError "no year") /\
  ((exists url, (fun _ : string => @Ok string "<html></html>"%string) url
                = Raise (RuntimeError "no year")) \/
   RuntimeError "no year" = RuntimeError "no year" \/
   RuntimeError "no year" = RuntimeError "no day" \/
   RuntimeError "no year" = RuntimeError "no file").
Proof.
  split; [vm_compute; reflexivity|].
  apply (latest_file_failures "no year" "no day" "no file"
           (fun _ => Ok "<html></html>"%string)).
  vm_compute. reflexivity.
Defined.

End ListingFacts.

(* ===================================================================== *)
(** * The station table and the whole run                                 *)
(* ===================================================================== *)

Section ReportFacts.
Context `{Builtins}.
Import Listing Report.

Lemma csv_rows_written (stations : list row) :
  Forall (fun r => complete r \/ blank r) stations ->
  exists lines,
    csv_rows stations = Ok (csv_header :: lines) /\
    Forall2 (fun r line =>
      (blank r /\
       line = [CText (id r); CBlank; CBlank; CBlank; CText (provider r)]) \/
      (exists e t tm,
         elev_m r = Some e /\ temp_c r = Some t /\ ob_time r = Some tm /\
         line = [CText (id r); CFixed 2 e; CFixed 2 t; CText tm; CText (provider r)]))
      stations lines.
Proof.
  unfold csv_rows. intros Hs.
  assert (G : exists lines, mapM csv_row stations = Ok lines /\
            Forall2 (fun r line =>
              (blank r /\
               line = [CText (id r); CBlank; CBlank; CBlank; CText (provider r)]) \/
              (exists e t tm,
                 elev_m r = Some e /\ temp_c r = Some t /\ ob_time r = Some tm /\
                 line = [CText (id r); CFixed 2 e; CFixed 2 t; CText tm;
                         CText (provider r)]))
              stations lines).
  { induction Hs as [|r rest Hr _ (lines & Hm & Hl)]; [exists []; split; constructor|].
    cbn [mapM]. rewrite Hm.
    destruct Hr as [(e & t & tm & He & Ht & Htm)|(He & Ht & Htm)].
    - unfold csv_row. rewrite He, Ht, Htm. simpl. eexists. split; [reflexivity|].
      constructor; [|exact Hl]. right. exists e, t, tm. rewrite He, Ht, Htm. auto.
    - unfold csv_row. rewrite He. eexists. split; [reflexivity|].
      constructor; [|exact Hl]. left. split; [repeat split; assumption|reflexivity]. }
  destruct G as (lines & Hm & Hl). exists lines. rewrite Hm. split; [reflexivity|exact Hl].
Qed.

Lemma csv_rows60_written (rows : list row60) :
  Forall (fun r => blank60 r \/ complete60 r) rows ->
  exists lines,
    csv_rows60 rows = Ok (csv_header60 :: lines) /\
    Forall2 (fun r line =>
      (blank60 r /\
       line = [CText (id60 r); CBlank; CBlank; CBlank; CBlank; CText (provider60 r);
               CText "false"]) \/
      (exists e t tm age,
         elev_m60 r = Some e /\ temp_c60 r = Some t /\ ob_time60 r = Some tm /\
         age_min60 r = Some (Fin age) /\
         line = [CText (id60 r); CFixed 2 e; CFixed 2 t; CText tm; CFixed 1 (Fin age);
                 CText (provider60 r);
                 CText (if Qle_bool age 60 then "true" else "false")]))
      rows lines.
Proof.
  unfold csv_rows60. intros Hs.
  assert (G : exists lines, mapM csv_row60 rows = Ok lines /\
            Forall2 (fun r line =>
              (blank60 r /\
               line = [CText (id60 r); CBlank; CBlank; CBlank; CBlank;
                       CText (provider60 r); CText "false"]) \/
              (exists e t tm age,
                 elev_m60 r = Some e /\ temp_c60 r = Some t /\ ob_time60 r = Some tm /\
                 age_min60 r = Some (Fin age) /\
                 line = [CText (id60 r); CFixed 2 e; CFixed 2 t; CText tm;
                         CFixed 1 (Fin age); CText (provider60 r);
                         CText (if Qle_bool age 60 then "true" else "false")]))
              rows lines).
  { induction Hs as [|r rest Hr _ (lines & Hm & Hl)]; [exists []; split; constructor|].
    cbn [mapM]. rewrite Hm.
    destruct Hr as [(He & Ht & Htm & Ha & Hrec)|(e & t & tm & age & He & Ht & Htm & Ha & Hrec)].
    - unfold csv_row60. rewrite He, Hrec. eexists. split; [reflexivity|].
      constructor; [|exact Hl]. left. split; [repeat split; assumption|reflexivity].
    - unfold csv_row60. rewrite He, Ht, Htm, Ha. simpl. eexists. split; [reflexivity|].
      constructor; [|exact Hl]. right. exists e, t, tm, age.
      rewrite He, Ht, Htm, Ha. do 4 (split; [reflexivity|]).
      do 6 f_equal.
      destruct (recent60 r) eqn:Er, (Qle_bool age 60) eqn:Eq; try reflexivity.
      + exfalso. assert (Hle : age <= 60) by (apply Hrec; reflexivity).
        apply Qle_bool_iff in Hle. congruence.
      + exfalso. apply Qle_bool_iff in Eq. apply Hrec in Eq. discriminate. }
  destruct G as (lines & Hm & Hl). exists lines. rewrite Hm. split; [reflexivity|exact Hl].
Qed.

(** X23.  The station table of the latest variant can always be written: for
    every answer of the service, formatting the rows of
    [fetch_madis_stations] raises nothing, and the table is the header
    followed by one line per configured station, in the order of [STATIONS].
    A line has the station and its provider text around three empty fields,
    or around the elevation and the temperature with two decimals and the
    time of the observation; a half-filled line does not occur. *)
Theorem station_table_is_written (svc : service) :
  exists lines,
    csv_rows (fetch_madis_stations svc) = Ok (csv_header :: lines) /\
    id <$> fetch_madis_stations svc = STATIONS /\
    Forall2 (fun r line =>
      (blank r /\
       line = [CText (id r); CBlank; CBlank; CBlank; CText (provider r)]) \/
      (exists e t tm,
         elev_m r = Some e /\ temp_c r = Some t /\ ob_time r = Some tm /\
         line = [CText (id r); CFixed 2 e; CFixed 2 t; CText tm; CText (provider r)]))
      (fetch_madis_stations svc) lines.
Proof.
  destruct (csv_rows_written (fetch_madis_stations svc)) as (lines & Hc & Hl).
  - eapply Forall_impl; [apply fetch_rows_sourced|]. intros r Hr.
    eapply sourced_shape, Hr.
  - exists lines. split; [exact Hc|]. split; [apply fetch_madis_stations_ids|exact Hl].
Qed.

(** X24.  In the recent-60 variant the station table can be written whenever
    the station rows were fetched: formatting raises nothing, and the table
    is the header followed by one line per configured station in the order
    of [STATIONS].  A line without values has four empty fields and ends in
    [false]; a line with values has the elevation and the temperature with
    two decimals, the time, the age in minutes with one decimal, and ends in
    [true] exactly when the age is at most 60. *)
Theorem station_table60_is_written (svc : service) (now : Q) (rows : list row60) :
  station_rows svc now = Ok rows ->
  exists lines,
    csv_rows60 rows = Ok (csv_header60 :: lines) /\
    id60 <$> rows = STATIONS /\
    Forall2 (fun r line =>
      (blank60 r /\
       line = [CText (id60 r); CBlank; CBlank; CBlank; CBlank; CText (provider60 r);
               CText "false"]) \/
      (exists e t tm age,
         elev_m60 r = Some e /\ temp_c60 r = Some t /\ ob_time60 r = Some tm /\
         age_min60 r = Some (Fin age) /\
         line = [CText (id60 r); CFixed 2 e; CFixed 2 t; CText tm; CFixed 1 (Fin age);
                 CText (provider60 r);
                 CText (if Qle_bool age 60 then "true" else "false")]))
      rows lines.
Proof.
  intros Hr.
  destruct (csv_rows60_written rows (station_rows_values svc now rows Hr))
    as (lines & Hc & Hl).
  exists lines. split; [exact Hc|]. split; [eapply station_rows_ids, Hr|exact Hl].
Qed.

(** X25.  [main] gets as far as the finished station table exactly when the
    newest file is found and downloaded and the chart is drawn from it
    (writing the files apart): the table, which is made after the chart, never
    stops a run.  The chart of the run is the chart of the downloaded text. *)
Theorem run_completes_iff (fetch_text : string -> result string) (svc : service)
  (now : Q) (chart : list svg) :
  ((exists table, run fetch_text svc = Ok (chart, table)) <->
   (exists year doy file raw,
      latest_rass_file_latest fetch_text = Ok (year, doy, file) /\
      fetch_text (rass_url year doy file) = Ok raw /\
      Chart.main raw svc file = Ok chart)) /\
  ((exists table, run60 fetch_text svc now = Ok (chart, table)) <->
   (exists year doy file raw,
      latest_rass_file_recent60 fetch_text = Ok (year, doy, file) /\
      fetch_text (rass_url year doy file) = Ok raw /\
      main60 raw svc now file = Ok chart)).
Proof.
  split; split.
  - intros (table & Hr). unfold run in Hr.
    apply bind_Ok in Hr. destruct Hr as ([[year doy] file] & Hl & Hr).
    apply bind_Ok in Hr. destruct Hr as (raw & Hraw & Hr).
    apply bind_Ok in Hr. destruct Hr as ([obs_dt rp] & Hp & Hr).
    apply bind_Ok in Hr. destruct Hr as (chart' & Hd & Hr).
    apply bind_Ok in Hr. destruct Hr as (table' & Ht & Hr).
    injection Hr as <- <-.
    exists year, doy, file, raw. split; [exact Hl|]. split; [exact Hraw|].
    unfold Chart.main. rewrite Hp. exact Hd.
  - intros (year & doy & file & raw & Hl & Hraw & Hm).
    unfold Chart.main in Hm.
    apply bind_Ok in Hm. destruct Hm as ([obs_dt rp] & Hp & Hd).
    destruct (csv_rows_written (fetch_madis_stations svc)) as (lines & Hc & _).
    { eapply Forall_impl; [apply fetch_rows_sourced|]. intros r Hr.
      eapply sourced_shape, Hr. }
    exists (csv_header :: lines).
    unfold run. rewrite Hl. cbn [Py.bind]. rewrite Hraw. cbn [Py.bind].
    rewrite Hp. cbn [Py.bind]. rewrite Hd. cbn [Py.bind]. rewrite Hc. reflexivity.
  - intros (table & Hr). unfold run60 in Hr.
    apply bind_Ok in Hr. destruct Hr as ([[year doy] file] & Hl & Hr).
    apply bind_Ok in Hr. destruct Hr as (raw & Hraw & Hr).
    apply bind_Ok in Hr. destruct Hr as ([rass_time rp] & Hp & Hr).
    apply bind_Ok in Hr. destruct Hr as (rows & Hrows & Hr).
    apply bind_Ok in Hr. destruct Hr as (chart' & Hd & Hr).
    apply bind_Ok in Hr. destruct Hr as (table' & Ht & Hr).
    injection Hr as <- <-.
    exists year, doy, file, raw. split; [exact Hl|]. split; [exact Hraw|].
    unfold main60. rewrite Hp. cbn [Py.bind]. rewrite Hrows. exact Hd.
  - intros (year & doy & file & raw & Hl & Hraw & Hm).
    unfold main60 in Hm.
    apply bind_Ok in Hm. destruct Hm as ([rass_time rp] & Hp & Hm).
    apply bind_Ok in Hm. destruct Hm as (rows & Hrows & Hd).
    destruct (csv_rows60_written rows (station_rows_values svc now rows Hrows))
      as (lines & Hc & _).
    exists (csv_header60 :: lines).
    unfold run60. rewrite Hl. cbn [Py.bind]. rewrite Hraw. cbn [Py.bind].
    rewrite Hp. cbn [Py.bind]. rewrite Hrows. cbn [Py.bind]. rewrite Hd. cbn [Py.bind].
    rewrite Hc. reflexivity.
Qed.

End ReportFacts.

Lemma station_table60_is_written_witness :
  exists rows lines,
    @station_rows Sample.builtins Sample.stale_service Sample.noon = Ok rows /\
    Report.csv_rows60 rows = Ok (Report.csv_header60 :: lines) /\
    id60 <$> rows = STATIONS.
Proof.
  assert (E : exists rows,
            @station_rows Sample.builtins Sample.stale_service Sample.noon = Ok rows)
    by (vm_compute; eexists; reflexivity).
  destruct E as [rows E].
  destruct (@station_table60_is_written Sample.builtins Sample.stale_service Sample.noon
              rows E) as (lines & Hc & Hid & _).
  exists rows, lines. auto.
Defined.
